(** * sorm: a reflection-driven mapping between Go structs and SQL statements

    A shallow embedding of the mapping core of package [sorm]: the field
    catalogue helpers ([getSQLTableName], [getSQLColumnName],
    [getSQLIDFields]), the row decoder [ScanRows], the select helpers
    ([FindWhere], [FindFirstWhere], [CountWhere] and their variants
    without a fragment), the four mutating operations ([SaveRecord],
    [CreateRecord], [ReplaceRecord], [DeleteRecord]) and
    [SaveRecordWithTransaction].

    Go's [reflect], [database/sql], [reflectutil] and [snaker] are outside
    the package.  What the package reads from them is kept as data
    (struct descriptions with parsed tags, row cursors, a querier that
    answers statements) or, for [snaker.CamelToSnake] and the driver's
    value conversion, as a parameter of the development. *)

From Stdlib Require Import List String Ascii ZArith Bool Arith Lia Permutation.
From Stdlib Require Import DecimalString.
From Stdlib Require DecimalNat.
From Stdlib Require Import Floats.PrimFloat.
Import ListNotations.

Local Open Scope string_scope.
Local Open Scope list_scope.

#[local] Set Warnings "-register-all".

Notation "a +s b" := (String.append a b)
  (at level 60, right associativity, only parsing).

(* ================================================================== *)
(** ** Go values carried in an [interface{}] *)
(* ================================================================== *)

(** The dynamic values that reach [isZero] and [reflect.DeepEqual]: the
    types [isZero] switches on, and two types ([int64], [bool]) that take
    its [default] branch.  A slice or map is [None] when it is nil. *)
Inductive value : Type :=
| VNil
| VInt (n : Z)
| VInt64 (n : Z)
| VBool (b : bool)
| VFloat64 (f : float)
| VString (s : string)
| VStrings (l : option (list string))
| VIfaces (l : option (list value))
| VMap (m : option (list (string * value))).

Definition len {A : Type} (s : option (list A)) : nat :=
  match s with
  | None => 0
  | Some l => List.length l
  end.

(** [reflect.Value.IsZero] on the values above that reach it. *)
Definition reflect_IsZero (v : value) : bool :=
  match v with
  | VNil => true
  | VInt n | VInt64 n => Z.eqb n 0
  | VBool b => negb b
  | VFloat64 f => PrimFloat.eqb f 0%float
  | VString s => String.eqb s ""
  | VStrings None | VIfaces None | VMap None => true
  | VStrings (Some _) | VIfaces (Some _) | VMap (Some _) => false
  end.

Definition isZero (i : value) : bool :=
  match i with
  | VIfaces v => Nat.eqb (len v) 0
  | VStrings v => Nat.eqb (len v) 0
  | VMap v => Nat.eqb (len v) 0
  | VInt v => Z.eqb v 0
  | VFloat64 v => PrimFloat.eqb v 0%float
  | VString v => String.eqb v ""
  | VNil => true
  | _ => reflect_IsZero i
  end.

Fixpoint list_eqb {A : Type} (eqb : A -> A -> bool) (l1 l2 : list A) : bool :=
  match l1, l2 with
  | [], [] => true
  | x :: xs, y :: ys => eqb x y && list_eqb eqb xs ys
  | _, _ => false
  end.

Fixpoint map_get {A : Type} (k : string) (m : list (string * A)) : option A :=
  match m with
  | [] => None
  | (k', v) :: m' => if String.eqb k k' then Some v else map_get k m'
  end.

(** [reflect.DeepEqual]: same dynamic type and equal contents; a nil slice
    or map equals only a nil one; floats compare as [==] does. *)
Fixpoint DeepEqual (a b : value) {struct a} : bool :=
  match a, b with
  | VNil, VNil => true
  | VInt x, VInt y => Z.eqb x y
  | VInt64 x, VInt64 y => Z.eqb x y
  | VBool x, VBool y => Bool.eqb x y
  | VFloat64 x, VFloat64 y => PrimFloat.eqb x y
  | VString x, VString y => String.eqb x y
  | VStrings None, VStrings None => true
  | VStrings (Some x), VStrings (Some y) => list_eqb String.eqb x y
  | VIfaces None, VIfaces None => true
  | VIfaces (Some x), VIfaces (Some y) =>
      (fix go (l1 l2 : list value) {struct l1} : bool :=
         match l1, l2 with
         | [], [] => true
         | u :: us, w :: ws => DeepEqual u w && go us ws
         | _, _ => false
         end) x y
  | VMap None, VMap None => true
  | VMap (Some x), VMap (Some y) =>
      Nat.eqb (List.length x) (List.length y) &&
      (fix go (l1 : list (string * value)) {struct l1} : bool :=
         match l1 with
         | [] => true
         | (k, u) :: rest =>
             match map_get k y with
             | Some w => DeepEqual u w && go rest
             | None => false
             end
         end) x
  | _, _ => false
  end.

(* ================================================================== *)
(** ** Errors *)
(* ================================================================== *)

Inductive Kind : Type :=
| KInvalid | KBool | KInt | KInt64 | KFloat64 | KString
| KSlice | KMap | KStruct | KPtr | KInterface | KFunc.

(** The errors the package builds.  [Wrap p e] is
    [fmt.Errorf(p + ": %w", e)]; [External] is an error that comes from
    the driver, a hook or a scanner. *)
Inductive error : Type :=
| External (msg : string)
| Wrap (prefix : string) (cause : error)
| ExpectedPointer (op : string) (was : Kind)
| ExpectedPointerToSlice (was : Kind)
| ExpectedPointerToSliceOfStruct (was : Kind)
| ExpectedPointerToStruct (op : string) (was : Kind)
| MissingFields (type_name : string) (missing : list string)
| NoIDFields (op : string)
| ErrNoRows
| Panic (msg : string).

(* ================================================================== *)
(** ** Struct descriptions (package reflectutil) *)
(* ================================================================== *)

(** A parsed struct tag [key:"value,param,param:value"]. *)
Record Tag : Type := mkTag {
  Value : string;
  Parameters : list (string * string)
}.

Definition TagParameter (t : Tag) (name : string) : option string :=
  map_get name (Parameters t).

(** A field of a struct description.  [Index] is the place of the field's
    value in a record of the type (reflectutil keeps a path for fields of
    embedded structs; records are kept flat here), [Zero] the zero value
    of the field's type. *)
Record Field : Type := mkField {
  Name : string;
  Index : nat;
  Tags : list (string * Tag);
  Zero : value
}.

Definition FieldTag (f : Field) (key : string) : option Tag :=
  map_get key (Tags f).

Record StructDescription : Type := mkDesc {
  TypeName : string;
  Fields : list Field
}.

Definition WithTagValue (l : list Field) (key val : string) : list Field :=
  filter (fun f => match FieldTag f key with
                   | Some t => String.eqb (Value t) val
                   | None => false
                   end) l.

Definition WithoutTagValue (l : list Field) (key val : string) : list Field :=
  filter (fun f => match FieldTag f key with
                   | Some t => negb (String.eqb (Value t) val)
                   | None => true
                   end) l.

(** [vdesc.Field(name)]: the field declared under that Go name. *)
Definition FieldNamed (vdesc : StructDescription) (name : string) : option Field :=
  find (fun f => String.eqb (Name f) name) (Fields vdesc).

(* ================================================================== *)
(** ** Records, interface values, cursors and the querier *)
(* ================================================================== *)

(** A record of a struct type: the values of its fields, by [Index]. *)
Definition record : Type := list value.

Definition FieldByIndex (v : record) (index : nat) : value :=
  nth index v VNil.

Fixpoint SetField (v : record) (index : nat) (x : value) : record :=
  match v, index with
  | [], _ => []
  | _ :: rest, O => x :: rest
  | y :: rest, S i => y :: SetField rest i x
  end.

(** A custom decode target ([sql.Scanner]) handed out by [OverrideScan]:
    it receives the column's value and may write into the record. *)
Definition Scanner : Type := value -> record -> error + record.

(** A struct type as the package sees it: its description (reflectutil
    may fail on it) and, when the pointer type implements
    [OverrideScanner], its [OverrideScan] method. *)
Record StructType : Type := mkStructType {
  Description : error + StructDescription;
  TypeString : string;
  OverrideScan : option (list string -> error + list (option Scanner))
}.

(** What a pointer handed to the package points to. *)
Inductive pointee : Type :=
| PStruct (t : StructType) (v : record)
| PSlice (t : StructType) (items : list record)
| PSliceOf (elem : Kind)
| POther (k : Kind).

(** The dynamic value of an [interface{}] argument. *)
Inductive iface : Type :=
| NonPtr (k : Kind)
| Ptr (p : pointee).

Definition pointee_kind (p : pointee) : Kind :=
  match p with
  | PStruct _ _ => KStruct
  | PSlice _ _ | PSliceOf _ => KSlice
  | POther k => k
  end.

(** A lifecycle hook: a method on the argument's dynamic type.  It may
    change what the argument points to and may fail. *)
Definition Hook : Type := iface -> iface * option error.

Record Methods : Type := mkMethods {
  BeforeSave : option Hook;
  AfterSave : option Hook;
  BeforeCreate : option Hook;
  AfterCreate : option Hook;
  BeforeReplace : option Hook;
  AfterReplace : option Hook;
  BeforeDelete : option Hook;
  AfterDelete : option Hook
}.

Definition noMethods : Methods :=
  mkMethods None None None None None None None None.

(** A result cursor ([*sql.Rows]): its column names and the rows it
    yields, each a list of driver values. *)
Record Rows : Type := mkRows {
  Columns : error + list string;
  Data : list (list value);
  Close : option error
}.

(** The consumed capability: what the database answers to a statement. *)
Record Querier : Type := mkQuerier {
  ExecContext : string -> list value -> option error;
  QueryContext : string -> list value -> error + Rows;
  QueryRowContext : string -> list value -> error + value
}.

(** What an operation does that a caller can observe from outside. *)
Inductive event : Type :=
| EvExec (query : string) (args : list value)
| EvQuery (query : string) (args : list value)
| EvQueryRow (query : string) (args : list value)
| EvLogQuery (query : string) (args : list value)
| EvLogQueryAfter (query : string) (args : list value) (err : option error)
| EvHook (name : string).

(* ================================================================== *)
(** ** The monad of the operations *)
(* ================================================================== *)

(** An operation runs against the object its [interface{}] argument
    refers to ([self]) and leaves a [trace]; it ends with a result or
    with the error it returns.  Changes made before an error stay. *)
Record World : Type := mkWorld {
  trace : list event;
  self : iface
}.

Definition M (A : Type) : Type := World -> (error + A) * World.

Definition ret {A : Type} (a : A) : M A := fun w => (inr a, w).

Definition throw {A : Type} (e : error) : M A := fun w => (inl e, w).

Definition bind {A B : Type} (m : M A) (k : A -> M B) : M B :=
  fun w => match m w with
           | (inl e, w') => (inl e, w')
           | (inr a, w') => k a w'
           end.

Notation "x <- m ;; k" := (bind m (fun x => k))
  (at level 61, m at next level, right associativity).
Notation "' pat <- m ;; k" :=
  (bind m (fun x => match x with pat => k end))
  (at level 61, pat pattern, m at next level, right associativity).
Notation "m ;;; k" := (bind m (fun _ => k))
  (at level 61, right associativity).

Definition emit (e : event) : M unit :=
  fun w => (inr tt, mkWorld (trace w ++ [e]) (self w)).

Definition getSelf : M iface := fun w => (inr (self w), w).

Definition setSelf (x : iface) : M unit :=
  fun w => (inr tt, mkWorld (trace w) x).

Definition liftE {A : Type} (r : error + A) : M A :=
  fun w => (r, w).

(** Run [m] against another object [o] (a pointer the operation made
    itself); the caller's own object is untouched.  Returns what [o]
    refers to afterwards together with [m]'s outcome. *)
Definition withObject {A : Type} (o : iface) (m : M A) : M (iface * (error + A)) :=
  fun w => match m (mkWorld (trace w) o) with
           | (r, w') => (inr (self w', r), mkWorld (trace w') (self w))
           end.

(** The error a Go function returns: [None] is [nil]. *)
Definition returned {A : Type} (r : (error + A) * World) : option error :=
  match fst r with
  | inl e => Some e
  | inr _ => None
  end.

Definition final {A : Type} (r : (error + A) * World) : World := snd r.

Definition attempt {A : Type} (m : M A) : M (error + A) :=
  fun w => match m w with
           | (r, w') => (inr r, w')
           end.

(** [fmt.Errorf(prefix + ": %w", err)] on the error path of [r]. *)
Definition wrapE {A : Type} (prefix : string) (r : error + A) : error + A :=
  match r with
  | inl e => inl (Wrap prefix e)
  | inr a => inr a
  end.

(** [%d] of a non-negative [int]. *)
Definition itoa (n : nat) : string :=
  NilEmpty.string_of_uint (Nat.to_uint n).

(** [strings.Join]. *)
Fixpoint Join (a : list string) (sep : string) : string :=
  match a with
  | [] => ""
  | [x] => x
  | x :: rest => x +s sep +s Join rest sep
  end.

Definition nonEmpty (s : string) : bool := negb (String.eqb s "").

(** [reflect.New(vtyp).Elem()]: the zero record of a described type,
    field by field in the order of the description (a field's [Index] is
    its place in that order). *)
Definition zeroRecord (vdesc : StructDescription) : record :=
  map Zero (Fields vdesc).

(** A destination handed to [rows.Scan]: the address of a field, a custom
    scanner, or (index never set) the address of the record itself, which
    the driver cannot scan into. *)
Inductive dest : Type :=
| DField (index : nat)
| DScanner (s : Scanner)
| DRecord.

Section Sorm.

(** [snaker.CamelToSnake]. *)
Variable CamelToSnake : string -> string.

(** The driver's conversion of a column value into a field:
    [convertAssign held src] is what a field that holds [held] receives
    from [src], or the conversion error. *)
Variable convertAssign : value -> value -> error + value.

(** The process-wide settings: [parameterPrefix], and [queryLogger]
    ([None] when unset, otherwise whether it is a [QueryLoggerAfter]). *)
Variable parameterPrefix : string.
Variable queryLogger : option bool.

Definition makeParameter (n : nat) : string :=
  let s := parameterPrefix in
  let s := if String.eqb s "" then "$" else s in
  s +s itoa n.

Definition LogQuery (query : string) (vars : list value) : M unit :=
  match queryLogger with
  | Some _ => emit (EvLogQuery query vars)
  | None => ret tt
  end.

Definition LogQueryAfter (query : string) (vars : list value)
    (err : option error) : M unit :=
  match queryLogger with
  | Some true => emit (EvLogQueryAfter query vars err)
  | _ => ret tt
  end.

(** The description of a type.  The package memoises it in
    [descriptionCache]; the cache does not change what is returned. *)
Definition getDescriptionFromType (typ : StructType) : error + StructDescription :=
  Description typ.

(** The table a single field names: its [table] tag, else the [table]
    parameter of its [sql] tag. *)
Definition sqlTableParameter (f : Field) : option string :=
  match FieldTag f "sql" with
  | Some t =>
      match TagParameter t "table" with
      | Some p => if nonEmpty p then Some p else None
      | None => None
      end
  | None => None
  end.

Definition fieldTable (f : Field) : option string :=
  match FieldTag f "table" with
  | Some t => if nonEmpty (Value t) then Some (Value t) else sqlTableParameter f
  | None => sqlTableParameter f
  end.

Fixpoint tableOverride (l : list Field) : option string :=
  match l with
  | [] => None
  | f :: rest =>
      match fieldTable f with
      | Some s => Some s
      | None => tableOverride rest
      end
  end.

Definition getSQLTableName (vdesc : StructDescription) : string :=
  match tableOverride (Fields vdesc) with
  | Some s => s
  | None => CamelToSnake (TypeName vdesc) +s "s"
  end.

Definition getSQLColumnName (f : Field) : string :=
  match FieldTag f "sql" with
  | Some t => if nonEmpty (Value t) then Value t else CamelToSnake (Name f)
  | None => CamelToSnake (Name f)
  end.

Definition hasIDParameter (f : Field) : bool :=
  match FieldTag f "sql" with
  | Some t => match TagParameter t "id" with Some _ => true | None => false end
  | None => false
  end.

Definition getSQLIDFields (vdesc : StructDescription) : list Field :=
  let r := filter hasIDParameter (WithoutTagValue (Fields vdesc) "sql" "-") in
  match r with
  | [] =>
      match FieldNamed vdesc "ID" with
      | Some f =>
          match FieldTag f "sql" with
          | None => [f]
          | Some t => if negb (String.eqb (Value t) "-") then [f] else []
          end
      | None => []
      end
  | _ => r
  end.

(** *** The row decoder *)

(** The body of the [outer] loop of [ScanRows] for one column name:
    the field the column is bound to, if any. *)
Definition resolveColumn (vdesc : StructDescription) (name : string) : option Field :=
  match WithTagValue (Fields vdesc) "sql" name with
  | [f] => Some f
  | _ =>
      match FieldNamed vdesc name with
      | Some f => Some f
      | None =>
          find (fun f => String.eqb (CamelToSnake (Name f)) name) (Fields vdesc)
      end
  end.

(** The [outer] loop: [goNames], [indexes] and [missing]. *)
Fixpoint resolveColumns (vdesc : StructDescription) (names : list string)
    : list string * list (option nat) * list string :=
  match names with
  | [] => ([], [], [])
  | name :: rest =>
      let '(goNames, indexes, missing) := resolveColumns vdesc rest in
      match resolveColumn vdesc name with
      | Some f => (Name f :: goNames, Some (Index f) :: indexes, missing)
      | None => ("" :: goNames, None :: indexes, name :: missing)
      end
  end.

(** The destinations of one row: the custom scanner where
    [OverrideScan] supplied one, the field's address otherwise. *)
Fixpoint scanArgs (indexes : list (option nat)) (scanners : option (list (option Scanner)))
    : list dest :=
  match indexes with
  | [] => []
  | index :: rest =>
      let own := match index with Some i => DField i | None => DRecord end in
      match scanners with
      | Some (Some s :: ss) => DScanner s :: scanArgs rest (Some ss)
      | Some (None :: ss) => own :: scanArgs rest (Some ss)
      | Some [] => own :: scanArgs rest (Some [])
      | None => own :: scanArgs rest None
      end
  end.

(** [rows.Scan(args...)] on the current row [src], writing into [v]. *)
Fixpoint rowsScan (args : list dest) (src : list value) (v : record) : error + record :=
  match args, src with
  | [], [] => inr v
  | a :: args', x :: src' =>
      let r := match a with
               | DField i =>
                   match convertAssign (FieldByIndex v i) x with
                   | inl e => inl e
                   | inr y => inr (SetField v i y)
                   end
               | DScanner s => s x v
               | DRecord => inl (External "sql: unsupported Scan destination")
               end in
      match r with
      | inl e => inl e
      | inr v' => rowsScan args' src' v'
      end
  | _, _ => inl (External "sql: wrong number of destination arguments in Scan")
  end.

(** One turn of the [rows.Next()] loop: the decoded record. *)
Definition scanRow (vtyp : StructType) (vdesc : StructDescription)
    (goNames : list string) (indexes : list (option nat)) (src : list value)
    : error + record :=
  let v := zeroRecord vdesc in
  match OverrideScan vtyp with
  | Some overrideScan =>
      match overrideScan goNames with
      | inl err => inl (Wrap "could not get scanner overrides" err)
      | inr scanners =>
          wrapE "ScanRows" (rowsScan (scanArgs indexes (Some scanners)) src v)
      end
  | None => wrapE "ScanRows" (rowsScan (scanArgs indexes None) src v)
  end.

(** The [rows.Next()] loop, appending to the local slice [arr]. *)
Fixpoint scanLoop (vtyp : StructType) (vdesc : StructDescription)
    (goNames : list string) (indexes : list (option nat))
    (data : list (list value)) (arr : list record) : error + list record :=
  match data with
  | [] => inr arr
  | src :: rest =>
      match scanRow vtyp vdesc goNames indexes src with
      | inl err => inl err
      | inr v => scanLoop vtyp vdesc goNames indexes rest (arr ++ [v])
      end
  end.

Definition ScanRows (rows : Rows) : M unit :=
  out <- getSelf ;;
  match out with
  | NonPtr k => throw (ExpectedPointer "" k)
  | Ptr (PSliceOf k) => throw (ExpectedPointerToSliceOfStruct k)
  | Ptr (PSlice vtyp _) =>
      vdesc <- liftE (wrapE ("could not get detailed reflection information for type "
                             +s TypeString vtyp) (getDescriptionFromType vtyp)) ;;
      names <- liftE (wrapE "ScanRows" (Columns rows)) ;;
      let '(goNames, indexes, missing) := resolveColumns vdesc names in
      if Nat.ltb 0 (List.length missing) then
        throw (MissingFields (TypeName vdesc) missing)
      else
        arr <- liftE (scanLoop vtyp vdesc goNames indexes (Data rows) []) ;;
        setSelf (Ptr (PSlice vtyp arr))
  | Ptr p => throw (ExpectedPointerToSlice (pointee_kind p))
  end.

(** *** The select helpers *)

Definition FindWhere (db : Querier) (where_ : string) (args : list value) : M unit :=
  out <- getSelf ;;
  match out with
  | NonPtr k => throw (ExpectedPointer "" k)
  | Ptr (PSliceOf k) => throw (ExpectedPointerToSliceOfStruct k)
  | Ptr (PSlice vtyp _) =>
      vdesc <- liftE (wrapE ("FindWhere: could not get detailed reflection information for type "
                             +s TypeString vtyp) (getDescriptionFromType vtyp)) ;;
      let tbl := getSQLTableName vdesc in
      let where_ := if nonEmpty where_ then " " +s where_ else where_ in
      let query := "select * from " +s tbl +s where_ in
      LogQuery query args ;;;
      emit (EvQuery query args) ;;;
      match QueryContext db query args with
      | inl err =>
          LogQueryAfter query args (Some err) ;;;
          throw (Wrap "FindWhere" err)
      | inr rows =>
          r <- attempt (ScanRows rows) ;;
          match r with
          | inl err =>
              LogQueryAfter query args (Some err) ;;;
              throw err
          | inr _ =>
              match Close rows with
              | Some err =>
                  LogQueryAfter query args (Some err) ;;;
                  throw (Wrap "FindWhere" err)
              | None => LogQueryAfter query args None
              end
          end
      end
  | Ptr p => throw (ExpectedPointerToSlice (pointee_kind p))
  end.

Definition FindFirstWhere (db : Querier) (where_ : string) (args : list value) : M unit :=
  out <- getSelf ;;
  match out with
  | NonPtr k => throw (ExpectedPointer "" k)
  | Ptr (PStruct vtyp _) =>
      let arr := Ptr (PSlice vtyp []) in
      let where_ := if nonEmpty where_ then where_ +s " " else where_ in
      r <- withObject arr (FindWhere db (where_ +s "limit 1") args) ;;
      match r with
      | (_, inl err) => throw err
      | (Ptr (PSlice _ (first :: _)), inr _) => setSelf (Ptr (PStruct vtyp first))
      | (_, inr _) => throw ErrNoRows
      end
  | Ptr p => throw (ExpectedPointerToStruct "" (pointee_kind p))
  end.

(** *** Lifecycle hooks *)

(** [if v, ok := input.(H); ok { if err := v.H(ctx, tx); err != nil ... }] *)
Definition runHook (op name : string) (h : option Hook) : M unit :=
  match h with
  | None => ret tt
  | Some hook =>
      input <- getSelf ;;
      emit (EvHook name) ;;;
      let '(input', err) := hook input in
      setSelf input' ;;;
      match err with
      | Some e => throw (Wrap (op +s ": " +s name +s " callback returned an error") e)
      | None => ret tt
      end
  end.

(** The checks every mutating operation makes on its argument: a
    pointer to a struct whose type can be described and has identity
    fields. *)
Definition checkInput (op : string)
    : M (StructType * StructDescription * list Field) :=
  input <- getSelf ;;
  match input with
  | NonPtr k => throw (ExpectedPointer op k)
  | Ptr (PStruct vtyp _) =>
      vdesc <- liftE (wrapE (op +s ": could not get detailed reflection information for type "
                             +s TypeString vtyp) (getDescriptionFromType vtyp)) ;;
      let idFields := getSQLIDFields vdesc in
      if Nat.eqb (List.length idFields) 0 then throw (NoIDFields op)
      else ret (vtyp, vdesc, idFields)
  | Ptr p => throw (ExpectedPointerToStruct op (pointee_kind p))
  end.

(** The record behind the argument, read again at each use (a hook or
    a scan may have changed it). *)
Definition fieldsOf (input : iface) : record :=
  match input with
  | Ptr (PStruct _ v) => v
  | _ => []
  end.

(** [tx.ExecContext(ctx, query, values...)] with the logger's calls
    around it, as each mutating operation writes it out; a failure is
    returned as [op: err]. *)
Definition execLogged (op : string) (tx : Querier) (query : string)
    (values : list value) : M unit :=
  LogQuery query values ;;;
  emit (EvExec query values) ;;;
  match ExecContext tx query values with
  | Some err =>
      LogQueryAfter query values (Some err) ;;;
      throw (Wrap op err)
  | None => LogQueryAfter query values None
  end.

(** The identity [where] clause of [SaveRecord]: clause and arguments. *)
Fixpoint saveWhere (idFields : list Field) (v : record)
    (where_ : string) (values : list value) : string * list value :=
  match idFields with
  | [] => (where_, values)
  | idField :: rest =>
      let where_ := if String.eqb where_ "" then where_ +s "where " else where_ +s " and " in
      let where_ := where_ +s getSQLColumnName idField +s " = "
                           +s makeParameter (List.length values + 1) in
      saveWhere rest v where_ (values ++ [FieldByIndex v (Index idField)])
  end.

Definition isReadonly (f : Field) : bool :=
  match FieldTag f "sql" with
  | Some t => match TagParameter t "readonly" with Some _ => true | None => false end
  | None => false
  end
  ||
  match FieldTag f "readonly" with
  | Some t => nonEmpty (Value t)
  | None => false
  end.

(** The diff loop of [SaveRecord]: [fields], [values] and [modify]. *)
Fixpoint saveDiff (l : list Field) (previous v : record)
    (fields : string) (values : list value) (modify : bool)
    : string * list value * bool :=
  match l with
  | [] => (fields, values, modify)
  | f :: rest =>
      if isReadonly f then saveDiff rest previous v fields values modify
      else if DeepEqual (FieldByIndex previous (Index f)) (FieldByIndex v (Index f))
      then saveDiff rest previous v fields values modify
      else
        let fields := if String.eqb fields "" then fields +s "set " else fields +s ", " in
        let fields := fields +s getSQLColumnName f +s " = "
                             +s makeParameter (List.length values + 1) in
        saveDiff rest previous v fields (values ++ [FieldByIndex v (Index f)]) true
  end.

Definition SaveRecord (m : Methods) (tx : Querier) : M unit :=
  runHook "SaveRecord" "BeforeSave" (BeforeSave m) ;;;
  '(vtyp, vdesc, idFields) <- checkInput "SaveRecord" ;;
  input <- getSelf ;;
  let v := fieldsOf input in
  let '(where_, values) := saveWhere idFields v "" [] in
  r <- withObject (Ptr (PStruct vtyp (zeroRecord vdesc)))
                  (FindFirstWhere tx where_ values) ;;
  match r with
  | (_, inl err) => throw (Wrap "SaveRecord: couldn't find record" err)
  | (previous, inr _) =>
      let '(fields, values, modify) :=
        saveDiff (WithoutTagValue (Fields vdesc) "sql" "-")
                 (fieldsOf previous) v "" values false in
      if negb modify then ret tt
      else
        let tbl := getSQLTableName vdesc in
        let query := "update " +s tbl +s " " +s fields +s " " +s where_ in
        execLogged "SaveRecord" tx query values ;;;
        runHook "SaveRecord" "AfterSave" (AfterSave m)
  end.

(** The column loop of [CreateRecord]: [a1], [a2], [values], [fetchID]. *)
Fixpoint createColumns (basicID : bool) (l : list Field) (v : record)
    (a1 a2 : list string) (values : list value) (fetchID : bool)
    : list string * list string * list value * bool :=
  match l with
  | [] => (a1, a2, values, fetchID)
  | f :: rest =>
      if basicID && String.eqb (Name f) "ID" && isZero (FieldByIndex v (Index f))
      then createColumns basicID rest v a1 a2 values true
      else
        let a1 := a1 ++ [getSQLColumnName f] in
        let a2 := a2 ++ [makeParameter (List.length a1)] in
        createColumns basicID rest v a1 a2 (values ++ [FieldByIndex v (Index f)]) fetchID
  end.

(** [tx.QueryRowContext(ctx, query).Scan(&input.ID)] *)
Definition fetchInsertID (tx : Querier) (vtyp : StructType)
    (vdesc : StructDescription) (query : string) (v : record) : error + record :=
  match FieldNamed vdesc "ID" with
  | None => inl (Panic "reflect: call of reflect.Value.Addr on zero Value")
  | Some f =>
      match QueryRowContext tx query [] with
      | inl err => inl err
      | inr x =>
          match convertAssign (FieldByIndex v (Index f)) x with
          | inl err => inl err
          | inr y => inr (SetField v (Index f) y)
          end
      end
  end.

Definition CreateRecord (m : Methods) (tx : Querier) : M unit :=
  runHook "CreateRecord" "BeforeCreate" (BeforeCreate m) ;;;
  '(vtyp, vdesc, idFields) <- checkInput "CreateRecord" ;;
  input <- getSelf ;;
  let v := fieldsOf input in
  let basicID :=
    match idFields with
    | [f] => String.eqb (Name f) "ID"
    | _ => false
    end in
  let '(a1, a2, values, fetchID) :=
    createColumns basicID (WithoutTagValue (Fields vdesc) "sql" "-") v [] [] [] false in
  let tbl := getSQLTableName vdesc in
  let query := "insert into " +s tbl +s " (" +s Join a1 ", "
               +s ") values (" +s Join a2 ", " +s ")" in
  execLogged "CreateRecord" tx query values ;;;
  (if basicID && fetchID then
     let query := "select last_insert_rowid()" in
     LogQuery query values ;;;
     emit (EvQueryRow query []) ;;;
     match fetchInsertID tx vtyp vdesc query v with
     | inl err =>
         LogQueryAfter query values (Some err) ;;;
         throw (Wrap "CreateRecord: couldn't fetch insert id" err)
     | inr v' =>
         setSelf (Ptr (PStruct vtyp v')) ;;;
         LogQueryAfter query values None
     end
   else ret tt) ;;;
  runHook "CreateRecord" "AfterCreate" (AfterCreate m).

(** The column loop of [ReplaceRecord]. *)
Fixpoint replaceColumns (l : list Field) (v : record)
    (a1 a2 : list string) (values : list value)
    : list string * list string * list value :=
  match l with
  | [] => (a1, a2, values)
  | f :: rest =>
      let a1 := a1 ++ [getSQLColumnName f] in
      let a2 := a2 ++ [makeParameter (List.length a1)] in
      replaceColumns rest v a1 a2 (values ++ [FieldByIndex v (Index f)])
  end.

Definition ReplaceRecord (m : Methods) (tx : Querier) : M unit :=
  runHook "ReplaceRecord" "BeforeReplace" (BeforeReplace m) ;;;
  '(vtyp, vdesc, idFields) <- checkInput "ReplaceRecord" ;;
  input <- getSelf ;;
  let v := fieldsOf input in
  let '(a1, a2, values) :=
    replaceColumns (WithoutTagValue (Fields vdesc) "sql" "-") v [] [] [] in
  let tbl := getSQLTableName vdesc in
  let query := "insert or replace into " +s tbl +s " (" +s Join a1 ", "
               +s ") values (" +s Join a2 ", " +s ")" in
  execLogged "ReplaceRecord" tx query values ;;;
  runHook "ReplaceRecord" "AfterReplace" (AfterReplace m).

(** The identity [where] clause of [DeleteRecord]. *)
Fixpoint deleteWhere (idFields : list Field) (v : record)
    (where_ : string) (values : list value) : string * list value :=
  match idFields with
  | [] => (where_, values)
  | f :: rest =>
      let where_ := if String.eqb where_ "" then where_ +s "where " else where_ +s "and " in
      let where_ := where_ +s getSQLColumnName f +s " = "
                           +s makeParameter (List.length values + 1) in
      deleteWhere rest v where_ (values ++ [FieldByIndex v (Index f)])
  end.

Definition DeleteRecord (m : Methods) (tx : Querier) : M unit :=
  runHook "DeleteRecord" "BeforeDelete" (BeforeDelete m) ;;;
  '(vtyp, vdesc, idFields) <- checkInput "DeleteRecord" ;;
  input <- getSelf ;;
  let v := fieldsOf input in
  let '(where_, values) := deleteWhere idFields v "" [] in
  let tbl := getSQLTableName vdesc in
  let query := "delete from " +s tbl +s " " +s where_ in
  execLogged "DeleteRecord" tx query values ;;;
  runHook "DeleteRecord" "AfterDelete" (AfterDelete m).

End Sorm.

(* ================================================================== *)
(** ** The rest of the package: counting, wrappers and the
       transaction helper *)
(* ================================================================== *)

(** A transaction ([*sql.Tx]): the statements it runs and what its
    [Commit] answers.  A database ([*sql.DB]): what [BeginTx] answers. *)
Record Tx : Type := mkTx {
  TxQuerier : Querier;
  Commit : option error
}.

Record DB : Type := mkDB {
  BeginTx : error + Tx
}.

(** What the database sees of a call that manages its own transaction:
    the calls on the transaction besides the events inside it. *)
Inductive txEvent : Type :=
| EvBegin
| EvInTx (e : event)
| EvCommit
| EvRollback.

Section SormRest.

Variable CamelToSnake : string -> string.
Variable convertAssign : value -> value -> error + value.
Variable parameterPrefix : string.
Variable queryLogger : option bool.

(** [TableName]: the table of a struct value; it panics when the type
    cannot be described. *)
Definition TableName (t : StructType) : error + string :=
  match getDescriptionFromType t with
  | inl err => inl (Panic "TableName")
  | inr d => inr (getSQLTableName CamelToSnake d)
  end.

(** [db.QueryRowContext(ctx, query, args...).Scan(&n)] for [var n int].
    A conversion into an [int] yields an [int]; any other answer of
    [convertAssign] is reported as the failure it would be. *)
Definition scanCount (db : Querier) (query : string) (args : list value) : error + Z :=
  match QueryRowContext db query args with
  | inl err => inl err
  | inr x =>
      match convertAssign (VInt 0) x with
      | inl err => inl err
      | inr (VInt n) => inr n
      | inr _ => inl (External "sql: Scan error: unsupported conversion")
      end
  end.

Definition CountWhere (db : Querier) (where_ : string) (args : list value) : M Z :=
  val <- getSelf ;;
  match val with
  | NonPtr k => throw (ExpectedPointer "" k)
  | Ptr (PStruct vtyp _) =>
      vdesc <- liftE (wrapE ("CountWhere: could not get detailed reflection information for type "
                             +s TypeString vtyp) (getDescriptionFromType vtyp)) ;;
      let tbl := getSQLTableName CamelToSnake vdesc in
      let where_ := if nonEmpty where_ then " " +s where_ else where_ in
      let query := "select count(*) from " +s tbl +s where_ in
      LogQuery queryLogger query args ;;;
      emit (EvQueryRow query args) ;;;
      match scanCount db query args with
      | inl err =>
          LogQueryAfter queryLogger query args (Some err) ;;;
          throw (Wrap "CountWhere" err)
      | inr n =>
          LogQueryAfter queryLogger query args None ;;;
          ret n
      end
  | Ptr p => throw (ExpectedPointerToStruct "" (pointee_kind p))
  end.

Definition CountAll (db : Querier) : M Z :=
  CountWhere db "" [].

Definition FindAll (db : Querier) : M unit :=
  FindWhere CamelToSnake convertAssign queryLogger db "" [].

Definition FindFirst (db : Querier) : M unit :=
  FindFirstWhere CamelToSnake convertAssign queryLogger db "" [].

(** [SaveRecordWithTransaction]: [SaveRecord] inside a transaction of
    its own.  The deferred [tx.Rollback()] runs on every return after
    the transaction was opened (after a commit it has nothing to undo).
    The answer is the error returned, what the database saw, and what
    the argument refers to afterwards. *)
Definition SaveRecordWithTransaction (m : Methods) (db : DB) (input : iface)
    : option error * list txEvent * iface :=
  match BeginTx db with
  | inl err =>
      (Some (Wrap "SaveRecordWithTransaction: couldn't open a transaction" err),
       [EvBegin], input)
  | inr tx =>
      let r := SaveRecord CamelToSnake convertAssign parameterPrefix queryLogger
                 m (TxQuerier tx) (mkWorld [] input) in
      let inside := EvBegin :: map EvInTx (trace (snd r)) in
      match fst r with
      | inl err =>
          (Some (Wrap "SaveRecordWithTransaction" err),
           inside ++ [EvRollback], self (snd r))
      | inr _ =>
          match Commit tx with
          | Some err =>
              (Some (Wrap "SaveRecordWithTransaction: couldn't commit transaction" err),
               inside ++ [EvCommit; EvRollback], self (snd r))
          | None => (None, inside ++ [EvCommit; EvRollback], self (snd r))
          end
      end
  end.

End SormRest.

(* ================================================================== *)
(** ** Vocabulary of the specification *)
(* ================================================================== *)

(** The statements an operation sent to the database, in order. *)
Definition isStatement (e : event) : bool :=
  match e with
  | EvExec _ _ | EvQuery _ _ | EvQueryRow _ _ => true
  | _ => false
  end.

Definition statements (tr : list event) : list event :=
  filter isStatement tr.

(** An excluded field: column name [-] in its [sql] annotation. *)
Definition excluded (f : Field) : bool :=
  match FieldTag f "sql" with
  | Some t => String.eqb (Value t) "-"
  | None => false
  end.


(** The fields [SaveRecord] may update, and those among them whose
    in-memory value is not structurally equal to the snapshot's. *)
Definition updatable (f : Field) : bool :=
  negb (excluded f) && negb (isReadonly f).

Definition differs (previous v : record) (f : Field) : bool :=
  negb (DeepEqual (FieldByIndex previous (Index f)) (FieldByIndex v (Index f))).

Definition changedFields (vdesc : StructDescription) (previous v : record) : list Field :=
  filter (fun f => updatable f && differs previous v f) (Fields vdesc).

(** The statements an operation executed (as opposed to queried). *)
Definition isExec (e : event) : bool :=
  match e with
  | EvExec _ _ => true
  | _ => false
  end.

Definition executed (tr : list event) : list event :=
  filter isExec tr.

(** An operation preserves the events that [p] selects when it adds
    none of them to the trace.  It is quiet when it executes no
    statement, and silent when it sends none at all. *)
Definition preserves {A : Type} (p : event -> bool) (m : M A) : Prop :=
  forall w, filter p (trace (snd (m w))) = filter p (trace w).

Abbreviation quiet := (preserves isExec).
Abbreviation silent := (preserves isStatement).

(** What a hook, when the argument has one, makes of the argument and
    whether it fails; and the mark it leaves in the trace. *)
Definition afterHook (h : option Hook) (input : iface) : iface * option error :=
  match h with
  | Some hook => hook input
  | None => (input, None)
  end.

Definition hookEvents (name : string) (h : option Hook) : list event :=
  match h with
  | Some _ => [EvHook name]
  | None => []
  end.

(** What a caller observes of a run besides its argument: the result
    and the trace. *)
Definition outcome {A : Type} (r : (error + A) * World) : (error + A) * list event :=
  (fst r, trace (snd r)).

(** Two operations have the same outcome whenever they start from the
    same trace, whatever their arguments hold. *)
Definition sameOutcome {A : Type} (m m' : M A) : Prop :=
  forall w w', trace w = trace w' -> outcome (m w) = outcome (m' w').



(** The four mutating operations, their names and their before-hooks. *)
Inductive operation : Type := Create | Save | Replace | Delete.

Definition opName (op : operation) : string :=
  match op with
  | Create => "CreateRecord"
  | Save => "SaveRecord"
  | Replace => "ReplaceRecord"
  | Delete => "DeleteRecord"
  end.

Definition beforeName (op : operation) : string :=
  match op with
  | Create => "BeforeCreate"
  | Save => "BeforeSave"
  | Replace => "BeforeReplace"
  | Delete => "BeforeDelete"
  end.

Definition beforeHook (op : operation) (m : Methods) : option Hook :=
  match op with
  | Create => BeforeCreate m
  | Save => BeforeSave m
  | Replace => BeforeReplace m
  | Delete => BeforeDelete m
  end.

Definition perform (CamelToSnake : string -> string)
    (convertAssign : value -> value -> error + value)
    (parameterPrefix : string) (queryLogger : option bool)
    (op : operation) (m : Methods) (tx : Querier) : M unit :=
  match op with
  | Create => CreateRecord CamelToSnake convertAssign parameterPrefix queryLogger m tx
  | Save => SaveRecord CamelToSnake convertAssign parameterPrefix queryLogger m tx
  | Replace => ReplaceRecord CamelToSnake parameterPrefix queryLogger m tx
  | Delete => DeleteRecord CamelToSnake parameterPrefix queryLogger m tx
  end.


(** The error, if any, of the checks an operation makes on its argument
    [x]: a pointer, to a struct, whose type has identity fields. *)
Definition validationError (op : operation) (x : iface) : option error :=
  match fst (checkInput (opName op) (mkWorld [] x)) with
  | inl err => Some err
  | inr _ => None
  end.

(** The events of one call to the database, with the logger's calls
    around it when a logger is set. *)
Definition loggedAround (queryLogger : option bool) (e : event)
    (query : string) (vars : list value) (err : option error) : list event :=
  match queryLogger with
  | Some _ => [EvLogQuery query vars]
  | None => []
  end ++ [e] ++
  match queryLogger with
  | Some true => [EvLogQueryAfter query vars err]
  | _ => []
  end.

(** The identity values of a record, in the order of its identity fields. *)
Definition valuesOf (fields : list Field) (v : record) : list value :=
  map (fun f => FieldByIndex v (Index f)) fields.

(** [SaveRecord] from the point where the snapshot is in hand. *)
Definition saveAfterFetch (CamelToSnake : string -> string)
    (parameterPrefix : string) (queryLogger : option bool)
    (m : Methods) (tx : Querier) (vdesc : StructDescription)
    (previous v : record) (where_ : string) (values : list value) : M unit :=
  let '(fields, values, modify) :=
    saveDiff CamelToSnake parameterPrefix (changedFields vdesc previous v)
             previous v "" values false in
  if negb modify then ret tt
  else
    let tbl := getSQLTableName CamelToSnake vdesc in
    let query := "update " +s tbl +s " " +s fields +s " " +s where_ in
    execLogged queryLogger "SaveRecord" tx query values ;;;
    runHook "SaveRecord" "AfterSave" (AfterSave m).

(** The [insert] statement over the columns of [cols], with
    placeholders numbered from 1. *)
Definition insertQuery (CamelToSnake : string -> string) (parameterPrefix : string)
    (verb : string) (vdesc : StructDescription) (cols : list Field) : string :=
  verb +s " into " +s getSQLTableName CamelToSnake vdesc
  +s " (" +s Join (map (getSQLColumnName CamelToSnake) cols) ", "
  +s ") values ("
  +s Join (map (makeParameter parameterPrefix) (seq 1 (List.length cols))) ", "
  +s ")".

(** The fields that are not declared under the name [ID]. *)
Definition notNamedID (l : list Field) : list Field :=
  filter (fun g => negb (String.eqb (Name g) "ID")) l.

(** Column resolution as the specification words it: the first field
    whose [sql] column name is the result column, else the field
    declared under that name, else the first field whose snake-case name
    it is. *)
Definition hasColumnTag (name : string) (f : Field) : bool :=
  match FieldTag f "sql" with
  | Some t => String.eqb (Value t) name
  | None => false
  end.

Definition specResolve (CamelToSnake : string -> string)
    (vdesc : StructDescription) (name : string) : option Field :=
  match find (hasColumnTag name) (Fields vdesc) with
  | Some f => Some f
  | None =>
      match find (fun f => String.eqb (Name f) name) (Fields vdesc) with
      | Some f => Some f
      | None => find (fun f => String.eqb (CamelToSnake (Name f)) name) (Fields vdesc)
      end
  end.

(** The fields that carry [name] as the column name of their [sql]
    annotation. *)
Definition carriers (vdesc : StructDescription) (name : string) : list Field :=
  filter (hasColumnTag name) (Fields vdesc).

(** The last two steps: the field declared under the name, else the
    first field whose snake-case name it is. *)
Definition byNameThenSnake (CamelToSnake : string -> string)
    (vdesc : StructDescription) (name : string) : option Field :=
  match find (fun f => String.eqb (Name f) name) (Fields vdesc) with
  | Some f => Some f
  | None => find (fun f => String.eqb (CamelToSnake (Name f)) name) (Fields vdesc)
  end.

(** Column resolution as the amended claim words it: the field that
    carries the name in its [sql] annotation when exactly one field
    does; otherwise (no field carries it, or several do) the last two
    steps. *)
Definition amendedResolve (CamelToSnake : string -> string)
    (vdesc : StructDescription) (name : string) : option Field :=
  if Nat.eqb (List.length (carriers vdesc name)) 1
  then hd_error (carriers vdesc name)
  else byNameThenSnake CamelToSnake vdesc name.

(** The result columns that no field matches. *)
Definition unmatched (CamelToSnake : string -> string)
    (vdesc : StructDescription) (names : list string) : list string :=
  filter (fun name => match resolveColumn CamelToSnake vdesc name with
                      | Some _ => false
                      | None => true
                      end) names.

(* ================================================================== *)
(** ** Vocabulary of the further properties *)
(* ================================================================== *)

(** The fields flagged [id] in their [sql] annotation, excluded ones
    left out. *)
Definition flaggedFields (vdesc : StructDescription) : list Field :=
  filter (fun f => negb (excluded f) && hasIDParameter f) (Fields vdesc).

(** The fields that are not excluded, in declared order. *)
Definition keptFields (vdesc : StructDescription) : list Field :=
  filter (fun f => negb (excluded f)) (Fields vdesc).

(** The text of a [select] over the table of [vdesc]: the [where]
    fragment follows the table after one space, when there is one. *)
Definition selectFrom (CamelToSnake : string -> string) (what : string)
    (vdesc : StructDescription) (where_ : string) : string :=
  "select " +s what +s " from " +s getSQLTableName CamelToSnake vdesc
  +s (if nonEmpty where_ then " " +s where_ else "").

(** The [where] fragment [FindFirstWhere] hands on. *)
Definition limitOne (where_ : string) : string :=
  if nonEmpty where_ then where_ +s " limit 1" else "limit 1".

(** The result of a hook as the operations report it. *)
Definition hookError (op name : string) (h : option Hook) (input : iface) : option error :=
  match snd (afterHook h input) with
  | Some e => Some (Wrap (op +s ": " +s name +s " callback returned an error") e)
  | None => None
  end.

Definition afterName (op : operation) : string :=
  match op with
  | Create => "AfterCreate"
  | Save => "AfterSave"
  | Replace => "AfterReplace"
  | Delete => "AfterDelete"
  end.

Definition afterHookOf (op : operation) (m : Methods) : option Hook :=
  match op with
  | Create => AfterCreate m
  | Save => AfterSave m
  | Replace => AfterReplace m
  | Delete => AfterDelete m
  end.

(** A list of comparisons [c = P] over [fields]: the first after
    [prefix], each further one after the separator [sep], the
    placeholders numbered from [start] in the order of [fields].  An
    identity [where] clause is such a list after [where ], numbered
    from 1. *)
Definition comparison (CamelToSnake : string -> string) (parameterPrefix : string)
    (kf : nat * Field) : string :=
  getSQLColumnName CamelToSnake (snd kf) +s " = " +s makeParameter parameterPrefix (fst kf).

Definition clauses (CamelToSnake : string -> string) (parameterPrefix : string)
    (prefix sep : string) (start : nat) (fields : list Field) : string :=
  match fields with
  | [] => ""
  | f :: rest =>
      prefix +s comparison CamelToSnake parameterPrefix (start, f)
      +s fold_right String.append ""
           (map (fun kf => sep +s comparison CamelToSnake parameterPrefix kf)
                (combine (seq (S start) (List.length rest)) rest))
  end.

Definition identityWhere (CamelToSnake : string -> string) (parameterPrefix : string)
    (sep : string) (ids : list Field) : string :=
  clauses CamelToSnake parameterPrefix "where " sep 1 ids.

(** The [set] list of an [update] over [changed], the placeholders
    numbered from [start]. *)
Definition setList (CamelToSnake : string -> string) (parameterPrefix : string)
    (start : nat) (changed : list Field) : string :=
  clauses CamelToSnake parameterPrefix "set " ", " start changed.

(** Whether [CreateRecord] leaves the identity to the database: the
    identity set is the field declared as [ID] alone and a kept field of
    that name holds a zero value. *)
Definition basicIdentity (vdesc : StructDescription) : bool :=
  match getSQLIDFields vdesc with
  | [f] => String.eqb (Name f) "ID"
  | _ => false
  end.

Definition leftToDatabase (vdesc : StructDescription) (v : record) (f : Field) : bool :=
  basicIdentity vdesc && String.eqb (Name f) "ID" && isZero (FieldByIndex v (Index f)).

Definition insertedFields (vdesc : StructDescription) (v : record) : list Field :=
  filter (fun f => negb (leftToDatabase vdesc v f)) (keptFields vdesc).

Definition fetchesID (vdesc : StructDescription) (v : record) : bool :=
  existsb (leftToDatabase vdesc v) (keptFields vdesc).

(** The one statement that [ReplaceRecord], [DeleteRecord], and
    [CreateRecord] when it keeps the identity, execute on the record
    [v]. *)
Definition statementOf (CamelToSnake : string -> string) (parameterPrefix : string)
    (op : operation) (vdesc : StructDescription) (v : record)
    : option (string * list value) :=
  match op with
  | Replace =>
      Some (insertQuery CamelToSnake parameterPrefix "insert or replace" vdesc
              (keptFields vdesc),
            valuesOf (keptFields vdesc) v)
  | Delete =>
      Some ("delete from " +s getSQLTableName CamelToSnake vdesc +s " "
            +s identityWhere CamelToSnake parameterPrefix "and " (getSQLIDFields vdesc),
            valuesOf (getSQLIDFields vdesc) v)
  | Create =>
      if fetchesID vdesc v then None
      else Some (insertQuery CamelToSnake parameterPrefix "insert" vdesc (keptFields vdesc),
                 valuesOf (keptFields vdesc) v)
  | Save => None
  end.

(** The calls made to the query logger, and a trace with them left
    out. *)
Definition isLog (e : event) : bool :=
  match e with
  | EvLogQuery _ _ | EvLogQueryAfter _ _ _ => true
  | _ => false
  end.

Definition unlogged (tr : list event) : list event :=
  filter (fun e => negb (isLog e)) tr.

(** Two operations differ in the logger's calls at most: started on the
    same argument, from traces that are the same apart from the
    logger's calls, they return the same result, leave the same argument
    and have made the same other calls. *)
Definition sameButLog {A : Type} (m m' : M A) : Prop :=
  forall w w',
    self w = self w' -> unlogged (trace w) = unlogged (trace w') ->
    fst (m w) = fst (m' w') /\
    self (snd (m w)) = self (snd (m' w')) /\
    unlogged (trace (snd (m w))) = unlogged (trace (snd (m' w'))).

(** Two runs that differ in the logger's calls at most. *)
Definition agreeButLog {A : Type} (r r' : (error + A) * World) : Prop :=
  fst r = fst r' /\
  self (snd r) = self (snd r') /\
  unlogged (trace (snd r)) = unlogged (trace (snd r')).

(** A result column as the decoder sees it once it is resolved: the
    index of the field it is bound to and the value the row carries. *)
Definition bound (cols : list (option nat * value)) : list (option nat) := map fst cols.
Definition carried (cols : list (option nat * value)) : list value := map snd cols.

(* ================================================================== *)
(** ** The types of the package's tests *)
(* ================================================================== *)

Module Tests.

(** [snaker.CamelToSnake] on the names the tests use, as the statements
    the tests expect spell them; other names are returned unchanged. *)
Definition CamelToSnake (s : string) : string :=
  if String.eqb s "ID" then "id"
  else if String.eqb s "ID1" then "id_1"
  else if String.eqb s "ID2" then "id_2"
  else if String.eqb s "Name" then "name"
  else if String.eqb s "Value" then "value"
  else if String.eqb s "Secret" then "secret"
  else if String.eqb s "SimpleObject" then "simple_object"
  else if String.eqb s "CompositeIDObject" then "composite_id_object"
  else if String.eqb s "SecretObject" then "secret_object"
  else s.

(** The driver's conversion on what the tests scan: an [int64] or [int]
    into an [int] field, a string into a string field. *)
Definition convertAssign (held src : value) : error + value :=
  match held, src with
  | VInt _, VInt n | VInt _, VInt64 n => inr (VInt n)
  | VInt64 _, VInt n | VInt64 _, VInt64 n => inr (VInt64 n)
  | VString _, VString s => inr (VString s)
  | VBool _, VBool b => inr (VBool b)
  | _, _ => inl (External "sql: Scan error: unsupported conversion")
  end.

Definition plain (name : string) (index : nat) (zero : value) : Field :=
  mkField name index [] zero.

Definition tagged (name : string) (index : nat) (sql : Tag) (zero : value) : Field :=
  mkField name index [("sql", sql)] zero.

(** [type SimpleObject struct { ID int; Name string }] *)
Definition SimpleObject : StructType :=
  mkStructType
    (inr (mkDesc "SimpleObject" [plain "ID" 0 (VInt 0); plain "Name" 1 (VString "")]))
    "sorm.SimpleObject" None.

(** [type CompositeIDObject struct { ID1 int `sql:",id"`; ID2 int `sql:",id"`; Name string }] *)
Definition CompositeIDObject : StructType :=
  mkStructType
    (inr (mkDesc "CompositeIDObject"
            [tagged "ID1" 0 (mkTag "" [("id", "")]) (VInt 0);
             tagged "ID2" 1 (mkTag "" [("id", "")]) (VInt 0);
             plain "Name" 2 (VString "")]))
    "sorm.CompositeIDObject" None.


(** A type whose two fields carry the same column name:
    [type Pair struct { First string `sql:"label"`; Second string `sql:"label"` }] *)
Definition Pair : StructType :=
  mkStructType
    (inr (mkDesc "Pair"
            [tagged "First" 0 (mkTag "label" []) (VString "");
             tagged "Second" 1 (mkTag "label" []) (VString "")]))
    "sorm.Pair" None.

Definition labelColumn : Rows :=
  mkRows (inr ["label"]) [[VString "a"]] None.

(** [type testScannersNoScanner struct { ID int `sql:",table:objects"`; Value string }] *)
Definition testScannersNoScanner : StructType :=
  mkStructType
    (inr (mkDesc "testScannersNoScanner"
            [tagged "ID" 0 (mkTag "" [("table", "objects")]) (VInt 0);
             plain "Value" 1 (VString "")]))
    "sorm.testScannersNoScanner" None.

(** A querier that answers every query with [rows] and accepts every
    statement; the generated identity it reports is [id]. *)
Definition answering (rows : Rows) (id : value) : Querier :=
  mkQuerier (fun _ _ => None) (fun _ _ => inr rows) (fun _ _ => inr id).

Definition run {A : Type} (m : M A) (input : iface) : (error + A) * World :=
  m (mkWorld [] input).

Definition descriptionOf (t : StructType) : StructDescription :=
  match Description t with
  | inr d => d
  | inl _ => mkDesc "" []
  end.

(** A cursor over [simple_objects] with two rows. *)
Definition twoRows : Rows :=
  mkRows (inr ["id"; "name"])
         [[VInt64 1; VString "test1"]; [VInt64 2; VString "test2"]] None.

(** The same cursor, but the second row carries a string where the
    [ID] field expects a number: its scan fails. *)
Definition badSecondRow : Rows :=
  mkRows (inr ["id"; "name"])
         [[VInt64 1; VString "test1"]; [VString "two"; VString "test2"]] None.

(** A cursor with two columns no field of [SimpleObject] matches. *)
Definition strayColumns : Rows :=
  mkRows (inr ["id"; "created_at"; "name"; "deleted_at"])
         [[VInt64 1; VString "2020"; VString "test1"; VNil]] None.

(** The row stored for a [SimpleObject] and a database that holds it. *)
Definition storedSimple : Rows :=
  mkRows (inr ["id"; "name"]) [[VInt64 1; VString "test1"]] None.

Definition simpleDB : Querier := answering storedSimple (VInt64 1).

(** The row stored for a [CompositeIDObject]. *)
Definition storedComposite : Rows :=
  mkRows (inr ["id_1"; "id_2"; "name"])
         [[VInt64 101; VInt64 201; VString "test1"]] None.

Definition compositeDB : Querier := answering storedComposite (VInt64 1).

(** A value that is no pointer (a named [int] type, say) whose type has
    a before-hook for every operation; the hook fails or not. *)
Definition hooked (result : option error) : Methods :=
  let h : Hook := fun x => (x, result) in
  mkMethods (Some h) None (Some h) None (Some h) None (Some h) None.


(** What the caller's slice held before the call. *)
Definition oldItems : list record := [[VInt 7; VString "old"]].

(** A type with a column name in an annotation:
    [type Article struct { ID int; Title string `sql:"heading"` }] *)
Definition Article : StructType :=
  mkStructType
    (inr (mkDesc "Article"
            [plain "ID" 0 (VInt 0);
             tagged "Title" 1 (mkTag "heading" []) (VString "")]))
    "sorm.Article" None.

(** A type whose two fields carry the column name [B], one of them
    declared as [B]:
    [type Twice struct { A string `sql:"B"`; B string `sql:"B"` }] *)
Definition Twice : StructType :=
  mkStructType
    (inr (mkDesc "Twice"
            [tagged "A" 0 (mkTag "B" []) (VString "");
             tagged "B" 1 (mkTag "B" []) (VString "")]))
    "sorm.Twice" None.

(** A cursor over [simple_objects] whose one row decodes, but whose
    [Close] fails. *)
Definition failingClose : Rows :=
  mkRows (inr ["id"; "name"]) [[VInt64 1; VString "test1"]]
         (Some (External "close failed")).

(** A database in which no row matches. *)
Definition noRows : Rows :=
  mkRows (inr ["id"; "name"]) [] None.

Definition emptyDB : Querier := answering noRows (VInt64 0).

(** A database that refuses every call with [err]. *)
Definition refusing (err : error) : Querier :=
  mkQuerier (fun _ _ => Some err) (fun _ _ => inl err) (fun _ _ => inl err).

(** A type without identity: [type Note struct { Text string }] *)
Definition Note : StructType :=
  mkStructType (inr (mkDesc "Note" [plain "Text" 0 (VString "")])) "sorm.Note" None.

End Tests.

(* ================================================================== *)
(** ** Properties of the row decoder *)
(* ================================================================== *)

Section Decoder.

Variable CamelToSnake : string -> string.
Variable convertAssign : value -> value -> error + value.

Lemma resolveColumns_missing (vdesc : StructDescription) (names : list string) :
  snd (resolveColumns CamelToSnake vdesc names) = unmatched CamelToSnake vdesc names.
Proof.
  induction names as [|name rest IH]; simpl; [reflexivity|].
  destruct (resolveColumns CamelToSnake vdesc rest) as [[goNames indexes] missing].
  simpl in IH. subst missing.
  destruct (resolveColumn CamelToSnake vdesc name); reflexivity.
Qed.

Lemma scanLoop_ok (vtyp : StructType) (vdesc : StructDescription)
    (goNames : list string) (indexes : list (option nat))
    (data : list (list value)) :
  forall arr res,
    scanLoop convertAssign vtyp vdesc goNames indexes data arr = inr res ->
    exists vs,
      res = arr ++ vs /\
      Forall2 (fun src v => scanRow convertAssign vtyp vdesc goNames indexes src = inr v)
              data vs.
Proof.
  induction data as [|src rest IH]; simpl; intros arr res H.
  - injection H as <-. exists []. split; [now rewrite app_nil_r | constructor].
  - destruct (scanRow convertAssign vtyp vdesc goNames indexes src) as [err|v] eqn:E;
      [discriminate|].
    destruct (IH _ _ H) as (vs & -> & HF).
    exists (v :: vs). split; [now rewrite <- app_assoc | now constructor].
Qed.

Lemma scanLoop_fails (vtyp : StructType) (vdesc : StructDescription)
    (goNames : list string) (indexes : list (option nat))
    (before : list (list value)) (bad : list value) (after : list (list value))
    (decoded : list record) (err : error) :
  Forall2 (fun src v => scanRow convertAssign vtyp vdesc goNames indexes src = inr v)
          before decoded ->
  scanRow convertAssign vtyp vdesc goNames indexes bad = inl err ->
  forall arr,
    scanLoop convertAssign vtyp vdesc goNames indexes (before ++ bad :: after) arr = inl err.
Proof.
  intros HF Hbad. induction HF as [|src v before decoded Hsrc _ IH]; intro arr; simpl.
  - now rewrite Hbad.
  - rewrite Hsrc. apply IH.
Qed.

(** What [ScanRows] does once its argument, the description and the
    column names are in hand. *)
Lemma ScanRows_unfold (rows : Rows) (tr : list event) (vtyp : StructType)
    (old : list record) (vdesc : StructDescription) (names : list string) :
  Description vtyp = inr vdesc ->
  Columns rows = inr names ->
  ScanRows CamelToSnake convertAssign rows (mkWorld tr (Ptr (PSlice vtyp old))) =
  match unmatched CamelToSnake vdesc names with
  | _ :: _ =>
      (inl (MissingFields (TypeName vdesc) (unmatched CamelToSnake vdesc names)),
       mkWorld tr (Ptr (PSlice vtyp old)))
  | [] =>
      match scanLoop convertAssign vtyp vdesc
              (fst (fst (resolveColumns CamelToSnake vdesc names)))
              (snd (fst (resolveColumns CamelToSnake vdesc names)))
              (Data rows) [] with
      | inl err => (inl err, mkWorld tr (Ptr (PSlice vtyp old)))
      | inr arr => (inr tt, mkWorld tr (Ptr (PSlice vtyp arr)))
      end
  end.
Proof.
  intros Hd Hc.
  unfold ScanRows, bind, getSelf, throw, liftE, setSelf, getDescriptionFromType; simpl.
  rewrite Hd, Hc; simpl.
  rewrite <- resolveColumns_missing.
  destruct (resolveColumns CamelToSnake vdesc names) as [[goNames indexes] missing]; simpl.
  destruct missing as [|x missing]; simpl; [|reflexivity].
  destruct (scanLoop convertAssign vtyp vdesc goNames indexes (Data rows) []); reflexivity.
Qed.

(** C7.  When result columns match no field of the record type,
    [ScanRows] fails with an error that lists every unmatched column
    name, in column order (not only the first one met), and leaves the
    caller's slice alone; a name is listed exactly when it is a result
    column that no field matches. *)
Theorem ScanRows_lists_every_missing_column (rows : Rows) (tr : list event)
    (vtyp : StructType) (old : list record) (vdesc : StructDescription)
    (names : list string) :
  Description vtyp = inr vdesc ->
  Columns rows = inr names ->
  unmatched CamelToSnake vdesc names <> [] ->
  ScanRows CamelToSnake convertAssign rows (mkWorld tr (Ptr (PSlice vtyp old))) =
    (inl (MissingFields (TypeName vdesc) (unmatched CamelToSnake vdesc names)),
     mkWorld tr (Ptr (PSlice vtyp old)))
  /\
  forall name,
    In name (unmatched CamelToSnake vdesc names) <->
    In name names /\ resolveColumn CamelToSnake vdesc name = None.
Proof.
  intros Hd Hc Hne. split.
  - rewrite (ScanRows_unfold rows tr vtyp old vdesc names Hd Hc).
    destruct (unmatched CamelToSnake vdesc names); [contradiction | reflexivity].
  - intro name. unfold unmatched. rewrite filter_In.
    destruct (resolveColumn CamelToSnake vdesc name); split; intros [H1 H2];
      (split; [assumption|]); congruence.
Qed.

(** C10.  When [ScanRows] succeeds, the caller's slice holds exactly the
    decoded records, one per result row and in row order; what the slice
    held before does not matter. *)
Theorem ScanRows_replaces_output (rows : Rows) (tr : list event)
    (vtyp : StructType) (old : list record) (vdesc : StructDescription)
    (names : list string) :
  Description vtyp = inr vdesc ->
  Columns rows = inr names ->
  returned (ScanRows CamelToSnake convertAssign rows
              (mkWorld tr (Ptr (PSlice vtyp old)))) = None ->
  exists arr,
    Forall2 (fun src v =>
               scanRow convertAssign vtyp vdesc
                 (fst (fst (resolveColumns CamelToSnake vdesc names)))
                 (snd (fst (resolveColumns CamelToSnake vdesc names))) src = inr v)
            (Data rows) arr /\
    forall old',
      ScanRows CamelToSnake convertAssign rows (mkWorld tr (Ptr (PSlice vtyp old'))) =
        (inr tt, mkWorld tr (Ptr (PSlice vtyp arr))).
Proof.
  intros Hd Hc Hok.
  rewrite (ScanRows_unfold rows tr vtyp old vdesc names Hd Hc) in Hok.
  destruct (unmatched CamelToSnake vdesc names) as [|x l] eqn:Hm; [|discriminate].
  destruct (scanLoop convertAssign vtyp vdesc _ _ (Data rows) []) as [err|arr] eqn:Hl;
    [discriminate|].
  destruct (scanLoop_ok _ _ _ _ _ _ _ Hl) as (vs & -> & HF).
  exists vs. split; [exact HF|].
  intro old'. rewrite (ScanRows_unfold rows tr vtyp old' vdesc names Hd Hc), Hm, Hl.
  reflexivity.
Qed.

(** C6, as amended.  When the scan of a row fails, [ScanRows] stops at
    that row and returns the scan's error; the rows decoded before it are
    dropped with the local slice, and the caller's slice is what it was
    before the call. *)
Theorem ScanRows_scan_failure_discards_rows (rows : Rows) (tr : list event)
    (vtyp : StructType) (old : list record) (vdesc : StructDescription)
    (names : list string)
    (before : list (list value)) (bad : list value) (after : list (list value))
    (decoded : list record) (err : error) :
  Description vtyp = inr vdesc ->
  Columns rows = inr names ->
  unmatched CamelToSnake vdesc names = [] ->
  Data rows = before ++ bad :: after ->
  Forall2 (fun src v =>
             scanRow convertAssign vtyp vdesc
               (fst (fst (resolveColumns CamelToSnake vdesc names)))
               (snd (fst (resolveColumns CamelToSnake vdesc names))) src = inr v)
          before decoded ->
  scanRow convertAssign vtyp vdesc
    (fst (fst (resolveColumns CamelToSnake vdesc names)))
    (snd (fst (resolveColumns CamelToSnake vdesc names))) bad = inl err ->
  ScanRows CamelToSnake convertAssign rows (mkWorld tr (Ptr (PSlice vtyp old))) =
    (inl err, mkWorld tr (Ptr (PSlice vtyp old))).
Proof.
  intros Hd Hc Hm Hdata HF Hbad.
  rewrite (ScanRows_unfold rows tr vtyp old vdesc names Hd Hc), Hm, Hdata.
  now rewrite (scanLoop_fails _ _ _ _ _ _ after _ _ HF Hbad).
Qed.

Lemma find_filter {A : Type} (p : A -> bool) (l : list A) :
  find p l = hd_error (filter p l).
Proof.
  induction l as [|x l IH]; simpl; [reflexivity|].
  destruct (p x); [reflexivity | exact IH].
Qed.

Lemma resolveColumns_indexes (vdesc : StructDescription) (names : list string) :
  snd (fst (resolveColumns CamelToSnake vdesc names)) =
  map (fun name => option_map Index (resolveColumn CamelToSnake vdesc name)) names.
Proof.
  induction names as [|name rest IH]; simpl; [reflexivity|].
  destruct (resolveColumns CamelToSnake vdesc rest) as [[goNames indexes] missing].
  simpl in IH. subst indexes.
  destruct (resolveColumn CamelToSnake vdesc name); reflexivity.
Qed.

Lemma resolveColumn_amended (vdesc : StructDescription) (name : string) :
  resolveColumn CamelToSnake vdesc name = amendedResolve CamelToSnake vdesc name.
Proof.
  unfold resolveColumn, amendedResolve, byNameThenSnake, carriers, FieldNamed.
  change (filter (hasColumnTag name) (Fields vdesc))
    with (WithTagValue (Fields vdesc) "sql" name).
  destruct (WithTagValue (Fields vdesc) "sql" name) as [|f [|g l]]; reflexivity.
Qed.

(** C4, as amended.  For every result column, whatever the struct type,
    [ScanRows] binds the column to the field that carries the name in
    its [sql] annotation when exactly one field does; when no field
    carries it, or when several do, to the field declared under that
    name, else to the first field whose snake-case name it is; and the
    indexes the column loop computes are those of the fields so found.
    Where at most one field carries the name this is the order the
    specification gives; where several do, the annotation is not
    looked at. *)
Theorem resolveColumn_tag_then_name_then_snake (vdesc : StructDescription)
    (names : list string) :
  (forall name,
     resolveColumn CamelToSnake vdesc name = amendedResolve CamelToSnake vdesc name)
  /\
  snd (fst (resolveColumns CamelToSnake vdesc names)) =
    map (fun name => option_map Index (amendedResolve CamelToSnake vdesc name)) names
  /\
  (forall name,
     List.length (carriers vdesc name) <= 1 ->
     amendedResolve CamelToSnake vdesc name = specResolve CamelToSnake vdesc name)
  /\
  (forall name,
     2 <= List.length (carriers vdesc name) ->
     amendedResolve CamelToSnake vdesc name = byNameThenSnake CamelToSnake vdesc name).
Proof.
  split; [exact (resolveColumn_amended vdesc)|]. split; [|split].
  - rewrite resolveColumns_indexes. apply map_ext.
    intro name. now rewrite resolveColumn_amended.
  - intros name Hle. unfold amendedResolve, specResolve, byNameThenSnake.
    rewrite (find_filter (hasColumnTag name)). fold (carriers vdesc name).
    destruct (carriers vdesc name) as [|f [|g l]]; simpl in *;
      [reflexivity | reflexivity | lia].
  - intros name Hge. unfold amendedResolve.
    destruct (carriers vdesc name) as [|f [|g l]]; simpl in *;
      [lia | lia | reflexivity].
Qed.

End Decoder.

(** C7 on the cursor [strayColumns]: both stray columns are reported. *)
Lemma ScanRows_lists_every_missing_column_witness :
  Tests.run (ScanRows Tests.CamelToSnake Tests.convertAssign Tests.strayColumns)
            (Ptr (PSlice Tests.SimpleObject Tests.oldItems)) =
    (inl (MissingFields "SimpleObject" ["created_at"; "deleted_at"]),
     mkWorld [] (Ptr (PSlice Tests.SimpleObject Tests.oldItems))).
Proof.
  apply (ScanRows_lists_every_missing_column
           Tests.CamelToSnake Tests.convertAssign Tests.strayColumns []
           Tests.SimpleObject Tests.oldItems
           (Tests.descriptionOf Tests.SimpleObject)
           ["id"; "created_at"; "name"; "deleted_at"]);
    [reflexivity | reflexivity | vm_compute; discriminate].
Defined.

(** C10 on the cursor [twoRows]: the old element is gone, the two rows
    are there in order. *)
Lemma ScanRows_replaces_output_witness :
  exists arr,
    Forall2 (fun src v =>
               scanRow Tests.convertAssign Tests.SimpleObject
                 (Tests.descriptionOf Tests.SimpleObject)
                 ["ID"; "Name"] [Some 0; Some 1] src = inr v)
            (Data Tests.twoRows) arr /\
    forall old',
      ScanRows Tests.CamelToSnake Tests.convertAssign Tests.twoRows
               (mkWorld [] (Ptr (PSlice Tests.SimpleObject old'))) =
        (inr tt, mkWorld [] (Ptr (PSlice Tests.SimpleObject arr))).
Proof.
  apply (ScanRows_replaces_output
           Tests.CamelToSnake Tests.convertAssign Tests.twoRows []
           Tests.SimpleObject Tests.oldItems
           (Tests.descriptionOf Tests.SimpleObject) ["id"; "name"]);
    reflexivity.
Defined.

(** C6 as first stated fails on [badSecondRow]: the first row decodes,
    the second does not, and the record decoded from the first row is not
    in the caller's slice afterwards. *)
Lemma ScanRows_partial_rows_not_retained :
  scanRow Tests.convertAssign Tests.SimpleObject
    (Tests.descriptionOf Tests.SimpleObject) ["ID"; "Name"] [Some 0; Some 1]
    [VInt64 1; VString "test1"] = inr [VInt 1; VString "test1"]
  /\
  Tests.run (ScanRows Tests.CamelToSnake Tests.convertAssign Tests.badSecondRow)
            (Ptr (PSlice Tests.SimpleObject Tests.oldItems)) =
    (inl (Wrap "ScanRows" (External "sql: Scan error: unsupported conversion")),
     mkWorld [] (Ptr (PSlice Tests.SimpleObject Tests.oldItems)))
  /\
  ~ In [VInt 1; VString "test1"] Tests.oldItems.
Proof.
  split; [reflexivity|]. split; [reflexivity|].
  intros [H|[]]. discriminate.
Qed.

(** C6 as amended, on [badSecondRow]. *)
Lemma ScanRows_scan_failure_discards_rows_witness :
  ScanRows Tests.CamelToSnake Tests.convertAssign Tests.badSecondRow
           (mkWorld [] (Ptr (PSlice Tests.SimpleObject Tests.oldItems))) =
    (inl (Wrap "ScanRows" (External "sql: Scan error: unsupported conversion")),
     mkWorld [] (Ptr (PSlice Tests.SimpleObject Tests.oldItems))).
Proof.
  apply (ScanRows_scan_failure_discards_rows
           Tests.CamelToSnake Tests.convertAssign Tests.badSecondRow []
           Tests.SimpleObject Tests.oldItems
           (Tests.descriptionOf Tests.SimpleObject) ["id"; "name"]
           [[VInt64 1; VString "test1"]] [VString "two"; VString "test2"] []
           [[VInt 1; VString "test1"]]);
    try reflexivity.
  repeat constructor.
Defined.

(* ================================================================== *)
(** ** Properties of the statement synthesizer *)
(* ================================================================== *)

Section Preserves.

Variable p : event -> bool.

Lemma preserves_ret {A : Type} (a : A) : preserves p (ret a).
Proof. intro w; reflexivity. Qed.

Lemma preserves_throw {A : Type} (e : error) : preserves p (@throw A e).
Proof. intro w; reflexivity. Qed.

Lemma preserves_liftE {A : Type} (r : error + A) : preserves p (liftE r).
Proof. intro w; reflexivity. Qed.

Lemma preserves_getSelf : preserves p getSelf.
Proof. intro w; reflexivity. Qed.

Lemma preserves_setSelf (x : iface) : preserves p (setSelf x).
Proof. intro w; reflexivity. Qed.

Lemma preserves_emit (e : event) : p e = false -> preserves p (emit e).
Proof.
  intros He w. unfold emit; simpl.
  rewrite filter_app; simpl. rewrite He. apply app_nil_r.
Qed.

Lemma preserves_bind {A B : Type} (m : M A) (k : A -> M B) :
  preserves p m -> (forall a, preserves p (k a)) -> preserves p (bind m k).
Proof.
  intros Hm Hk w. unfold bind. specialize (Hm w).
  destruct (m w) as [[e|a] w']; simpl in *; [exact Hm|].
  now rewrite Hk.
Qed.

Lemma preserves_attempt {A : Type} (m : M A) : preserves p m -> preserves p (attempt m).
Proof.
  intros Hm w. unfold attempt. specialize (Hm w).
  destruct (m w) as [r w']; exact Hm.
Qed.

Lemma preserves_withObject {A : Type} (o : iface) (m : M A) :
  preserves p m -> preserves p (withObject o m).
Proof.
  intros Hm w. unfold withObject. specialize (Hm (mkWorld (trace w) o)).
  destruct (m (mkWorld (trace w) o)) as [r w']; exact Hm.
Qed.

(** What follows an operation adds nothing when it preserves [p]. *)
Lemma filter_bind_preserves {A B : Type} (m : M A) (k : A -> M B) (w : World) :
  (forall a, preserves p (k a)) ->
  filter p (trace (snd (bind m k w))) = filter p (trace (snd (m w))).
Proof.
  intro Hk. unfold bind. destruct (m w) as [[e|a] w']; simpl; [reflexivity | apply Hk].
Qed.

End Preserves.

Create HintDb preserves.
#[local] Hint Resolve preserves_ret preserves_throw preserves_liftE preserves_getSelf
  preserves_setSelf preserves_attempt preserves_withObject : preserves.

Ltac preserves_step :=
  match goal with
  | |- preserves _ (bind _ _) => apply preserves_bind; [|intros]
  | |- preserves _ (emit _) => apply preserves_emit; reflexivity
  | |- preserves _ (match ?x with _ => _ end) => destruct x
  | |- preserves _ (if ?b then _ else _) => destruct b
  | |- preserves _ (let '(_, _) := ?x in _) => destruct x
  | |- preserves _ _ => solve [auto with preserves]
  end.

Section Synthesis.

Variable CamelToSnake : string -> string.
Variable convertAssign : value -> value -> error + value.
Variable parameterPrefix : string.
Variable queryLogger : option bool.

Lemma preserves_LogQuery (p : event -> bool) (q : string) (a : list value) :
  p (EvLogQuery q a) = false -> preserves p (LogQuery queryLogger q a).
Proof.
  intro Hp. unfold LogQuery. destruct queryLogger; [|apply preserves_ret].
  now apply preserves_emit.
Qed.

Lemma preserves_LogQueryAfter (p : event -> bool) (q : string) (a : list value)
    (e : option error) :
  p (EvLogQueryAfter q a e) = false -> preserves p (LogQueryAfter queryLogger q a e).
Proof.
  intro Hp. unfold LogQueryAfter. destruct queryLogger as [[|]|]; try apply preserves_ret.
  now apply preserves_emit.
Qed.

Lemma quiet_LogQuery (q : string) (a : list value) : quiet (LogQuery queryLogger q a).
Proof. now apply preserves_LogQuery. Qed.

Lemma quiet_LogQueryAfter (q : string) (a : list value) (e : option error) :
  quiet (LogQueryAfter queryLogger q a e).
Proof. now apply preserves_LogQueryAfter. Qed.

Lemma quiet_ScanRows (rows : Rows) : quiet (ScanRows CamelToSnake convertAssign rows).
Proof. unfold ScanRows. repeat preserves_step. Qed.

Lemma quiet_FindWhere (db : Querier) (where_ : string) (args : list value) :
  quiet (FindWhere CamelToSnake convertAssign queryLogger db where_ args).
Proof.
  pose proof quiet_LogQuery. pose proof quiet_LogQueryAfter. pose proof quiet_ScanRows.
  unfold FindWhere. repeat preserves_step.
Qed.

Lemma quiet_FindFirstWhere (db : Querier) (where_ : string) (args : list value) :
  quiet (FindFirstWhere CamelToSnake convertAssign queryLogger db where_ args).
Proof.
  pose proof quiet_FindWhere.
  unfold FindFirstWhere. repeat preserves_step.
Qed.

(** *** Hooks and input checks *)

Lemma runHook_ok (op name : string) (h : option Hook) (w : World) (x : iface) :
  afterHook h (self w) = (x, None) ->
  runHook op name h w = (inr tt, mkWorld (trace w ++ hookEvents name h) x).
Proof.
  destruct w as [tr input]; destruct h as [hook|]; simpl; intro H.
  - unfold runHook, bind, getSelf, emit, setSelf, ret; simpl. now rewrite H.
  - injection H as <-. unfold ret. now rewrite app_nil_r.
Qed.

Lemma runHook_fails (op name : string) (hook : Hook) (w : World) (x : iface) (e : error) :
  hook (self w) = (x, Some e) ->
  runHook op name (Some hook) w =
    (inl (Wrap (op +s ": " +s name +s " callback returned an error") e),
     mkWorld (trace w ++ [EvHook name]) x).
Proof.
  destruct w as [tr input]; simpl; intro H.
  unfold runHook, bind, getSelf, emit, setSelf, throw; simpl. now rewrite H.
Qed.

Lemma executed_hookEvents (tr : list event) (name : string) (h : option Hook) :
  executed (tr ++ hookEvents name h) = executed tr.
Proof.
  unfold executed. rewrite filter_app.
  destruct h; simpl; apply app_nil_r.
Qed.

Lemma checkInput_ok (op : string) (tr : list event) (vtyp : StructType) (v : record)
    (vdesc : StructDescription) :
  Description vtyp = inr vdesc ->
  getSQLIDFields vdesc <> [] ->
  checkInput op (mkWorld tr (Ptr (PStruct vtyp v))) =
    (inr (vtyp, vdesc, getSQLIDFields vdesc),
     mkWorld tr (Ptr (PStruct vtyp v))).
Proof.
  intros Hd Hid.
  unfold checkInput, bind, getSelf, liftE, getDescriptionFromType, throw, ret; simpl.
  rewrite Hd; simpl.
  destruct (getSQLIDFields vdesc); [contradiction | reflexivity].
Qed.

(** *** The loops of [SaveRecord] *)

Lemma WithoutTagValue_excluded (l : list Field) :
  WithoutTagValue l "sql" "-" = filter (fun f => negb (excluded f)) l.
Proof.
  unfold WithoutTagValue, excluded. apply filter_ext. intro f.
  destruct (FieldTag f "sql"); reflexivity.
Qed.

Lemma filter_filter {A : Type} (p q : A -> bool) (l : list A) :
  filter p (filter q l) = filter (fun x => q x && p x) l.
Proof.
  induction l as [|x l IH]; simpl; [reflexivity|].
  destruct (q x); simpl; [destruct (p x)|]; now rewrite IH.
Qed.

Lemma saveWhere_values (idFields : list Field) (v : record) :
  forall where_ values,
    snd (saveWhere CamelToSnake parameterPrefix idFields v where_ values) =
    values ++ valuesOf idFields v.
Proof.
  induction idFields as [|f rest IH]; intros where_ values; simpl.
  - now rewrite app_nil_r.
  - rewrite IH. now rewrite <- app_assoc.
Qed.

(** The diff loop only looks at the fields that changed. *)
Lemma saveDiff_changed (l : list Field) (previous v : record) :
  forall fields values modify,
    saveDiff CamelToSnake parameterPrefix l previous v fields values modify =
    saveDiff CamelToSnake parameterPrefix
      (filter (fun f => negb (isReadonly f) && differs previous v f) l)
      previous v fields values modify.
Proof.
  induction l as [|f rest IH]; intros fields values modify; simpl; [reflexivity|].
  unfold differs at 1.
  destruct (isReadonly f) eqn:Hro; simpl; [apply IH|].
  destruct (DeepEqual (FieldByIndex previous (Index f)) (FieldByIndex v (Index f))) eqn:Heq;
    simpl; [apply IH|].
  rewrite Hro, Heq. apply IH.
Qed.

Lemma saveDiff_fields (vdesc : StructDescription) (previous v : record)
    (fields : string) (values : list value) (modify : bool) :
  saveDiff CamelToSnake parameterPrefix (WithoutTagValue (Fields vdesc) "sql" "-")
           previous v fields values modify =
  saveDiff CamelToSnake parameterPrefix (changedFields vdesc previous v)
           previous v fields values modify.
Proof.
  rewrite saveDiff_changed, WithoutTagValue_excluded, filter_filter.
  unfold changedFields, updatable.
  f_equal. apply filter_ext. intro f. now rewrite andb_assoc.
Qed.

Lemma SaveRecord_after_fetch (m : Methods) (tx : Querier) (w : World)
    (vtyp : StructType) (vdesc : StructDescription) (v previous : record)
    (fetched : list event) :
  afterHook (BeforeSave m) (self w) = (Ptr (PStruct vtyp v), None) ->
  Description vtyp = inr vdesc ->
  getSQLIDFields vdesc <> [] ->
  FindFirstWhere CamelToSnake convertAssign queryLogger tx
    (fst (saveWhere CamelToSnake parameterPrefix (getSQLIDFields vdesc) v "" []))
    (valuesOf (getSQLIDFields vdesc) v)
    (mkWorld (trace w ++ hookEvents "BeforeSave" (BeforeSave m))
             (Ptr (PStruct vtyp (zeroRecord vdesc)))) =
    (inr tt, mkWorld fetched (Ptr (PStruct vtyp previous))) ->
  SaveRecord CamelToSnake convertAssign parameterPrefix queryLogger m tx w =
  saveAfterFetch CamelToSnake parameterPrefix queryLogger m tx vdesc previous v
    (fst (saveWhere CamelToSnake parameterPrefix (getSQLIDFields vdesc) v "" []))
    (valuesOf (getSQLIDFields vdesc) v)
    (mkWorld fetched (Ptr (PStruct vtyp v))).
Proof.
  intros Hhook Hd Hid Hfetch.
  unfold SaveRecord. unfold bind at 1.
  rewrite (runHook_ok _ _ _ _ _ Hhook).
  unfold bind at 1. rewrite (checkInput_ok _ _ _ _ _ Hd Hid).
  unfold bind at 1, getSelf at 1. cbn [self fieldsOf trace].
  pose proof (saveWhere_values (getSQLIDFields vdesc) v "" []) as Hv.
  destruct (saveWhere CamelToSnake parameterPrefix (getSQLIDFields vdesc) v "" [])
    as [where_ values] eqn:Hw.
  simpl in Hv. subst values. simpl fst in Hfetch.
  unfold bind at 1, withObject. cbn [self fieldsOf trace]. rewrite Hfetch.
  cbn [self fieldsOf trace].
  rewrite saveDiff_fields. unfold saveAfterFetch. simpl fst.
  reflexivity.
Qed.

Lemma filter_none {A : Type} (p : A -> bool) (l : list A) :
  (forall x, In x l -> p x = false) -> filter p l = [].
Proof.
  induction l as [|x l IH]; simpl; intro H; [reflexivity|].
  rewrite (H x (or_introl eq_refl)). apply IH. intros y Hy. apply H. now right.
Qed.

Lemma length_valuesOf (fields : list Field) (v : record) :
  List.length (valuesOf fields v) = List.length fields.
Proof. unfold valuesOf. apply length_map. Qed.

Lemma append_assoc (a b c : string) : (a +s b) +s c = a +s (b +s c).
Proof.
  induction a as [|ch a IH]; simpl; [reflexivity | now rewrite IH].
Qed.

Lemma preserves_runHook (p : event -> bool) (op name : string) (h : option Hook) :
  p (EvHook name) = false -> preserves p (runHook op name h).
Proof.
  intro Hp. unfold runHook. destruct h as [hook|]; [|apply preserves_ret].
  apply preserves_bind; [apply preserves_getSelf|intro input].
  apply preserves_bind; [now apply preserves_emit|intros _].
  destruct (hook input) as [input' [e|]]; repeat preserves_step.
Qed.

Lemma executed_execLogged (op : string) (tx : Querier) (query : string)
    (values : list value) (w : World) :
  executed (trace (snd (execLogged queryLogger op tx query values w))) =
  executed (trace w) ++ [EvExec query values].
Proof.
  unfold execLogged, LogQuery, LogQueryAfter, bind, emit, ret, throw.
  destruct queryLogger as [[|]|], (ExecContext tx query values); simpl;
    unfold executed; repeat rewrite filter_app; simpl;
    rewrite ?app_nil_r; reflexivity.
Qed.

Lemma executed_fetched (tx : Querier) (where_ : string) (args : list value)
    (tr : list event) (name : string) (h : option Hook) (o : iface)
    (r : error + unit) (w' : World) :
  FindFirstWhere CamelToSnake convertAssign queryLogger tx where_ args
    (mkWorld (tr ++ hookEvents name h) o) = (r, w') ->
  executed (trace w') = executed tr.
Proof.
  intro H.
  pose proof (quiet_FindFirstWhere tx where_ args (mkWorld (tr ++ hookEvents name h) o)) as Q.
  rewrite H in Q. simpl in Q. unfold executed at 1. rewrite Q.
  apply executed_hookEvents.
Qed.

(** C8.  When every field that is neither excluded nor readonly is
    structurally equal in the in-memory record and in the fetched
    snapshot, [SaveRecord] returns [nil] right after the fetch: it
    executes no statement and leaves the record as it is. *)
Theorem SaveRecord_unchanged_is_noop (m : Methods) (tx : Querier) (w : World)
    (vtyp : StructType) (vdesc : StructDescription) (v previous : record)
    (fetched : list event) :
  afterHook (BeforeSave m) (self w) = (Ptr (PStruct vtyp v), None) ->
  Description vtyp = inr vdesc ->
  getSQLIDFields vdesc <> [] ->
  FindFirstWhere CamelToSnake convertAssign queryLogger tx
    (fst (saveWhere CamelToSnake parameterPrefix (getSQLIDFields vdesc) v "" []))
    (valuesOf (getSQLIDFields vdesc) v)
    (mkWorld (trace w ++ hookEvents "BeforeSave" (BeforeSave m))
             (Ptr (PStruct vtyp (zeroRecord vdesc)))) =
    (inr tt, mkWorld fetched (Ptr (PStruct vtyp previous))) ->
  (forall f, In f (Fields vdesc) -> excluded f = false -> isReadonly f = false ->
             DeepEqual (FieldByIndex previous (Index f)) (FieldByIndex v (Index f)) = true) ->
  SaveRecord CamelToSnake convertAssign parameterPrefix queryLogger m tx w =
    (inr tt, mkWorld fetched (Ptr (PStruct vtyp v)))
  /\ executed fetched = executed (trace w).
Proof.
  intros Hhook Hd Hid Hfetch Heq. split.
  - rewrite (SaveRecord_after_fetch m tx w vtyp vdesc v previous fetched Hhook Hd Hid Hfetch).
    assert (Hnil : changedFields vdesc previous v = []).
    { unfold changedFields. apply filter_none. intros f Hin.
      unfold updatable, differs.
      destruct (excluded f) eqn:He; [reflexivity|].
      destruct (isReadonly f) eqn:Hr; [reflexivity|].
      now rewrite (Heq f Hin He Hr). }
    unfold saveAfterFetch. rewrite Hnil. reflexivity.
  - exact (executed_fetched _ _ _ _ _ _ _ _ _ Hfetch).
Qed.

(** C1.  When the in-memory record and the fetched snapshot differ in
    exactly one field [f] that is neither excluded nor readonly,
    [SaveRecord] executes exactly one statement: an [update] whose [set]
    list is [f]'s column alone, with the placeholder that follows those
    of the identity [where] clause, and whose arguments are the identity
    values followed by the new value of [f]. *)
Theorem SaveRecord_single_change (m : Methods) (tx : Querier) (w : World)
    (vtyp : StructType) (vdesc : StructDescription) (v previous : record)
    (fetched : list event) (f : Field) :
  afterHook (BeforeSave m) (self w) = (Ptr (PStruct vtyp v), None) ->
  Description vtyp = inr vdesc ->
  getSQLIDFields vdesc <> [] ->
  FindFirstWhere CamelToSnake convertAssign queryLogger tx
    (fst (saveWhere CamelToSnake parameterPrefix (getSQLIDFields vdesc) v "" []))
    (valuesOf (getSQLIDFields vdesc) v)
    (mkWorld (trace w ++ hookEvents "BeforeSave" (BeforeSave m))
             (Ptr (PStruct vtyp (zeroRecord vdesc)))) =
    (inr tt, mkWorld fetched (Ptr (PStruct vtyp previous))) ->
  changedFields vdesc previous v = [f] ->
  executed (trace (final (SaveRecord CamelToSnake convertAssign parameterPrefix
                            queryLogger m tx w))) =
  executed (trace w) ++
  [EvExec ("update " +s getSQLTableName CamelToSnake vdesc
           +s " set " +s getSQLColumnName CamelToSnake f
           +s " = " +s makeParameter parameterPrefix (List.length (getSQLIDFields vdesc) + 1)
           +s " "
           +s fst (saveWhere CamelToSnake parameterPrefix (getSQLIDFields vdesc) v "" []))
          (valuesOf (getSQLIDFields vdesc) v ++ [FieldByIndex v (Index f)])].
Proof.
  intros Hhook Hd Hid Hfetch Hone. unfold final.
  rewrite (SaveRecord_after_fetch m tx w vtyp vdesc v previous fetched Hhook Hd Hid Hfetch).
  assert (Hf : In f (changedFields vdesc previous v)) by (rewrite Hone; now left).
  unfold changedFields in Hf. apply filter_In in Hf. destruct Hf as [_ Hf].
  apply andb_true_iff in Hf. destruct Hf as [Hup Hdiff].
  unfold updatable in Hup. apply andb_true_iff in Hup. destruct Hup as [_ Hro].
  apply negb_true_iff in Hro. unfold differs in Hdiff. apply negb_true_iff in Hdiff.
  unfold saveAfterFetch. rewrite Hone. cbn [saveDiff]. rewrite Hro, Hdiff.
  cbn [negb String.eqb].
  unfold executed at 1.
  rewrite filter_bind_preserves by (intro; now apply preserves_runHook).
  change (filter isExec) with executed.
  rewrite executed_execLogged. cbn [trace].
  pose proof (executed_fetched _ _ _ _ _ _ _ _ _ Hfetch) as Hx. cbn [trace] in Hx.
  rewrite Hx.
  rewrite length_valuesOf.
  cbn [String.append]. rewrite !append_assoc. reflexivity.
Qed.

(** *** The loops of [CreateRecord] and [ReplaceRecord] *)

Lemma createColumns_spec (basicID : bool) (v : record) (l : list Field) :
  forall a1 a2 values fetchID,
    createColumns CamelToSnake parameterPrefix basicID l v a1 a2 values fetchID =
    let skip := fun f => basicID && String.eqb (Name f) "ID"
                         && isZero (FieldByIndex v (Index f)) in
    let kept := filter (fun f => negb (skip f)) l in
    (a1 ++ map (getSQLColumnName CamelToSnake) kept,
     a2 ++ map (makeParameter parameterPrefix) (seq (List.length a1 + 1) (List.length kept)),
     values ++ valuesOf kept v,
     fetchID || existsb skip l).
Proof.
  induction l as [|f rest IH]; intros a1 a2 values fetchID; cbn zeta.
  - simpl. now rewrite !app_nil_r, orb_false_r.
  - cbn [createColumns filter existsb].
    destruct (basicID && String.eqb (Name f) "ID" && isZero (FieldByIndex v (Index f)))
      eqn:Hskip; cbn [negb].
    + rewrite IH. cbn zeta. now rewrite orb_true_r.
    + rewrite IH. cbn zeta. cbn [map List.length seq valuesOf].
      rewrite length_app. cbn [List.length].
      rewrite <- !app_assoc. cbn [app].
      replace (List.length a1 + 1 + 1) with (S (List.length a1 + 1)) by lia.
      reflexivity.
Qed.

Lemma replaceColumns_spec (v : record) (l : list Field) :
  forall a1 a2 values,
    replaceColumns CamelToSnake parameterPrefix l v a1 a2 values =
    (a1 ++ map (getSQLColumnName CamelToSnake) l,
     a2 ++ map (makeParameter parameterPrefix) (seq (List.length a1 + 1) (List.length l)),
     values ++ valuesOf l v).
Proof.
  induction l as [|f rest IH]; intros a1 a2 values.
  - simpl. now rewrite !app_nil_r.
  - cbn [replaceColumns]. rewrite IH. cbn [map List.length seq valuesOf].
    rewrite length_app. cbn [List.length].
    rewrite <- !app_assoc. cbn [app].
    replace (List.length a1 + 1 + 1) with (S (List.length a1 + 1)) by lia.
    reflexivity.
Qed.

Lemma getSQLIDFields_in (vdesc : StructDescription) (f : Field) :
  In f (getSQLIDFields vdesc) -> In f (Fields vdesc) /\ excluded f = false.
Proof.
  unfold getSQLIDFields.
  destruct (filter hasIDParameter (WithoutTagValue (Fields vdesc) "sql" "-")) as [|g r] eqn:Hr.
  - unfold FieldNamed.
    destruct (find (fun f0 => String.eqb (Name f0) "ID") (Fields vdesc)) as [g|] eqn:Hfind;
      [|intros []].
    apply find_some in Hfind. destruct Hfind as [Hin _].
    unfold excluded.
    destruct (FieldTag g "sql") as [t|] eqn:Ht.
    + destruct (String.eqb (Value t) "-") eqn:Hv; simpl; [intros []|].
      intros [<-|[]]. now rewrite Ht.
    + intros [<-|[]]. now rewrite Ht.
  - rewrite <- Hr. intro Hin. apply filter_In in Hin. destruct Hin as [Hin _].
    rewrite WithoutTagValue_excluded in Hin. apply filter_In in Hin.
    destruct Hin as [Hin He]. split; [exact Hin|].
    now apply negb_true_iff in He.
Qed.

Lemma statements_hookEvents (tr : list event) (name : string) (h : option Hook) :
  statements (tr ++ hookEvents name h) = statements tr.
Proof.
  unfold statements. rewrite filter_app.
  destruct h; simpl; apply app_nil_r.
Qed.

Lemma kept_when_zero (v : record) (idf : Field) (l : list Field) :
  Name idf = "ID" ->
  (forall g, In g l -> Name g = "ID" -> g = idf) ->
  isZero (FieldByIndex v (Index idf)) = true ->
  filter (fun f => negb (String.eqb (Name f) "ID"
                         && isZero (FieldByIndex v (Index f)))) l = notNamedID l.
Proof.
  intros Hname Huniq Hzero. unfold notNamedID. apply filter_ext_in.
  intros g Hg.
  destruct (String.eqb (Name g) "ID") eqn:E; [|reflexivity].
  apply String.eqb_eq in E. rewrite (Huniq g Hg E), Hzero. reflexivity.
Qed.

Lemma kept_when_set (v : record) (idf : Field) (l : list Field) :
  (forall g, In g l -> Name g = "ID" -> g = idf) ->
  isZero (FieldByIndex v (Index idf)) = false ->
  filter (fun f => negb (String.eqb (Name f) "ID"
                         && isZero (FieldByIndex v (Index f)))) l = l
  /\
  existsb (fun f => String.eqb (Name f) "ID"
                    && isZero (FieldByIndex v (Index f))) l = false.
Proof.
  intros Huniq Hset.
  assert (H : forall g, In g l ->
                String.eqb (Name g) "ID" && isZero (FieldByIndex v (Index g)) = false).
  { intros g Hg.
    destruct (String.eqb (Name g) "ID") eqn:E; [|reflexivity].
    apply String.eqb_eq in E. now rewrite (Huniq g Hg E), Hset. }
  split.
  - induction l as [|g l IH]; simpl; [reflexivity|].
    rewrite (H g (or_introl eq_refl)). simpl. f_equal.
    apply IH; intros; [apply Huniq | apply H]; simpl; auto.
  - induction l as [|g l IH]; simpl; [reflexivity|].
    rewrite (H g (or_introl eq_refl)). simpl.
    apply IH; intros; [apply Huniq | apply H]; simpl; auto.
Qed.

Lemma skipped_when_zero (v : record) (idf : Field) (l : list Field) :
  Name idf = "ID" ->
  In idf l ->
  isZero (FieldByIndex v (Index idf)) = true ->
  existsb (fun f => String.eqb (Name f) "ID"
                    && isZero (FieldByIndex v (Index f))) l = true.
Proof.
  intros Hname Hin Hzero. apply existsb_exists. exists idf. split; [exact Hin|].
  rewrite Hname, Hzero. reflexivity.
Qed.

Lemma FieldNamed_unique (vdesc : StructDescription) (idf : Field) :
  In idf (Fields vdesc) ->
  Name idf = "ID" ->
  (forall g, In g (Fields vdesc) -> Name g = "ID" -> g = idf) ->
  FieldNamed vdesc "ID" = Some idf.
Proof.
  intros Hin Hname Huniq. unfold FieldNamed.
  destruct (find (fun f => String.eqb (Name f) "ID") (Fields vdesc)) as [g|] eqn:E.
  - apply find_some in E. destruct E as [Hg Hn]. apply String.eqb_eq in Hn.
    now rewrite (Huniq g Hg Hn).
  - apply (find_none _ _ E) in Hin. rewrite Hname in Hin. discriminate.
Qed.

Lemma statements_loggedAround (ql : option bool) (e : event) (query : string)
    (vars : list value) (err : option error) :
  isStatement e = true -> statements (loggedAround ql e query vars err) = [e].
Proof.
  intro He. unfold loggedAround, statements.
  destruct ql as [[|]|]; simpl; now rewrite He.
Qed.

Lemma execLogged_ok (op : string) (tx : Querier) (query : string)
    (values : list value) (w : World) :
  ExecContext tx query values = None ->
  execLogged queryLogger op tx query values w =
    (inr tt,
     mkWorld (trace w ++ loggedAround queryLogger (EvExec query values) query values None)
             (self w)).
Proof.
  intro H. unfold execLogged, LogQuery, LogQueryAfter, loggedAround, bind, emit, ret.
  rewrite H. destruct w as [tr x]. destruct queryLogger as [[|]|]; simpl;
    rewrite <- ?app_assoc; reflexivity.
Qed.

Lemma execLogged_fails (op : string) (tx : Querier) (query : string)
    (values : list value) (w : World) (err : error) :
  ExecContext tx query values = Some err ->
  execLogged queryLogger op tx query values w =
    (inl (Wrap op err),
     mkWorld (trace w ++ loggedAround queryLogger (EvExec query values) query values (Some err))
             (self w)).
Proof.
  intro H. unfold execLogged, LogQuery, LogQueryAfter, loggedAround, bind, emit, ret, throw.
  rewrite H. destruct w as [tr x]. destruct queryLogger as [[|]|]; simpl;
    rewrite <- ?app_assoc; reflexivity.
Qed.

Lemma statements_execLogged (op : string) (tx : Querier) (query : string)
    (values : list value) (w : World) :
  statements (trace (snd (execLogged queryLogger op tx query values w))) =
  statements (trace w) ++ [EvExec query values].
Proof.
  destruct (ExecContext tx query values) as [err|] eqn:E.
  - rewrite (execLogged_fails _ _ _ _ _ _ E). cbn [snd trace].
    unfold statements at 1. rewrite filter_app. f_equal.
    now apply statements_loggedAround.
  - rewrite (execLogged_ok _ _ _ _ _ E). cbn [snd trace].
    unfold statements at 1. rewrite filter_app. f_equal.
    now apply statements_loggedAround.
Qed.

Lemma runHook_self (op name : string) (h : option Hook) (w : World) :
  self (snd (runHook op name h w)) = fst (afterHook h (self w)).
Proof.
  destruct w as [tr x]. destruct h as [hook|]; [|reflexivity].
  unfold runHook, bind, getSelf, emit, setSelf, throw, ret; simpl.
  destruct (hook x) as [x' [e|]]; reflexivity.
Qed.

Lemma statements_runHook (op name : string) (h : option Hook) (w : World) :
  statements (trace (snd (runHook op name h w))) = statements (trace w).
Proof. now apply (preserves_runHook isStatement). Qed.

Lemma statements_hookEvents_nil (name : string) (h : option Hook) :
  statements (hookEvents name h) = [].
Proof. destruct h; reflexivity. Qed.

(** The follow-up query of [CreateRecord], as one step. *)
Lemma fetchInsertID_step (tx : Querier) (vtyp : StructType) (vdesc : StructDescription)
    (values : list value) (v : record) (w : World) :
  (LogQuery queryLogger "select last_insert_rowid()" values ;;;
   emit (EvQueryRow "select last_insert_rowid()" []) ;;;
   match fetchInsertID convertAssign tx vtyp vdesc "select last_insert_rowid()" v with
   | inl err =>
       LogQueryAfter queryLogger "select last_insert_rowid()" values (Some err) ;;;
       throw (Wrap "CreateRecord: couldn't fetch insert id" err)
   | inr v' =>
       setSelf (Ptr (PStruct vtyp v')) ;;;
       LogQueryAfter queryLogger "select last_insert_rowid()" values None
   end) w =
  match fetchInsertID convertAssign tx vtyp vdesc "select last_insert_rowid()" v with
  | inl err =>
      (inl (Wrap "CreateRecord: couldn't fetch insert id" err),
       mkWorld (trace w ++ loggedAround queryLogger
                             (EvQueryRow "select last_insert_rowid()" [])
                             "select last_insert_rowid()" values (Some err))
               (self w))
  | inr v' =>
      (inr tt,
       mkWorld (trace w ++ loggedAround queryLogger
                             (EvQueryRow "select last_insert_rowid()" [])
                             "select last_insert_rowid()" values None)
               (Ptr (PStruct vtyp v')))
  end.
Proof.
  destruct w as [tr x].
  destruct (fetchInsertID convertAssign tx vtyp vdesc "select last_insert_rowid()" v);
    unfold bind, LogQuery, LogQueryAfter, loggedAround, emit, throw, setSelf, ret;
    destruct queryLogger as [[|]|]; simpl; rewrite <- ?app_assoc; reflexivity.
Qed.

Ltac statements_of_trace :=
  cbn [fst snd trace self];
  rewrite ?statements_runHook; cbn [fst snd trace self];
  unfold statements; rewrite ?filter_app;
  change (filter isStatement) with statements;
  rewrite ?statements_hookEvents_nil, ?app_nil_r;
  rewrite ?statements_loggedAround by reflexivity;
  rewrite <- ?app_assoc.

(** C2.  For a type whose only identity field is the one declared as
    [ID]: when that field holds its zero value, [CreateRecord] leaves the
    column out of the [insert] and, once the [insert] has succeeded,
    sends exactly one follow-up single-row query, whose result is stored
    in the [ID] field; when the field is not zero, the column is part of
    the [insert] and nothing else is sent. *)
Theorem CreateRecord_basic_identity (m : Methods) (tx : Querier) (w : World)
    (vtyp : StructType) (vdesc : StructDescription) (v : record) (idf : Field) :
  afterHook (BeforeCreate m) (self w) = (Ptr (PStruct vtyp v), None) ->
  Description vtyp = inr vdesc ->
  getSQLIDFields vdesc = [idf] ->
  Name idf = "ID" ->
  (forall g, In g (Fields vdesc) -> Name g = "ID" -> g = idf) ->
  let fields := WithoutTagValue (Fields vdesc) "sql" "-" in
  let others := notNamedID fields in
  let insert := insertQuery CamelToSnake parameterPrefix "insert" vdesc in
  let result := CreateRecord CamelToSnake convertAssign parameterPrefix queryLogger m tx w in
  (isZero (FieldByIndex v (Index idf)) = true ->
   ExecContext tx (insert others) (valuesOf others v) = None ->
   ~ In idf others /\
   statements (trace (final result)) =
     statements (trace w) ++
     [EvExec (insert others) (valuesOf others v);
      EvQueryRow "select last_insert_rowid()" []] /\
   forall x y,
     QueryRowContext tx "select last_insert_rowid()" [] = inr x ->
     convertAssign (FieldByIndex v (Index idf)) x = inr y ->
     self (final result) =
       fst (afterHook (AfterCreate m) (Ptr (PStruct vtyp (SetField v (Index idf) y)))))
  /\
  (isZero (FieldByIndex v (Index idf)) = false ->
   In idf fields /\
   statements (trace (final result)) =
     statements (trace w) ++ [EvExec (insert fields) (valuesOf fields v)]).
Proof.
  intros Hhook Hd Hids Hname Huniq fields others insert result.
  assert (Hidin : In idf (Fields vdesc) /\ excluded idf = false).
  { apply getSQLIDFields_in. rewrite Hids. now left. }
  destruct Hidin as [Hidin Hidex].
  assert (Hinf : In idf fields).
  { unfold fields. rewrite WithoutTagValue_excluded. apply filter_In.
    split; [exact Hidin | now rewrite Hidex]. }
  assert (Huniq' : forall g, In g fields -> Name g = "ID" -> g = idf).
  { intros g Hg. apply Huniq. unfold fields in Hg.
    rewrite WithoutTagValue_excluded in Hg. now apply filter_In in Hg. }
  assert (Hne : getSQLIDFields vdesc <> []) by (rewrite Hids; discriminate).
  assert (Hrun : result =
    (let basicID := String.eqb (Name idf) "ID" in
     let '(a1, a2, values, fetchID) :=
       createColumns CamelToSnake parameterPrefix basicID fields v [] [] [] false in
     let tbl := getSQLTableName CamelToSnake vdesc in
     let query := "insert into " +s tbl +s " (" +s Join a1 ", "
                  +s ") values (" +s Join a2 ", " +s ")" in
     execLogged queryLogger "CreateRecord" tx query values ;;;
     (if basicID && fetchID then
        let query := "select last_insert_rowid()" in
        LogQuery queryLogger query values ;;;
        emit (EvQueryRow query []) ;;;
        match fetchInsertID convertAssign tx vtyp vdesc query v with
        | inl err =>
            LogQueryAfter queryLogger query values (Some err) ;;;
            throw (Wrap "CreateRecord: couldn't fetch insert id" err)
        | inr v' =>
            setSelf (Ptr (PStruct vtyp v')) ;;;
            LogQueryAfter queryLogger query values None
        end
      else ret tt) ;;;
     runHook "CreateRecord" "AfterCreate" (AfterCreate m))
      (mkWorld (trace w ++ hookEvents "BeforeCreate" (BeforeCreate m))
               (Ptr (PStruct vtyp v)))).
  { unfold result, CreateRecord. unfold bind at 1.
    rewrite (runHook_ok _ _ _ _ _ Hhook).
    unfold bind at 1. rewrite (checkInput_ok _ _ _ _ _ Hd Hne).
    unfold bind at 1, getSelf at 1. cbn [self fieldsOf trace].
    rewrite Hids. reflexivity. }
  rewrite Hrun. clear Hrun. rewrite Hname. cbn [String.eqb Ascii.eqb Bool.eqb andb].
  cbv zeta. rewrite createColumns_spec. cbv zeta. cbn [app List.length Nat.add orb].
  split.
  - intros Hzero Hexec.
    cbn [andb].
    rewrite (kept_when_zero v idf fields Hname Huniq' Hzero).
    rewrite (skipped_when_zero v idf fields Hname Hinf Hzero).
    fold others.
    change ("insert into " +s getSQLTableName CamelToSnake vdesc +s " ("
            +s Join (map (getSQLColumnName CamelToSnake) others) ", " +s ") values ("
            +s Join (map (makeParameter parameterPrefix) (seq 1 (List.length others))) ", "
            +s ")") with (insert others).
    split.
    { unfold others, notNamedID. rewrite filter_In, Hname. simpl. intros [_ H]. discriminate. }
    split.
    + unfold final, bind at 1. rewrite (execLogged_ok _ _ _ _ _ Hexec).
      cbn [self trace]. unfold bind at 1. rewrite fetchInsertID_step.
      destruct (fetchInsertID convertAssign tx vtyp vdesc "select last_insert_rowid()" v)
        as [err|v'] eqn:Hf; statements_of_trace; reflexivity.
    + intros x y Hx Hy.
      assert (Hf : fetchInsertID convertAssign tx vtyp vdesc "select last_insert_rowid()" v
                   = inr (SetField v (Index idf) y)).
      { unfold fetchInsertID.
        now rewrite (FieldNamed_unique vdesc idf Hidin Hname Huniq), Hx, Hy. }
      unfold final, bind at 1. rewrite (execLogged_ok _ _ _ _ _ Hexec).
      cbn [self trace]. unfold bind at 1. rewrite fetchInsertID_step, Hf.
      now rewrite runHook_self.
  - intro Hset. cbn [andb].
    destruct (kept_when_set v idf fields Huniq' Hset) as [Hkept Hnone].
    rewrite Hkept, Hnone.
    change ("insert into " +s getSQLTableName CamelToSnake vdesc +s " ("
            +s Join (map (getSQLColumnName CamelToSnake) fields) ", " +s ") values ("
            +s Join (map (makeParameter parameterPrefix) (seq 1 (List.length fields))) ", "
            +s ")") with (insert fields).
    split; [exact Hinf|].
    unfold final. unfold statements at 1.
    rewrite filter_bind_preserves
      by (intro; apply preserves_bind;
          [apply preserves_ret | intro; now apply preserves_runHook]).
    change (filter isStatement) with statements.
    rewrite statements_execLogged. cbn [trace].
    now rewrite statements_hookEvents.
Qed.

(** *** Hooks come first *)

Lemma checkInput_pure (op : string) (w : World) :
  checkInput op w = (fst (checkInput op (mkWorld [] (self w))), w).
Proof.
  destruct w as [tr x].
  unfold checkInput, bind, getSelf, liftE, throw, ret; simpl.
  destruct x as [k|[t v|t items|k|k]]; try reflexivity.
  destruct (getDescriptionFromType t); simpl; [reflexivity|].
  destruct (Nat.eqb (List.length (getSQLIDFields s)) 0); reflexivity.
Qed.

Lemma perform_starts_with_hook (op : operation) (m : Methods) (tx : Querier) (w : World) :
  exists rest : StructType * StructDescription * list Field -> M unit,
    perform CamelToSnake convertAssign parameterPrefix queryLogger op m tx w =
    (runHook (opName op) (beforeName op) (beforeHook op m) ;;;
     r <- checkInput (opName op) ;; rest r) w.
Proof.
  destruct op; simpl; eexists; reflexivity.
Qed.

(** C9.  Each of the four mutating operations calls the argument's
    before-hook, when it has one, before it checks the argument: a
    failing hook's error is what the operation returns, whatever the
    argument is; and when the hook succeeds on an argument that fails
    the checks, the hook has run (its mark is in the trace and the
    argument is as the hook left it) and the operation returns the error
    of the checks. *)
Theorem before_hook_precedes_validation (op : operation) (m : Methods) (tx : Querier)
    (w : World) (hook : Hook) :
  beforeHook op m = Some hook ->
  (forall x e,
     hook (self w) = (x, Some e) ->
     perform CamelToSnake convertAssign parameterPrefix queryLogger op m tx w =
       (inl (Wrap (opName op +s ": " +s beforeName op +s " callback returned an error") e),
        mkWorld (trace w ++ [EvHook (beforeName op)]) x))
  /\
  (forall x err,
     hook (self w) = (x, None) ->
     validationError op x = Some err ->
     perform CamelToSnake convertAssign parameterPrefix queryLogger op m tx w =
       (inl err, mkWorld (trace w ++ [EvHook (beforeName op)]) x)).
Proof.
  intro Hh. destruct (perform_starts_with_hook op m tx w) as [rest ->].
  rewrite Hh. split.
  - intros x e Hx. unfold bind at 1. now rewrite (runHook_fails _ _ _ _ _ _ Hx).
  - intros x err Hx Hv. unfold bind at 1.
    rewrite (runHook_ok _ _ (Some hook) w x Hx). cbn [hookEvents].
    unfold bind at 1. rewrite checkInput_pure. cbn [self fst].
    unfold validationError in Hv.
    destruct (fst (checkInput (opName op) (mkWorld [] x))) as [e|r]; [|discriminate].
    now injection Hv as ->.
Qed.

(** What the checks answer on an argument that is no pointer, no pointer
    to a struct, or a struct without identity fields. *)
Lemma validationError_cases (op : operation) :
  (forall k, validationError op (NonPtr k) = Some (ExpectedPointer (opName op) k)) /\
  (forall t items, validationError op (Ptr (PSlice t items)) =
                   Some (ExpectedPointerToStruct (opName op) KSlice)) /\
  (forall k, validationError op (Ptr (POther k)) =
             Some (ExpectedPointerToStruct (opName op) k)) /\
  (forall t v d, Description t = inr d -> getSQLIDFields d = [] ->
                 validationError op (Ptr (PStruct t v)) = Some (NoIDFields (opName op))).
Proof.
  repeat split; try reflexivity.
  intros t v d Hd Hid.
  unfold validationError, checkInput, bind, getSelf, liftE, getDescriptionFromType; simpl.
  rewrite Hd; simpl. now rewrite Hid.
Qed.

(** *** Identity clauses *)

(** For two identity fields [SaveRecord] builds
    [where c1 = P1 and c2 = P2] over the two identity values. *)
Lemma saveWhere_two (f1 f2 : Field) (v : record) :
  saveWhere CamelToSnake parameterPrefix [f1; f2] v "" [] =
    ("where " +s getSQLColumnName CamelToSnake f1 +s " = " +s makeParameter parameterPrefix 1
     +s " and " +s getSQLColumnName CamelToSnake f2 +s " = " +s makeParameter parameterPrefix 2,
     [FieldByIndex v (Index f1); FieldByIndex v (Index f2)]).
Proof.
  cbn [saveWhere List.length app Nat.add String.eqb String.append].
  now rewrite !append_assoc.
Qed.

(** For two identity fields [DeleteRecord] joins the two comparisons
    with [and ] and no space before it. *)
Lemma deleteWhere_two (f1 f2 : Field) (v : record) :
  deleteWhere CamelToSnake parameterPrefix [f1; f2] v "" [] =
    ("where " +s getSQLColumnName CamelToSnake f1 +s " = " +s makeParameter parameterPrefix 1
     +s "and " +s getSQLColumnName CamelToSnake f2 +s " = " +s makeParameter parameterPrefix 2,
     [FieldByIndex v (Index f1); FieldByIndex v (Index f2)]).
Proof.
  cbn [deleteWhere List.length app Nat.add String.eqb String.append].
  now rewrite !append_assoc.
Qed.

End Synthesis.

(* ================================================================== *)
(** ** Excluded fields *)
(* ================================================================== *)

Lemma sameOutcome_ret {A : Type} (a : A) : sameOutcome (ret a) (ret a).
Proof. intros w w' H. unfold outcome, ret; simpl. now rewrite H. Qed.

Lemma sameOutcome_throw {A : Type} (e : error) : sameOutcome (@throw A e) (throw e).
Proof. intros w w' H. unfold outcome, throw; simpl. now rewrite H. Qed.

Lemma sameOutcome_emit (e : event) : sameOutcome (emit e) (emit e).
Proof. intros w w' H. unfold outcome, emit; simpl. now rewrite H. Qed.

Lemma sameOutcome_setSelf (x x' : iface) : sameOutcome (setSelf x) (setSelf x').
Proof. intros w w' H. unfold outcome, setSelf; simpl. now rewrite H. Qed.


Lemma sameOutcome_withObject {A : Type} (o : iface) (m : M A) :
  sameOutcome (withObject o m) (withObject o m).
Proof.
  intros w w' H. unfold withObject, outcome. rewrite H.
  destruct (m (mkWorld (trace w') o)) as [r w1]; reflexivity.
Qed.

Create HintDb sameOutcome.
#[local] Hint Resolve sameOutcome_ret sameOutcome_throw sameOutcome_emit
  sameOutcome_setSelf sameOutcome_withObject : sameOutcome.


Section Excluded.

Variable CamelToSnake : string -> string.
Variable convertAssign : value -> value -> error + value.
Variable parameterPrefix : string.
Variable queryLogger : option bool.




(** *** The loops read only the fields they are given *)










(** *** The operations on a struct whose type has no hooks *)

Lemma checkInput_struct (op : string) (tr : list event) (vtyp : StructType) (v : record)
    (vdesc : StructDescription) :
  Description vtyp = inr vdesc ->
  checkInput op (mkWorld tr (Ptr (PStruct vtyp v))) =
    (if Nat.eqb (List.length (getSQLIDFields vdesc)) 0 then inl (NoIDFields op)
     else inr (vtyp, vdesc, getSQLIDFields vdesc),
     mkWorld tr (Ptr (PStruct vtyp v))).
Proof.
  intro Hd.
  unfold checkInput, bind, getSelf, liftE, getDescriptionFromType, throw, ret; simpl.
  rewrite Hd; simpl.
  destruct (Nat.eqb (List.length (getSQLIDFields vdesc)) 0); reflexivity.
Qed.









End Excluded.

(* ================================================================== *)
(** ** The properties on the types of the tests *)
(* ================================================================== *)

(** The package's own tests, replayed on the model:
    [TestCreateRecordCompositeID], [TestSetParameterPrefix] and the
    [no scanner] case of [TestOverrideScanner]. *)
Example TestCreateRecordCompositeID :
  Tests.run (CreateRecord Tests.CamelToSnake Tests.convertAssign "" None noMethods
               Tests.compositeDB)
            (Ptr (PStruct Tests.CompositeIDObject [VInt 101; VInt 201; VString "test1"])) =
    (inr tt,
     mkWorld
       [EvExec "insert into composite_id_objects (id_1, id_2, name) values ($1, $2, $3)"
               [VInt 101; VInt 201; VString "test1"]]
       (Ptr (PStruct Tests.CompositeIDObject [VInt 101; VInt 201; VString "test1"]))).
Proof. reflexivity. Qed.

Example TestSetParameterPrefix :
  trace (final (Tests.run
    (SaveRecord Tests.CamelToSnake Tests.convertAssign "?" None noMethods Tests.simpleDB)
    (Ptr (PStruct Tests.SimpleObject [VInt 1; VString "test1_modified"])))) =
    [EvQuery "select * from simple_objects where id = ?1 limit 1" [VInt 1];
     EvExec "update simple_objects set name = ?2 where id = ?1"
            [VInt 1; VString "test1_modified"]].
Proof. reflexivity. Qed.

Example TestOverrideScanner_no_scanner :
  Tests.run (FindFirstWhere Tests.CamelToSnake Tests.convertAssign None
               (Tests.answering
                  (mkRows (inr ["id"; "value"]) [[VInt64 1; VString "success"]] None)
                  VNil)
               "" [])
            (Ptr (PStruct Tests.testScannersNoScanner [VInt 0; VString ""])) =
    (inr tt,
     mkWorld [EvQuery "select * from objects limit 1" []]
             (Ptr (PStruct Tests.testScannersNoScanner [VInt 1; VString "success"]))).
Proof. reflexivity. Qed.

(** C3.  On [CompositeIDObject], whose identity fields are [ID1] and
    [ID2], [SaveRecord] builds [where id_1 = $1 and id_2 = $2] and numbers
    the [set] placeholder after it, but [DeleteRecord] sends
    [where id_1 = $1and id_2 = $2]: the placeholder [$1] and the keyword
    are not separated. *)
Theorem DeleteRecord_composite_where_lacks_space :
  Tests.run (SaveRecord Tests.CamelToSnake Tests.convertAssign "" None noMethods
               Tests.compositeDB)
            (Ptr (PStruct Tests.CompositeIDObject [VInt 101; VInt 201; VString "changed"])) =
    (inr tt,
     mkWorld
       [EvQuery "select * from composite_id_objects where id_1 = $1 and id_2 = $2 limit 1"
                [VInt 101; VInt 201];
        EvExec "update composite_id_objects set name = $3 where id_1 = $1 and id_2 = $2"
               [VInt 101; VInt 201; VString "changed"]]
       (Ptr (PStruct Tests.CompositeIDObject [VInt 101; VInt 201; VString "changed"])))
  /\
  Tests.run (DeleteRecord Tests.CamelToSnake "" None noMethods Tests.compositeDB)
            (Ptr (PStruct Tests.CompositeIDObject [VInt 101; VInt 201; VString "test1"])) =
    (inr tt,
     mkWorld
       [EvExec "delete from composite_id_objects where id_1 = $1and id_2 = $2"
               [VInt 101; VInt 201]]
       (Ptr (PStruct Tests.CompositeIDObject [VInt 101; VInt 201; VString "test1"]))).
Proof.
  split; reflexivity.
Qed.

(** C4 as first stated fails on [Pair]: the column [label] is the [sql]
    column name of the first field, yet [ScanRows] binds it to no field
    and reports it missing. *)
Lemma resolveColumn_duplicate_tag :
  specResolve Tests.CamelToSnake (Tests.descriptionOf Tests.Pair) "label" =
    Some (Tests.tagged "First" 0 (mkTag "label" []) (VString ""))
  /\
  resolveColumn Tests.CamelToSnake (Tests.descriptionOf Tests.Pair) "label" = None
  /\
  Tests.run (ScanRows Tests.CamelToSnake Tests.convertAssign Tests.labelColumn)
            (Ptr (PSlice Tests.Pair [])) =
    (inl (MissingFields "Pair" ["label"]), mkWorld [] (Ptr (PSlice Tests.Pair []))).
Proof.
  repeat split; reflexivity.
Qed.

(** C4 as amended, on each step: on [Article] the column [heading] is
    bound by the annotation, [ID] by the declared name and [id] by the
    snake-case name; on [Twice] two fields carry [B], so the annotation
    is skipped and the column is bound to the field declared as [B]; on
    [Pair] two fields carry [label] and the last two steps find
    nothing. *)
Lemma resolveColumn_tag_then_name_then_snake_witness :
  snd (fst (resolveColumns Tests.CamelToSnake (Tests.descriptionOf Tests.Article)
              ["heading"; "ID"; "id"])) = [Some 1; Some 0; Some 0]
  /\
  snd (fst (resolveColumns Tests.CamelToSnake (Tests.descriptionOf Tests.Twice)
              ["B"])) = [Some 1]
  /\
  snd (fst (resolveColumns Tests.CamelToSnake (Tests.descriptionOf Tests.Pair)
              ["label"])) = [None].
Proof.
  split; [|split].
  - exact (proj1 (proj2 (resolveColumn_tag_then_name_then_snake Tests.CamelToSnake
                           (Tests.descriptionOf Tests.Article) ["heading"; "ID"; "id"]))).
  - exact (proj1 (proj2 (resolveColumn_tag_then_name_then_snake Tests.CamelToSnake
                           (Tests.descriptionOf Tests.Twice) ["B"]))).
  - exact (proj1 (proj2 (resolveColumn_tag_then_name_then_snake Tests.CamelToSnake
                           (Tests.descriptionOf Tests.Pair) ["label"]))).
Defined.

(** C1 on the test [TestSaveRecord]: only [name] changed. *)
Lemma SaveRecord_single_change_witness :
  executed (trace (final
    (SaveRecord Tests.CamelToSnake Tests.convertAssign "" None noMethods Tests.simpleDB
       (mkWorld [] (Ptr (PStruct Tests.SimpleObject [VInt 1; VString "test1_modified"])))))) =
  [EvExec "update simple_objects set name = $2 where id = $1"
          [VInt 1; VString "test1_modified"]].
Proof.
  apply (SaveRecord_single_change Tests.CamelToSnake Tests.convertAssign "" None
           noMethods Tests.simpleDB
           (mkWorld [] (Ptr (PStruct Tests.SimpleObject [VInt 1; VString "test1_modified"])))
           Tests.SimpleObject (Tests.descriptionOf Tests.SimpleObject)
           [VInt 1; VString "test1_modified"] [VInt 1; VString "test1"]
           [EvQuery "select * from simple_objects where id = $1 limit 1" [VInt 1]]
           (Tests.plain "Name" 1 (VString "")));
    try reflexivity.
  discriminate.
Defined.

(** C8 on the test [TestSaveRecordNoChange]. *)
Lemma SaveRecord_unchanged_is_noop_witness :
  SaveRecord Tests.CamelToSnake Tests.convertAssign "" None noMethods Tests.simpleDB
    (mkWorld [] (Ptr (PStruct Tests.SimpleObject [VInt 1; VString "test1"]))) =
    (inr tt,
     mkWorld [EvQuery "select * from simple_objects where id = $1 limit 1" [VInt 1]]
             (Ptr (PStruct Tests.SimpleObject [VInt 1; VString "test1"])))
  /\ executed [EvQuery "select * from simple_objects where id = $1 limit 1" [VInt 1]] =
     executed [].
Proof.
  apply (SaveRecord_unchanged_is_noop Tests.CamelToSnake Tests.convertAssign "" None
           noMethods Tests.simpleDB
           (mkWorld [] (Ptr (PStruct Tests.SimpleObject [VInt 1; VString "test1"])))
           Tests.SimpleObject (Tests.descriptionOf Tests.SimpleObject)
           [VInt 1; VString "test1"] [VInt 1; VString "test1"]
           [EvQuery "select * from simple_objects where id = $1 limit 1" [VInt 1]]);
    try reflexivity.
  - discriminate.
  - intros f [<-|[<-|[]]] _ _; reflexivity.
Defined.

(** C2 on the tests [TestCreateRecordEmptyID] and [TestCreateRecord]. *)
Lemma CreateRecord_basic_identity_witness :
  (statements (trace (final
     (CreateRecord Tests.CamelToSnake Tests.convertAssign "" None noMethods Tests.simpleDB
        (mkWorld [] (Ptr (PStruct Tests.SimpleObject [VInt 0; VString "test1"])))))) =
   [EvExec "insert into simple_objects (name) values ($1)" [VString "test1"];
    EvQueryRow "select last_insert_rowid()" []]
   /\
   self (final
     (CreateRecord Tests.CamelToSnake Tests.convertAssign "" None noMethods Tests.simpleDB
        (mkWorld [] (Ptr (PStruct Tests.SimpleObject [VInt 0; VString "test1"]))))) =
   Ptr (PStruct Tests.SimpleObject [VInt 1; VString "test1"]))
  /\
  statements (trace (final
     (CreateRecord Tests.CamelToSnake Tests.convertAssign "" None noMethods Tests.simpleDB
        (mkWorld [] (Ptr (PStruct Tests.SimpleObject [VInt 1; VString "test1"])))))) =
   [EvExec "insert into simple_objects (id, name) values ($1, $2)"
           [VInt 1; VString "test1"]].
Proof.
  assert (Huniq : forall g,
            In g (Fields (Tests.descriptionOf Tests.SimpleObject)) ->
            Name g = "ID" -> g = Tests.plain "ID" 0 (VInt 0)).
  { intros g [<-|[<-|[]]] Hn; [reflexivity | discriminate]. }
  split.
  - destruct (CreateRecord_basic_identity Tests.CamelToSnake Tests.convertAssign "" None
                noMethods Tests.simpleDB
                (mkWorld [] (Ptr (PStruct Tests.SimpleObject [VInt 0; VString "test1"])))
                Tests.SimpleObject (Tests.descriptionOf Tests.SimpleObject)
                [VInt 0; VString "test1"] (Tests.plain "ID" 0 (VInt 0))
                eq_refl eq_refl eq_refl eq_refl Huniq) as [Hzero _].
    destruct (Hzero eq_refl eq_refl) as (_ & Hst & Hself).
    split; [exact Hst | exact (Hself (VInt64 1) (VInt 1) eq_refl eq_refl)].
  - destruct (CreateRecord_basic_identity Tests.CamelToSnake Tests.convertAssign "" None
                noMethods Tests.simpleDB
                (mkWorld [] (Ptr (PStruct Tests.SimpleObject [VInt 1; VString "test1"])))
                Tests.SimpleObject (Tests.descriptionOf Tests.SimpleObject)
                [VInt 1; VString "test1"] (Tests.plain "ID" 0 (VInt 0))
                eq_refl eq_refl eq_refl eq_refl Huniq) as [_ Hset].
    exact (proj2 (Hset eq_refl)).
Defined.

(** C9 on a value that is no pointer: a failing [BeforeDelete] hook's
    error is returned, and after a succeeding one the operation reports
    that the argument is no pointer. *)
Lemma before_hook_precedes_validation_witness :
  perform Tests.CamelToSnake Tests.convertAssign "" None Delete
          (Tests.hooked (Some (External "test error"))) Tests.simpleDB
          (mkWorld [] (NonPtr KInt)) =
    (inl (Wrap "DeleteRecord: BeforeDelete callback returned an error"
               (External "test error")),
     mkWorld [EvHook "BeforeDelete"] (NonPtr KInt))
  /\
  perform Tests.CamelToSnake Tests.convertAssign "" None Save
          (Tests.hooked None) Tests.simpleDB (mkWorld [] (NonPtr KInt)) =
    (inl (ExpectedPointer "SaveRecord" KInt),
     mkWorld [EvHook "BeforeSave"] (NonPtr KInt)).
Proof.
  split.
  - exact (proj1 (before_hook_precedes_validation Tests.CamelToSnake Tests.convertAssign
                    "" None Delete (Tests.hooked (Some (External "test error")))
                    Tests.simpleDB (mkWorld [] (NonPtr KInt))
                    (fun x => (x, Some (External "test error"))) eq_refl)
                 (NonPtr KInt) (External "test error") eq_refl).
  - exact (proj2 (before_hook_precedes_validation Tests.CamelToSnake Tests.convertAssign
                    "" None Save (Tests.hooked None)
                    Tests.simpleDB (mkWorld [] (NonPtr KInt))
                    (fun x => (x, None)) eq_refl)
                 (NonPtr KInt) (ExpectedPointer "SaveRecord" KInt) eq_refl eq_refl).
Defined.



(* ================================================================== *)
(** ** Further properties: naming and identity *)
(* ================================================================== *)

Lemma append_cancel (p a b : string) : p +s a = p +s b -> a = b.
Proof.
  induction p as [|c p IH]; simpl; intro H; [exact H|].
  injection H as H. now apply IH.
Qed.

Lemma itoa_inj (n n' : nat) : itoa n = itoa n' -> n = n'.
Proof.
  unfold itoa. intro H.
  apply DecimalNat.Unsigned.to_uint_inj.
  pose proof (NilEmpty.usu (Nat.to_uint n)) as Hn.
  rewrite H, NilEmpty.usu in Hn. now injection Hn.
Qed.

(** X1.  Placeholders: with no prefix set the prefix is [$], and under any
    prefix two positions get the same placeholder only when they are the
    same position. *)
Theorem makeParameter_distinct (parameterPrefix : string) (n n' : nat) :
  makeParameter "" n = "$" +s itoa n /\
  (makeParameter parameterPrefix n = makeParameter parameterPrefix n' <-> n = n').
Proof.
  split; [reflexivity|]. split; [|now intros ->].
  unfold makeParameter. cbv zeta. intro H.
  apply append_cancel in H. now apply itoa_inj.
Qed.

(** X2.  The identity set: the flagged fields in declared order when there
    are any (a field named [ID] then counts only if it is flagged too);
    otherwise the field declared as [ID] alone, unless it is excluded or
    absent, in which case the set is empty.  Every identity field is a
    declared field that is not excluded. *)
Theorem getSQLIDFields_cases (vdesc : StructDescription) :
  (flaggedFields vdesc <> [] -> getSQLIDFields vdesc = flaggedFields vdesc) /\
  (flaggedFields vdesc = [] ->
   forall f, FieldNamed vdesc "ID" = Some f ->
             getSQLIDFields vdesc = if excluded f then [] else [f]) /\
  (flaggedFields vdesc = [] -> FieldNamed vdesc "ID" = None ->
   getSQLIDFields vdesc = []) /\
  (forall f, In f (getSQLIDFields vdesc) -> In f (Fields vdesc) /\ excluded f = false).
Proof.
  assert (Hfl : filter hasIDParameter (WithoutTagValue (Fields vdesc) "sql" "-")
                = flaggedFields vdesc).
  { rewrite WithoutTagValue_excluded. apply filter_filter. }
  repeat split.
  - intro Hne. unfold getSQLIDFields. cbv zeta. rewrite Hfl.
    destruct (flaggedFields vdesc); [contradiction | reflexivity].
  - intros Hnil f Hf. unfold getSQLIDFields. cbv zeta. rewrite Hfl, Hnil, Hf.
    unfold excluded.
    destruct (FieldTag f "sql") as [t|]; [|reflexivity].
    destruct (String.eqb (Value t) "-"); reflexivity.
  - intros Hnil Hf. unfold getSQLIDFields. cbv zeta. now rewrite Hfl, Hnil, Hf.
  - exact (proj1 (getSQLIDFields_in vdesc f H)).
  - exact (proj2 (getSQLIDFields_in vdesc f H)).
Qed.

Section Naming.

Variable CamelToSnake : string -> string.

Lemma tableOverride_none (l : list Field) :
  (forall g, In g l -> fieldTable g = None) -> tableOverride l = None.
Proof.
  induction l as [|g l IH]; simpl; intro H; [reflexivity|].
  rewrite (H g (or_introl eq_refl)). apply IH. intros; apply H; now right.
Qed.

(** X3.  The table of a type: the first field, in declared order, that names
    a table decides, by its [table] tag or else by the [table] parameter
    of its [sql] tag, and this also when that field is excluded; without
    any such field the table is the snake-case type name with [s]
    appended. *)
Theorem getSQLTableName_first_override (vdesc : StructDescription) :
  (forall before f after s,
     Fields vdesc = before ++ f :: after ->
     (forall g, In g before -> fieldTable g = None) ->
     fieldTable f = Some s ->
     getSQLTableName CamelToSnake vdesc = s) /\
  ((forall g, In g (Fields vdesc) -> fieldTable g = None) ->
   getSQLTableName CamelToSnake vdesc = CamelToSnake (TypeName vdesc) +s "s") /\
  (forall f t, FieldTag f "table" = Some t -> Value t <> "" ->
               fieldTable f = Some (Value t)).
Proof.
  repeat split.
  - intros before f after s Hf Hbefore Hs. unfold getSQLTableName. rewrite Hf.
    clear Hf. induction before as [|g before IH]; simpl.
    + now rewrite Hs.
    + rewrite (Hbefore g (or_introl eq_refl)). apply IH.
      intros; apply Hbefore; now right.
  - intro H. unfold getSQLTableName. now rewrite (tableOverride_none _ H).
  - intros f t Ht Hne. unfold fieldTable, nonEmpty. rewrite Ht.
    destruct (String.eqb (Value t) "") eqn:E; [|reflexivity].
    apply String.eqb_eq in E. contradiction.
Qed.

End Naming.

(** [getSQLTableName] on the test types: [testScannersNoScanner] names
    its table in the [sql] tag of [ID]; [SimpleObject] names none. *)
Lemma getSQLTableName_first_override_witness :
  getSQLTableName Tests.CamelToSnake (Tests.descriptionOf Tests.testScannersNoScanner)
    = "objects" /\
  getSQLTableName Tests.CamelToSnake (Tests.descriptionOf Tests.SimpleObject)
    = "simple_objects".
Proof.
  split.
  - apply (proj1 (getSQLTableName_first_override Tests.CamelToSnake
                    (Tests.descriptionOf Tests.testScannersNoScanner))
                 [] (Tests.tagged "ID" 0 (mkTag "" [("table", "objects")]) (VInt 0))
                 [Tests.plain "Value" 1 (VString "")] "objects");
      [reflexivity | intros g [] | reflexivity].
  - apply (proj1 (proj2 (getSQLTableName_first_override Tests.CamelToSnake
                           (Tests.descriptionOf Tests.SimpleObject)))).
    intros g [<-|[<-|[]]]; reflexivity.
Defined.

(* ================================================================== *)
(** ** Further properties: the read path *)
(* ================================================================== *)

Section ReadPath.

Variable CamelToSnake : string -> string.
Variable convertAssign : value -> value -> error + value.
Variable queryLogger : option bool.

Lemma nonEmpty_false (s : string) : nonEmpty s = false -> s = "".
Proof.
  unfold nonEmpty. intro H. apply negb_false_iff in H. now apply String.eqb_eq.
Qed.

Lemma selectStar_eq (vdesc : StructDescription) (where_ : string) :
  "select * from " +s getSQLTableName CamelToSnake vdesc
  +s (if nonEmpty where_ then " " +s where_ else where_) =
  selectFrom CamelToSnake "*" vdesc where_.
Proof.
  unfold selectFrom. destruct (nonEmpty where_) eqn:E; [reflexivity|].
  now rewrite (nonEmpty_false _ E).
Qed.

Lemma selectCount_eq (vdesc : StructDescription) (where_ : string) :
  "select count(*) from " +s getSQLTableName CamelToSnake vdesc
  +s (if nonEmpty where_ then " " +s where_ else where_) =
  selectFrom CamelToSnake "count(*)" vdesc where_.
Proof.
  unfold selectFrom. destruct (nonEmpty where_) eqn:E; [reflexivity|].
  now rewrite (nonEmpty_false _ E).
Qed.

(** An error of [ScanRows], whatever it is, leaves the world as it was. *)
Lemma ScanRows_error_keeps_world (rows : Rows) (w : World) (e : error) :
  fst (ScanRows CamelToSnake convertAssign rows w) = inl e ->
  snd (ScanRows CamelToSnake convertAssign rows w) = w.
Proof.
  unfold ScanRows, bind, getSelf, throw, liftE, setSelf.
  destruct w as [tr out]; simpl.
  destruct out as [k|[t v|t items|k|k]]; simpl; try reflexivity.
  destruct (getDescriptionFromType t) as [e0|vdesc]; simpl; [reflexivity|].
  destruct (Columns rows) as [e0|names]; simpl; [reflexivity|].
  destruct (resolveColumns CamelToSnake vdesc names) as [[goNames indexes] missing].
  destruct (Nat.ltb 0 (List.length missing)); simpl; [reflexivity|].
  destruct (scanLoop convertAssign t vdesc goNames indexes (Data rows) []);
    simpl; [reflexivity | discriminate].
Qed.

(** [ScanRows] does not touch the trace. *)
Lemma ScanRows_trace_frame (rows : Rows) (tr : list event) (o : iface) :
  ScanRows CamelToSnake convertAssign rows (mkWorld tr o) =
    (fst (ScanRows CamelToSnake convertAssign rows (mkWorld [] o)),
     mkWorld tr (self (snd (ScanRows CamelToSnake convertAssign rows (mkWorld [] o))))).
Proof.
  unfold ScanRows, bind, getSelf, throw, liftE, setSelf; simpl.
  destruct o as [k|[t v|t items|k|k]]; simpl; try reflexivity.
  destruct (getDescriptionFromType t) as [e0|vdesc]; simpl; [reflexivity|].
  destruct (Columns rows) as [e0|names]; simpl; [reflexivity|].
  destruct (resolveColumns CamelToSnake vdesc names) as [[goNames indexes] missing].
  destruct (Nat.ltb 0 (List.length missing)); simpl; [reflexivity|].
  destruct (scanLoop convertAssign t vdesc goNames indexes (Data rows) []);
    reflexivity.
Qed.

(** [FindWhere] on a pointer to a slice of a described struct type. *)
Lemma FindWhere_unfold (db : Querier) (where_ : string) (args : list value)
    (tr : list event) (vtyp : StructType) (old : list record)
    (vdesc : StructDescription) :
  Description vtyp = inr vdesc ->
  let out := Ptr (PSlice vtyp old) in
  let query := selectFrom CamelToSnake "*" vdesc where_ in
  let logged := loggedAround queryLogger (EvQuery query args) query args in
  FindWhere CamelToSnake convertAssign queryLogger db where_ args (mkWorld tr out) =
  match QueryContext db query args with
  | inl err => (inl (Wrap "FindWhere" err), mkWorld (tr ++ logged (Some err)) out)
  | inr rows =>
      match ScanRows CamelToSnake convertAssign rows (mkWorld [] out) with
      | (inl err, _) => (inl err, mkWorld (tr ++ logged (Some err)) out)
      | (inr _, w') =>
          match Close rows with
          | Some err =>
              (inl (Wrap "FindWhere" err), mkWorld (tr ++ logged (Some err)) (self w'))
          | None => (inr tt, mkWorld (tr ++ logged None) (self w'))
          end
      end
  end.
Proof.
  intros Hd out query logged. unfold FindWhere.
  unfold bind at 1, getSelf at 1. cbn [self]. unfold out at 1.
  unfold bind at 1, liftE at 1, getDescriptionFromType. rewrite Hd. cbn [wrapE].
  cbv zeta. rewrite selectStar_eq. fold query.
  unfold bind at 1. unfold LogQuery at 1.
  destruct (QueryContext db query args) as [err|rows].
  - unfold logged, loggedAround, LogQueryAfter, bind, emit, ret, throw.
    destruct queryLogger as [[|]|]; simpl; rewrite <- ?app_assoc; reflexivity.
  - assert (Hscan : forall tr',
              attempt (ScanRows CamelToSnake convertAssign rows) (mkWorld tr' out) =
              (inr (fst (ScanRows CamelToSnake convertAssign rows (mkWorld [] out))),
               mkWorld tr' (self (snd (ScanRows CamelToSnake convertAssign rows
                                          (mkWorld [] out)))))).
    { intro tr'. unfold attempt. now rewrite ScanRows_trace_frame. }
    pose proof (ScanRows_error_keeps_world rows (mkWorld [] out)) as Hkeep.
    destruct (ScanRows CamelToSnake convertAssign rows (mkWorld [] out)) as [[err|u] w'];
      cbn [fst snd] in *.
    + rewrite (Hkeep err eq_refl) in Hscan. cbn [self] in Hscan.
      unfold logged, loggedAround, LogQueryAfter, bind, emit, ret, throw.
      destruct queryLogger as [[|]|]; cbn [fst snd trace self]; rewrite Hscan;
        simpl; rewrite <- ?app_assoc; reflexivity.
    + destruct (Close rows) as [err|];
        unfold logged, loggedAround, LogQueryAfter, bind, emit, ret, throw;
        destruct queryLogger as [[|]|]; cbn [fst snd trace self]; rewrite Hscan;
        simpl; rewrite <- ?app_assoc; reflexivity.
Qed.

Lemma statements_app_logged (tr : list event) (e : event) (query : string)
    (vars : list value) (err : option error) :
  isStatement e = true ->
  statements (tr ++ loggedAround queryLogger e query vars err) = statements tr ++ [e].
Proof.
  intro He. unfold statements at 1. rewrite filter_app. f_equal.
  now apply statements_loggedAround.
Qed.

Lemma FindWhere_statements (db : Querier) (where_ : string) (args : list value)
    (tr : list event) (vtyp : StructType) (old : list record)
    (vdesc : StructDescription) :
  Description vtyp = inr vdesc ->
  statements (trace (final (FindWhere CamelToSnake convertAssign queryLogger db where_ args
                              (mkWorld tr (Ptr (PSlice vtyp old)))))) =
  statements tr ++ [EvQuery (selectFrom CamelToSnake "*" vdesc where_) args].
Proof.
  intro Hd. unfold final. rewrite (FindWhere_unfold db where_ args tr vtyp old vdesc Hd).
  cbv zeta.
  destruct (QueryContext db _ args) as [err|rows]; cbn [snd trace].
  - now apply statements_app_logged.
  - destruct (ScanRows CamelToSnake convertAssign rows _) as [[err|u] w']; cbn [snd trace].
    + now apply statements_app_logged.
    + destruct (Close rows); cbn [snd trace]; now apply statements_app_logged.
Qed.

(** X4.  [FindWhere], given a pointer to a slice of a described struct type,
    sends exactly one statement whatever happens next: the query
    [select * from <table>], followed by the [where] fragment after one
    space when the fragment is not empty, with the caller's arguments. *)
Theorem FindWhere_sends_one_query (db : Querier) (where_ : string) (args : list value)
    (tr : list event) (vtyp : StructType) (old : list record)
    (vdesc : StructDescription) :
  Description vtyp = inr vdesc ->
  statements (trace (final (FindWhere CamelToSnake convertAssign queryLogger db where_ args
                              (mkWorld tr (Ptr (PSlice vtyp old)))))) =
  statements tr ++ [EvQuery (selectFrom CamelToSnake "*" vdesc where_) args].
Proof.
  exact (FindWhere_statements db where_ args tr vtyp old vdesc).
Qed.

(** X5.  [FindWhere] checks its output argument before it asks the database:
    an argument that is not a pointer to a slice of structs gets an
    error, and nothing is sent or changed. *)
Theorem FindWhere_bad_output_sends_nothing (db : Querier) (where_ : string)
    (args : list value) (w : World) :
  (forall t items, self w <> Ptr (PSlice t items)) ->
  exists e, FindWhere CamelToSnake convertAssign queryLogger db where_ args w = (inl e, w).
Proof.
  intro H. destruct w as [tr out]. cbn [self] in H.
  unfold FindWhere, bind, getSelf, throw; simpl.
  destruct out as [k|[t v|t items|k|k]]; try (eexists; reflexivity).
  exfalso. exact (H t items eq_refl).
Qed.

(** X6.  What the caller's slice holds when [FindWhere] returns an error.
    When the query fails, or the rows cannot be decoded, the slice is as
    it was.  When the rows were decoded and closing the cursor then
    fails, [FindWhere] returns that error although the slice has already
    been replaced by the decoded rows. *)
Theorem FindWhere_output_on_error (db : Querier) (where_ : string) (args : list value)
    (tr : list event) (vtyp : StructType) (old : list record)
    (vdesc : StructDescription) :
  Description vtyp = inr vdesc ->
  let out := Ptr (PSlice vtyp old) in
  let query := selectFrom CamelToSnake "*" vdesc where_ in
  let result := FindWhere CamelToSnake convertAssign queryLogger db where_ args
                  (mkWorld tr out) in
  (forall err, QueryContext db query args = inl err ->
     returned result = Some (Wrap "FindWhere" err) /\ self (final result) = out)
  /\
  (forall rows err, QueryContext db query args = inr rows ->
     fst (ScanRows CamelToSnake convertAssign rows (mkWorld [] out)) = inl err ->
     returned result = Some err /\ self (final result) = out)
  /\
  (forall rows items err, QueryContext db query args = inr rows ->
     ScanRows CamelToSnake convertAssign rows (mkWorld [] out) =
       (inr tt, mkWorld [] (Ptr (PSlice vtyp items))) ->
     Close rows = Some err ->
     returned result = Some (Wrap "FindWhere" err) /\
     self (final result) = Ptr (PSlice vtyp items)).
Proof.
  intros Hd out query result. subst out query result. unfold final, returned.
  rewrite (FindWhere_unfold db where_ args tr vtyp old vdesc Hd). cbv zeta.
  split; [|split].
  - intros err H. now rewrite H.
  - intros rows err H H0. rewrite H.
    destruct (ScanRows CamelToSnake convertAssign rows _) as [[e|u] w'];
      cbn [fst] in H0; [|discriminate]. injection H0 as ->. split; reflexivity.
  - intros rows items err H H0 H1. now rewrite H, H0, H1.
Qed.

(** [FindFirstWhere] on a pointer to a described struct: what it makes
    of [FindWhere] on a fresh slice with [limit 1] appended. *)
Lemma FindFirstWhere_unfold (db : Querier) (where_ : string) (args : list value)
    (tr : list event) (vtyp : StructType) (v : record) :
  let out := Ptr (PStruct vtyp v) in
  let found := FindWhere CamelToSnake convertAssign queryLogger db (limitOne where_) args
                 (mkWorld tr (Ptr (PSlice vtyp []))) in
  FindFirstWhere CamelToSnake convertAssign queryLogger db where_ args (mkWorld tr out) =
  match fst found with
  | inl err => (inl err, mkWorld (trace (snd found)) out)
  | inr _ =>
      match self (snd found) with
      | Ptr (PSlice _ (first :: _)) =>
          (inr tt, mkWorld (trace (snd found)) (Ptr (PStruct vtyp first)))
      | _ => (inl ErrNoRows, mkWorld (trace (snd found)) out)
      end
  end.
Proof.
  intros out found. unfold FindFirstWhere, bind, getSelf, withObject, throw, setSelf.
  cbn [self trace out].
  assert (Hw : (if nonEmpty where_ then where_ +s " " else where_) +s "limit 1"
               = limitOne where_).
  { unfold limitOne. destruct (nonEmpty where_) eqn:E.
    - now rewrite append_assoc.
    - now rewrite (nonEmpty_false _ E). }
  rewrite Hw. fold found.
  destruct found as [[err|u] [tr' o']]; cbn [fst snd self trace];
    destruct o' as [k|[t r|t [|first rest]|k|k]]; reflexivity.
Qed.

(** X7.  [FindFirstWhere] asks for the rows that match with [limit 1]
    appended to the fragment.  When the database answers, the rows
    decode and the cursor closes, the caller's record becomes the first
    decoded row, and any further rows are ignored; when there is no row
    it returns [sql.ErrNoRows] and leaves the record as it was. *)
Theorem FindFirstWhere_first_row_or_ErrNoRows (db : Querier) (where_ : string)
    (args : list value) (tr : list event) (vtyp : StructType) (v : record)
    (vdesc : StructDescription) (rows : Rows) (items : list record) :
  Description vtyp = inr vdesc ->
  let query := selectFrom CamelToSnake "*" vdesc (limitOne where_) in
  QueryContext db query args = inr rows ->
  ScanRows CamelToSnake convertAssign rows (mkWorld [] (Ptr (PSlice vtyp []))) =
    (inr tt, mkWorld [] (Ptr (PSlice vtyp items))) ->
  Close rows = None ->
  FindFirstWhere CamelToSnake convertAssign queryLogger db where_ args
    (mkWorld tr (Ptr (PStruct vtyp v))) =
    (match items with [] => inl ErrNoRows | _ :: _ => inr tt end,
     mkWorld (tr ++ loggedAround queryLogger (EvQuery query args) query args None)
             (Ptr (PStruct vtyp (hd v items)))).
Proof.
  intros Hd query Hq Hscan Hclose.
  rewrite FindFirstWhere_unfold. cbv zeta.
  rewrite (FindWhere_unfold db (limitOne where_) args tr vtyp [] vdesc Hd). cbv zeta.
  fold query. rewrite Hq, Hscan, Hclose. cbn [fst snd self trace].
  destruct items; reflexivity.
Qed.

(** X8.  Whenever [FindFirstWhere] returns an error, the caller's record is
    what it was before the call. *)
Theorem FindFirstWhere_error_keeps_record (db : Querier) (where_ : string)
    (args : list value) (w : World) (e : error) :
  fst (FindFirstWhere CamelToSnake convertAssign queryLogger db where_ args w) = inl e ->
  self (snd (FindFirstWhere CamelToSnake convertAssign queryLogger db where_ args w)) =
  self w.
Proof.
  destruct w as [tr out].
  destruct out as [k|[t v|t items|k|k]]; try reflexivity.
  rewrite FindFirstWhere_unfold. cbv zeta.
  destruct (FindWhere CamelToSnake convertAssign queryLogger db (limitOne where_) args
              (mkWorld tr (Ptr (PSlice t [])))) as [[err|u] [tr' o']];
    cbn [fst snd self trace]; [reflexivity|].
  destruct o' as [k|[t' r|t' [|first rest]|k|k]]; cbn [fst snd self]; try reflexivity.
  discriminate.
Qed.

Lemma CountWhere_run (db : Querier) (where_ : string) (args : list value)
    (tr : list event) (vtyp : StructType) (v : record) (vdesc : StructDescription) :
  Description vtyp = inr vdesc ->
  let query := selectFrom CamelToSnake "count(*)" vdesc where_ in
  CountWhere CamelToSnake convertAssign queryLogger db where_ args
    (mkWorld tr (Ptr (PStruct vtyp v))) =
    (match scanCount convertAssign db query args with
     | inl err => inl (Wrap "CountWhere" err)
     | inr n => inr n
     end,
     mkWorld (tr ++ loggedAround queryLogger (EvQueryRow query args) query args
                      (match scanCount convertAssign db query args with
                       | inl err => Some err
                       | inr _ => None
                       end))
             (Ptr (PStruct vtyp v))).
Proof.
  intros Hd query.
  unfold CountWhere, bind, getSelf, liftE, getDescriptionFromType.
  cbn [self fst snd]. rewrite Hd. cbn [wrapE]. rewrite selectCount_eq. fold query.
  destruct (scanCount convertAssign db query args) as [err|n];
    unfold LogQuery, LogQueryAfter, loggedAround, emit, ret, throw;
    destruct queryLogger as [[|]|]; simpl; rewrite <- ?app_assoc; reflexivity.
Qed.

(** X11.  [CountWhere] on a pointer to a described struct sends exactly one
    statement, the single-row query that selects the row count from the
    table, with the [where] fragment after one space when there is one; it returns
    the count the row carries, or the failure wrapped as [CountWhere];
    it never changes the record, and it asks for no identity fields. *)
Theorem CountWhere_one_query (db : Querier) (where_ : string) (args : list value)
    (tr : list event) (vtyp : StructType) (v : record) (vdesc : StructDescription) :
  Description vtyp = inr vdesc ->
  let query := selectFrom CamelToSnake "count(*)" vdesc where_ in
  let result := CountWhere CamelToSnake convertAssign queryLogger db where_ args
                  (mkWorld tr (Ptr (PStruct vtyp v))) in
  self (final result) = Ptr (PStruct vtyp v) /\
  statements (trace (final result)) = statements tr ++ [EvQueryRow query args] /\
  fst result =
    match scanCount convertAssign db query args with
    | inl err => inl (Wrap "CountWhere" err)
    | inr n => inr n
    end.
Proof.
  intros Hd query result. unfold result.
  rewrite (CountWhere_run db where_ args tr vtyp v vdesc Hd). fold query.
  unfold final. cbn [fst snd self trace].
  split; [reflexivity|]. split; [|reflexivity].
  now apply statements_app_logged.
Qed.

(** X9.  [FindFirstWhere] on a pointer to a described struct sends exactly
    one statement whatever happens next: the query of [FindWhere] with
    [limit 1] after the caller's fragment, or alone when the fragment is
    empty. *)
Theorem FindFirstWhere_sends_one_limited_query (db : Querier) (where_ : string)
    (args : list value) (tr : list event) (vtyp : StructType) (v : record)
    (vdesc : StructDescription) :
  Description vtyp = inr vdesc ->
  statements (trace (final (FindFirstWhere CamelToSnake convertAssign queryLogger db
                              where_ args (mkWorld tr (Ptr (PStruct vtyp v)))))) =
  statements tr ++ [EvQuery (selectFrom CamelToSnake "*" vdesc (limitOne where_)) args].
Proof.
  intro Hd. unfold final. rewrite FindFirstWhere_unfold. cbv zeta.
  pose proof (FindWhere_statements db (limitOne where_) args tr vtyp [] vdesc Hd) as H.
  unfold final in H.
  destruct (FindWhere CamelToSnake convertAssign queryLogger db (limitOne where_) args
              (mkWorld tr (Ptr (PSlice vtyp [])))) as [[err|u] [tr' o']];
    cbn [fst snd self trace] in *; [exact H|].
  destruct o' as [k|[t' r|t' [|first rest]|k|k]]; exact H.
Qed.

(** X10.  The helpers without a [where] fragment send the bare statement,
    with no argument and no trailing space: [FindAll] selects every row
    of the table, [FindFirst] does so with [limit 1], and [CountAll]
    counts the rows of the table. *)
Theorem helpers_without_where (db : Querier) (tr : list event) (vtyp : StructType)
    (old : list record) (v : record) (vdesc : StructDescription) :
  Description vtyp = inr vdesc ->
  let tbl := getSQLTableName CamelToSnake vdesc in
  statements (trace (final (FindAll CamelToSnake convertAssign queryLogger db
                              (mkWorld tr (Ptr (PSlice vtyp old)))))) =
    statements tr ++ [EvQuery ("select * from " +s tbl) []]
  /\
  statements (trace (final (FindFirst CamelToSnake convertAssign queryLogger db
                              (mkWorld tr (Ptr (PStruct vtyp v)))))) =
    statements tr ++ [EvQuery ("select * from " +s tbl +s " limit 1") []]
  /\
  statements (trace (final (CountAll CamelToSnake convertAssign queryLogger db
                              (mkWorld tr (Ptr (PStruct vtyp v)))))) =
    statements tr ++ [EvQueryRow ("select count(*) from " +s tbl) []].
Proof.
  intros Hd tbl.
  assert (Happ : forall a : string, a +s "" = a)
    by (induction a as [|c a IH]; simpl; [reflexivity | now rewrite IH]).
  split; [|split].
  - unfold FindAll. rewrite (FindWhere_statements db "" [] tr vtyp old vdesc Hd).
    unfold selectFrom. cbn [nonEmpty String.eqb negb]. fold tbl.
    now rewrite Happ.
  - unfold FindFirst, final. rewrite FindFirstWhere_unfold. cbv zeta.
    pose proof (FindWhere_statements db (limitOne "") [] tr vtyp [] vdesc Hd) as H.
    unfold final in H.
    assert (Hq : selectFrom CamelToSnake "*" vdesc (limitOne "") =
                 "select * from " +s tbl +s " limit 1") by reflexivity.
    rewrite Hq in H.
    destruct (FindWhere CamelToSnake convertAssign queryLogger db (limitOne "") []
                (mkWorld tr (Ptr (PSlice vtyp [])))) as [[err|u] [tr' o']];
      cbn [fst snd self trace] in *; [exact H|].
    destruct o' as [k|[t' r|t' [|first rest]|k|k]]; exact H.
  - unfold CountAll, final. rewrite (CountWhere_run db "" [] tr vtyp v vdesc Hd).
    cbn [snd trace]. rewrite statements_app_logged by reflexivity.
    unfold selectFrom. cbn [nonEmpty String.eqb negb]. fold tbl.
    now rewrite Happ.
Qed.

End ReadPath.

(* ================================================================== *)
(** ** Further properties: the statements of the mutating operations *)
(* ================================================================== *)

Section Mutators.

Variable CamelToSnake : string -> string.
Variable convertAssign : value -> value -> error + value.
Variable parameterPrefix : string.
Variable queryLogger : option bool.

(** *** Closed forms of the clause loops *)

Lemma append_empty_r (a : string) : a +s "" = a.
Proof. induction a as [|c a IH]; simpl; [reflexivity | now rewrite IH]. Qed.

Lemma append_not_empty (a b : string) :
  String.eqb a "" = false -> String.eqb (a +s b) "" = false.
Proof. destruct a; [discriminate | reflexivity]. Qed.

Lemma saveWhere_from (l : list Field) (v : record) :
  forall where_ values,
    String.eqb where_ "" = false ->
    saveWhere CamelToSnake parameterPrefix l v where_ values =
    (where_ +s fold_right String.append ""
                 (map (fun kf => " and " +s comparison CamelToSnake parameterPrefix kf)
                      (combine (seq (List.length values + 1) (List.length l)) l)),
     values ++ valuesOf l v).
Proof.
  induction l as [|f l IH]; intros where_ values Hne; cbn [saveWhere].
  - simpl. now rewrite append_empty_r, app_nil_r.
  - rewrite Hne. rewrite IH by (repeat apply append_not_empty; exact Hne).
    rewrite length_app. cbn [List.length map combine seq fold_right valuesOf].
    unfold comparison at 2. cbn [fst snd].
    rewrite <- !app_assoc, !append_assoc. cbn [app].
    replace (List.length values + 1 + 1) with (S (List.length values + 1)) by lia.
    reflexivity.
Qed.

Lemma deleteWhere_from (l : list Field) (v : record) :
  forall where_ values,
    String.eqb where_ "" = false ->
    deleteWhere CamelToSnake parameterPrefix l v where_ values =
    (where_ +s fold_right String.append ""
                 (map (fun kf => "and " +s comparison CamelToSnake parameterPrefix kf)
                      (combine (seq (List.length values + 1) (List.length l)) l)),
     values ++ valuesOf l v).
Proof.
  induction l as [|f l IH]; intros where_ values Hne; cbn [deleteWhere].
  - simpl. now rewrite append_empty_r, app_nil_r.
  - rewrite Hne. rewrite IH by (repeat apply append_not_empty; exact Hne).
    rewrite length_app. cbn [List.length map combine seq fold_right valuesOf].
    unfold comparison at 2. cbn [fst snd].
    rewrite <- !app_assoc, !append_assoc. cbn [app].
    replace (List.length values + 1 + 1) with (S (List.length values + 1)) by lia.
    reflexivity.
Qed.

Lemma identityWhere_eq (ids : list Field) (v : record) :
  saveWhere CamelToSnake parameterPrefix ids v "" [] =
    (identityWhere CamelToSnake parameterPrefix " and " ids, valuesOf ids v)
  /\
  deleteWhere CamelToSnake parameterPrefix ids v "" [] =
    (identityWhere CamelToSnake parameterPrefix "and " ids, valuesOf ids v).
Proof.
  destruct ids as [|f rest]; [split; reflexivity|].
  unfold identityWhere, clauses. split.
  - cbn [saveWhere String.eqb String.append List.length app Nat.add].
    rewrite saveWhere_from; [|reflexivity].
    unfold comparison.
    cbn [List.length app Nat.add valuesOf map String.append fst snd]. reflexivity.
  - cbn [deleteWhere String.eqb String.append List.length app Nat.add].
    rewrite deleteWhere_from; [|reflexivity].
    unfold comparison.
    cbn [List.length app Nat.add valuesOf map String.append fst snd]. reflexivity.
Qed.

(** X12.  The identity [where] clause, for any number of identity fields:
    [where c1 = P1] followed by one comparison per further identity
    field in declared order, the placeholders numbered 1, 2, ... and the
    arguments the identity values in the same order.  [SaveRecord]
    separates the comparisons by [ and ]; [DeleteRecord] by [and ], with
    no space after the placeholder before it. *)
Theorem identity_where_closed_form (ids : list Field) (v : record) :
  saveWhere CamelToSnake parameterPrefix ids v "" [] =
    (identityWhere CamelToSnake parameterPrefix " and " ids, valuesOf ids v)
  /\
  deleteWhere CamelToSnake parameterPrefix ids v "" [] =
    (identityWhere CamelToSnake parameterPrefix "and " ids, valuesOf ids v).
Proof. exact (identityWhere_eq ids v). Qed.

(** *** One statement, then the after-hook *)

Lemma runHook_eq (op name : string) (h : option Hook) (w : World) :
  runHook op name h w =
    (match hookError op name h (self w) with
     | Some e => inl e
     | None => inr tt
     end,
     mkWorld (trace w ++ hookEvents name h) (fst (afterHook h (self w)))).
Proof.
  destruct w as [tr x]. unfold hookError. destruct h as [hook|]; cbn [afterHook hookEvents].
  - unfold runHook, bind, getSelf, emit, setSelf, throw, ret. cbn [self trace fst snd].
    destruct (hook x) as [x' [e|]]; reflexivity.
  - unfold runHook, ret. cbn [self trace fst snd]. now rewrite app_nil_r.
Qed.

Lemma exec_then_hook (op name : string) (h : option Hook) (tx : Querier)
    (query : string) (values : list value) (w : World) :
  (execLogged queryLogger op tx query values ;;; runHook op name h) w =
  match ExecContext tx query values with
  | Some err =>
      (inl (Wrap op err),
       mkWorld (trace w ++ loggedAround queryLogger (EvExec query values) query values
                             (Some err))
               (self w))
  | None =>
      (match hookError op name h (self w) with
       | Some e => inl e
       | None => inr tt
       end,
       mkWorld ((trace w ++ loggedAround queryLogger (EvExec query values) query values None)
                ++ hookEvents name h)
               (fst (afterHook h (self w))))
  end.
Proof.
  unfold bind. destruct (ExecContext tx query values) as [err|] eqn:E.
  - now rewrite (execLogged_fails _ _ _ _ _ _ _ E).
  - rewrite (execLogged_ok _ _ _ _ _ _ E). now rewrite runHook_eq.
Qed.

Lemma skip_ret {A : Type} (x : M A) (y : M unit) (w : World) :
  (x ;;; ret tt ;;; y) w = (x ;;; y) w.
Proof. unfold bind, ret. destruct (x w) as [[e|a] w']; reflexivity. Qed.

Ltac enter_operation Hhook Hd Hid :=
  unfold bind at 1; rewrite (runHook_ok _ _ _ _ _ Hhook);
  unfold bind at 1; rewrite (checkInput_ok _ _ _ _ _ Hd Hid);
  unfold bind at 1, getSelf at 1; cbn [self fieldsOf trace].

Lemma existsb_false_filter {A : Type} (p : A -> bool) (l : list A) :
  existsb p l = false -> filter (fun x => negb (p x)) l = l.
Proof.
  induction l as [|x l IH]; simpl; intro H; [reflexivity|].
  apply orb_false_iff in H. destruct H as [Hx Hl].
  rewrite Hx. simpl. now rewrite IH.
Qed.

Lemma keptFields_eq (vdesc : StructDescription) :
  WithoutTagValue (Fields vdesc) "sql" "-" = keptFields vdesc.
Proof. apply WithoutTagValue_excluded. Qed.

(** The column loop of [CreateRecord] in the vocabulary above. *)
Lemma createColumns_inserted (vdesc : StructDescription) (v : record) :
  createColumns CamelToSnake parameterPrefix (basicIdentity vdesc)
    (keptFields vdesc) v [] [] [] false =
  (map (getSQLColumnName CamelToSnake) (insertedFields vdesc v),
   map (makeParameter parameterPrefix) (seq 1 (List.length (insertedFields vdesc v))),
   valuesOf (insertedFields vdesc v) v,
   fetchesID vdesc v).
Proof.
  rewrite createColumns_spec. reflexivity.
Qed.

Lemma fetchesID_basic (vdesc : StructDescription) (v : record) :
  basicIdentity vdesc && fetchesID vdesc v = fetchesID vdesc v.
Proof.
  destruct (basicIdentity vdesc) eqn:E; [reflexivity|].
  unfold fetchesID, leftToDatabase. rewrite E. cbn [andb].
  induction (keptFields vdesc); simpl; auto.
Qed.

(** [CreateRecord] once its argument has passed the checks. *)
Lemma CreateRecord_unfold (m : Methods) (tx : Querier) (w : World)
    (vtyp : StructType) (vdesc : StructDescription) (v : record) :
  afterHook (BeforeCreate m) (self w) = (Ptr (PStruct vtyp v), None) ->
  Description vtyp = inr vdesc ->
  getSQLIDFields vdesc <> [] ->
  let query := insertQuery CamelToSnake parameterPrefix "insert" vdesc
                 (insertedFields vdesc v) in
  let values := valuesOf (insertedFields vdesc v) v in
  CreateRecord CamelToSnake convertAssign parameterPrefix queryLogger m tx w =
  (execLogged queryLogger "CreateRecord" tx query values ;;;
   (if fetchesID vdesc v then
      LogQuery queryLogger "select last_insert_rowid()" values ;;;
      emit (EvQueryRow "select last_insert_rowid()" []) ;;;
      match fetchInsertID convertAssign tx vtyp vdesc "select last_insert_rowid()" v with
      | inl err =>
          LogQueryAfter queryLogger "select last_insert_rowid()" values (Some err) ;;;
          throw (Wrap "CreateRecord: couldn't fetch insert id" err)
      | inr v' =>
          setSelf (Ptr (PStruct vtyp v')) ;;;
          LogQueryAfter queryLogger "select last_insert_rowid()" values None
      end
    else ret tt) ;;;
   runHook "CreateRecord" "AfterCreate" (AfterCreate m))
    (mkWorld (trace w ++ hookEvents "BeforeCreate" (BeforeCreate m))
             (Ptr (PStruct vtyp v))).
Proof.
  intros Hhook Hd Hid query values. unfold CreateRecord.
  enter_operation Hhook Hd Hid.
  change (match getSQLIDFields vdesc with
          | [f] => String.eqb (Name f) "ID"
          | _ => false
          end) with (basicIdentity vdesc).
  rewrite keptFields_eq, createColumns_inserted, fetchesID_basic.
  reflexivity.
Qed.

(** X13.  [ReplaceRecord], [DeleteRecord], and [CreateRecord] when it keeps
    the identity, on a record that passes the checks: the operation
    executes exactly one statement, [statementOf] it.  For
    [ReplaceRecord] and such a [CreateRecord] that is the insert over
    all the fields that are not excluded, identity fields included
    whatever they hold, with placeholders numbered from 1; for
    [DeleteRecord] the delete under the identity clause.  When the
    statement fails, its error is returned wrapped under the operation's
    name and the after-hook is not called.  When it succeeds, the
    after-hook runs next, and if the hook fails the operation returns the
    hook's error although the statement has been executed. *)
Theorem single_statement_operation (op : operation) (m : Methods) (tx : Querier)
    (w : World) (vtyp : StructType) (vdesc : StructDescription) (v : record)
    (query : string) (values : list value) :
  afterHook (beforeHook op m) (self w) = (Ptr (PStruct vtyp v), None) ->
  Description vtyp = inr vdesc ->
  getSQLIDFields vdesc <> [] ->
  statementOf CamelToSnake parameterPrefix op vdesc v = Some (query, values) ->
  let input := Ptr (PStruct vtyp v) in
  let before := trace w ++ hookEvents (beforeName op) (beforeHook op m) in
  perform CamelToSnake convertAssign parameterPrefix queryLogger op m tx w =
  match ExecContext tx query values with
  | Some err =>
      (inl (Wrap (opName op) err),
       mkWorld (before ++ loggedAround queryLogger (EvExec query values) query values
                            (Some err))
               input)
  | None =>
      (match hookError (opName op) (afterName op) (afterHookOf op m) input with
       | Some e => inl e
       | None => inr tt
       end,
       mkWorld ((before ++ loggedAround queryLogger (EvExec query values) query values None)
                ++ hookEvents (afterName op) (afterHookOf op m))
               (fst (afterHook (afterHookOf op m) input)))
  end.
Proof.
  intros Hhook Hd Hid Hst input before. subst input before.
  destruct op; cbn [perform beforeHook beforeName opName afterName afterHookOf statementOf]
    in *.
  - (* Create *)
    destruct (fetchesID vdesc v) eqn:Hfetch; [discriminate|].
    injection Hst as <- <-.
    rewrite (CreateRecord_unfold m tx w vtyp vdesc v Hhook Hd Hid). cbv zeta.
    rewrite Hfetch.
    assert (Hins : insertedFields vdesc v = keptFields vdesc).
    { unfold insertedFields. now apply existsb_false_filter. }
    rewrite Hins.
    rewrite skip_ret, exec_then_hook. reflexivity.
  - discriminate.
  - (* Replace *)
    injection Hst as <- <-. unfold ReplaceRecord.
    enter_operation Hhook Hd Hid.
    rewrite keptFields_eq, replaceColumns_spec.
    cbn [app List.length Nat.add].
    rewrite exec_then_hook. reflexivity.
  - (* Delete *)
    injection Hst as <- <-. unfold DeleteRecord.
    enter_operation Hhook Hd Hid.
    rewrite (proj2 (identityWhere_eq (getSQLIDFields vdesc) v)).
    rewrite exec_then_hook. reflexivity.
Qed.

(** X14.  When the insert of [CreateRecord] fails, its error is returned
    wrapped as [CreateRecord]; the follow-up query for the identity is
    not sent even when the identity was left to the database, the
    after-hook is not called, and the record is as the before-hook left
    it. *)
Theorem CreateRecord_insert_failure (m : Methods) (tx : Querier) (w : World)
    (vtyp : StructType) (vdesc : StructDescription) (v : record) (err : error) :
  afterHook (BeforeCreate m) (self w) = (Ptr (PStruct vtyp v), None) ->
  Description vtyp = inr vdesc ->
  getSQLIDFields vdesc <> [] ->
  let query := insertQuery CamelToSnake parameterPrefix "insert" vdesc
                 (insertedFields vdesc v) in
  let values := valuesOf (insertedFields vdesc v) v in
  ExecContext tx query values = Some err ->
  CreateRecord CamelToSnake convertAssign parameterPrefix queryLogger m tx w =
    (inl (Wrap "CreateRecord" err),
     mkWorld ((trace w ++ hookEvents "BeforeCreate" (BeforeCreate m))
              ++ loggedAround queryLogger (EvExec query values) query values (Some err))
             (Ptr (PStruct vtyp v))).
Proof.
  intros Hhook Hd Hid query values Hexec.
  rewrite (CreateRecord_unfold m tx w vtyp vdesc v Hhook Hd Hid). cbv zeta.
  fold query values. unfold bind at 1.
  now rewrite (execLogged_fails _ _ _ _ _ _ _ Hexec).
Qed.

(** *** [SaveRecord] beyond a single change *)

Lemma saveDiff_from (l : list Field) (previous v : record) :
  (forall f, In f l ->
     isReadonly f = false /\
     DeepEqual (FieldByIndex previous (Index f)) (FieldByIndex v (Index f)) = false) ->
  forall fields values modify,
    String.eqb fields "" = false ->
    saveDiff CamelToSnake parameterPrefix l previous v fields values modify =
    (fields +s fold_right String.append ""
                 (map (fun kf => ", " +s comparison CamelToSnake parameterPrefix kf)
                      (combine (seq (List.length values + 1) (List.length l)) l)),
     values ++ valuesOf l v,
     match l with [] => modify | _ => true end).
Proof.
  induction l as [|f l IH]; intros Hall fields values modify Hne; cbn [saveDiff].
  - simpl. now rewrite append_empty_r, app_nil_r.
  - destruct (Hall f (or_introl eq_refl)) as [Hro Hdiff]. rewrite Hro, Hdiff, Hne.
    rewrite IH; [|intros g Hg; apply Hall; now right
                 |repeat apply append_not_empty; exact Hne].
    rewrite length_app. unfold comparison.
    cbn [List.length map combine seq fold_right valuesOf fst snd].
    rewrite <- !app_assoc, !append_assoc. cbn [app].
    replace (List.length values + 1 + 1) with (S (List.length values + 1)) by lia.
    destruct l; reflexivity.
Qed.

Lemma changedFields_pass (vdesc : StructDescription) (previous v : record) (f : Field) :
  In f (changedFields vdesc previous v) ->
  isReadonly f = false /\
  DeepEqual (FieldByIndex previous (Index f)) (FieldByIndex v (Index f)) = false.
Proof.
  unfold changedFields, updatable, differs. intro H. apply filter_In in H.
  destruct H as [_ H]. apply andb_true_iff in H. destruct H as [H1 H2].
  apply andb_true_iff in H1. destruct H1 as [_ H1].
  split; now apply negb_true_iff.
Qed.

(** X15.  The [update] of [SaveRecord], for any number of changed fields.
    When the snapshot is fetched and at least one field that is neither
    excluded nor readonly differs from it, [SaveRecord] executes one
    statement: [update <table> set ... <identity where>], whose [set]
    list names exactly the changed fields in declared order, with the
    placeholders that follow those of the identity clause, and whose
    arguments are the identity values followed by the new values.  A
    failure of the statement is returned wrapped as [SaveRecord] and the
    after-hook is not called; after a success the after-hook runs and
    its failure is returned. *)
Theorem SaveRecord_update_statement (m : Methods) (tx : Querier) (w : World)
    (vtyp : StructType) (vdesc : StructDescription) (v previous : record)
    (fetched : list event) :
  afterHook (BeforeSave m) (self w) = (Ptr (PStruct vtyp v), None) ->
  Description vtyp = inr vdesc ->
  getSQLIDFields vdesc <> [] ->
  FindFirstWhere CamelToSnake convertAssign queryLogger tx
    (identityWhere CamelToSnake parameterPrefix " and " (getSQLIDFields vdesc))
    (valuesOf (getSQLIDFields vdesc) v)
    (mkWorld (trace w ++ hookEvents "BeforeSave" (BeforeSave m))
             (Ptr (PStruct vtyp (zeroRecord vdesc)))) =
    (inr tt, mkWorld fetched (Ptr (PStruct vtyp previous))) ->
  changedFields vdesc previous v <> [] ->
  let ids := getSQLIDFields vdesc in
  let changed := changedFields vdesc previous v in
  let input := Ptr (PStruct vtyp v) in
  let query := "update " +s getSQLTableName CamelToSnake vdesc +s " "
               +s setList CamelToSnake parameterPrefix (List.length ids + 1) changed
               +s " " +s identityWhere CamelToSnake parameterPrefix " and " ids in
  let values := valuesOf ids v ++ valuesOf changed v in
  SaveRecord CamelToSnake convertAssign parameterPrefix queryLogger m tx w =
  match ExecContext tx query values with
  | Some err =>
      (inl (Wrap "SaveRecord" err),
       mkWorld (fetched ++ loggedAround queryLogger (EvExec query values) query values
                             (Some err))
               input)
  | None =>
      (match hookError "SaveRecord" "AfterSave" (AfterSave m) input with
       | Some e => inl e
       | None => inr tt
       end,
       mkWorld ((fetched ++ loggedAround queryLogger (EvExec query values) query values None)
                ++ hookEvents "AfterSave" (AfterSave m))
               (fst (afterHook (AfterSave m) input)))
  end.
Proof.
  intros Hhook Hd Hid Hfetch Hchanged ids changed input query values.
  assert (Hw : fst (saveWhere CamelToSnake parameterPrefix (getSQLIDFields vdesc) v "" [])
               = identityWhere CamelToSnake parameterPrefix " and " (getSQLIDFields vdesc))
    by now rewrite (proj1 (identityWhere_eq (getSQLIDFields vdesc) v)).
  rewrite <- Hw in Hfetch.
  rewrite (SaveRecord_after_fetch CamelToSnake convertAssign parameterPrefix queryLogger
             m tx w vtyp vdesc v previous fetched Hhook Hd Hid Hfetch).
  unfold saveAfterFetch.
  rewrite (proj1 (identityWhere_eq (getSQLIDFields vdesc) v)). cbn [fst].
  fold ids. fold changed.
  assert (Hdiff : saveDiff CamelToSnake parameterPrefix changed previous v ""
                    (valuesOf ids v) false =
                  (setList CamelToSnake parameterPrefix (List.length ids + 1) changed,
                   values, true)).
  { subst values. pose proof (changedFields_pass vdesc previous v) as Hpass.
    fold changed in Hpass.
    destruct changed as [|f rest] eqn:E; [contradiction|].
    cbn [saveDiff].
    destruct (Hpass f (or_introl eq_refl)) as [Hro Hdf]. rewrite Hro, Hdf.
    cbn [String.eqb String.append].
    rewrite saveDiff_from;
      [|intros g Hg; apply Hpass; now right | reflexivity].
    rewrite length_app, length_valuesOf. unfold setList, clauses, comparison.
    cbn [List.length Nat.add valuesOf map fst snd String.append].
    rewrite <- !app_assoc. cbn [app].
    replace (List.length ids + 1 + 1) with (S (List.length ids + 1)) by lia.
    assert (Hm : match rest with [] => true | _ :: _ => true end = true)
      by (destruct rest; reflexivity).
    rewrite Hm. reflexivity. }
  rewrite Hdiff. cbn [negb]. cbv zeta. fold query.
  rewrite exec_then_hook. reflexivity.
Qed.

(** X16.  When the snapshot cannot be fetched, because no row has the
    record's identity or because the query or the decoding fails,
    [SaveRecord] returns that error wrapped as
    [SaveRecord: couldn't find record]; it executes no statement, calls
    no after-hook, and leaves the record as the before-hook left it. *)
Theorem SaveRecord_fetch_failure (m : Methods) (tx : Querier) (w : World)
    (vtyp : StructType) (vdesc : StructDescription) (v : record)
    (err : error) (w' : World) :
  afterHook (BeforeSave m) (self w) = (Ptr (PStruct vtyp v), None) ->
  Description vtyp = inr vdesc ->
  getSQLIDFields vdesc <> [] ->
  FindFirstWhere CamelToSnake convertAssign queryLogger tx
    (identityWhere CamelToSnake parameterPrefix " and " (getSQLIDFields vdesc))
    (valuesOf (getSQLIDFields vdesc) v)
    (mkWorld (trace w ++ hookEvents "BeforeSave" (BeforeSave m))
             (Ptr (PStruct vtyp (zeroRecord vdesc)))) = (inl err, w') ->
  SaveRecord CamelToSnake convertAssign parameterPrefix queryLogger m tx w =
    (inl (Wrap "SaveRecord: couldn't find record" err),
     mkWorld (trace w') (Ptr (PStruct vtyp v)))
  /\ executed (trace w') = executed (trace w).
Proof.
  intros Hhook Hd Hid Hfetch. split.
  - unfold SaveRecord. enter_operation Hhook Hd Hid.
    rewrite (proj1 (identityWhere_eq (getSQLIDFields vdesc) v)).
    unfold bind at 1, withObject. cbn [trace self]. rewrite Hfetch.
    destruct w' as [tr' o']. cbn [self trace]. destruct o'; reflexivity.
  - exact (executed_fetched CamelToSnake convertAssign queryLogger
             _ _ _ _ _ _ _ _ _ Hfetch).
Qed.

(** *** No identity, no statement *)

Lemma getSQLIDFields_none (vdesc : StructDescription) :
  flaggedFields vdesc = [] ->
  (forall f, FieldNamed vdesc "ID" = Some f -> excluded f = true) ->
  getSQLIDFields vdesc = [].
Proof.
  intros Hfl Hid. unfold getSQLIDFields. cbv zeta.
  rewrite WithoutTagValue_excluded, filter_filter.
  change (filter (fun x => negb (excluded x) && hasIDParameter x) (Fields vdesc))
    with (flaggedFields vdesc).
  rewrite Hfl.
  destruct (FieldNamed vdesc "ID") as [f|]; [|reflexivity].
  specialize (Hid f eq_refl). unfold excluded in Hid.
  destruct (FieldTag f "sql") as [t|]; [|discriminate].
  now rewrite Hid.
Qed.

(** X17.  A struct type with no identity, that is with no field flagged [id]
    that is not excluded and no usable field declared as [ID], cannot be
    created, saved, replaced or deleted: each of the four operations,
    [ReplaceRecord] included although its statement needs no identity,
    returns the error that it could not determine the identity fields,
    after the before-hook has run and before any statement is sent. *)
Theorem operation_without_identity (op : operation) (m : Methods) (tx : Querier)
    (w : World) (vtyp : StructType) (vdesc : StructDescription) (v : record) :
  afterHook (beforeHook op m) (self w) = (Ptr (PStruct vtyp v), None) ->
  Description vtyp = inr vdesc ->
  flaggedFields vdesc = [] ->
  (forall f, FieldNamed vdesc "ID" = Some f -> excluded f = true) ->
  perform CamelToSnake convertAssign parameterPrefix queryLogger op m tx w =
    (inl (NoIDFields (opName op)),
     mkWorld (trace w ++ hookEvents (beforeName op) (beforeHook op m))
             (Ptr (PStruct vtyp v))).
Proof.
  intros Hhook Hd Hfl Hid.
  destruct (perform_starts_with_hook CamelToSnake convertAssign parameterPrefix queryLogger
              op m tx w) as [rest ->].
  unfold bind at 1. rewrite (runHook_ok _ _ _ _ _ Hhook).
  unfold bind at 1. rewrite checkInput_struct with (vdesc := vdesc) by exact Hd.
  now rewrite (getSQLIDFields_none vdesc Hfl Hid).
Qed.

(** *** The transaction helper *)

Lemma not_In_EvInTx (e : txEvent) (tr : list event) :
  (forall x, e <> EvInTx x) -> ~ In e (map EvInTx tr).
Proof.
  intros H Hin. apply in_map_iff in Hin. destruct Hin as (x & Hx & _).
  exact (H x (eq_sym Hx)).
Qed.

(** X18.  [SaveRecordWithTransaction], once the transaction is open, runs
    [SaveRecord] in it.  It asks for the commit exactly when [SaveRecord]
    returned no error, and it returns no error exactly when [SaveRecord]
    and the commit both succeeded; an error of [SaveRecord] is returned
    wrapped as [SaveRecordWithTransaction].  The rollback is asked for on
    every path, as the last call.  When the transaction cannot be
    opened, nothing else is asked of the database and the argument is
    untouched. *)
Theorem SaveRecordWithTransaction_commit_discipline (m : Methods) (db : DB)
    (input : iface) :
  let result := SaveRecordWithTransaction CamelToSnake convertAssign parameterPrefix
                  queryLogger m db input in
  match BeginTx db with
  | inr tx =>
      let saved := SaveRecord CamelToSnake convertAssign parameterPrefix queryLogger
                     m (TxQuerier tx) (mkWorld [] input) in
      (In EvCommit (snd (fst result)) <-> returned saved = None) /\
      (fst (fst result) = None <-> returned saved = None /\ Commit tx = None) /\
      (forall err, returned saved = Some err ->
                   fst (fst result) = Some (Wrap "SaveRecordWithTransaction" err)) /\
      (exists inside, snd (fst result) = EvBegin :: inside ++ [EvRollback]) /\
      snd result = self (final saved)
  | inl err =>
      result =
        (Some (Wrap "SaveRecordWithTransaction: couldn't open a transaction" err),
         [EvBegin], input)
  end.
Proof.
  intro result. subst result. unfold SaveRecordWithTransaction.
  destruct (BeginTx db) as [berr|tx]; [reflexivity|].
  set (saved := SaveRecord CamelToSnake convertAssign parameterPrefix queryLogger
                  m (TxQuerier tx) (mkWorld [] input)).
  cbv zeta. unfold returned, final.
  assert (Hno : ~ In EvCommit (map EvInTx (trace (snd saved))))
    by (apply not_In_EvInTx; discriminate).
  assert (Hyes : forall l, In EvCommit (EvBegin :: l ++ [EvCommit; EvRollback])).
  { intro l. right. apply in_or_app. right. now left. }
  destruct (fst saved) as [err|u]; [|destruct (Commit tx) as [cerr|]];
    cbn [fst snd app]; (split; [|split; [|split; [|split]]]).
  + split; [|discriminate]. intros [H|H]; [discriminate|].
    apply in_app_or in H. destruct H as [H|[H|[]]]; [contradiction | discriminate].
  + split; [discriminate | intros [H _]; discriminate].
  + intros e [= <-]. reflexivity.
  + now exists (map EvInTx (trace (snd saved))).
  + reflexivity.
  + split; [reflexivity | intros _; apply Hyes].
  + split; [discriminate | intros [_ H]; discriminate].
  + discriminate.
  + exists (map EvInTx (trace (snd saved)) ++ [EvCommit]).
    now rewrite <- app_assoc.
  + reflexivity.
  + split; [reflexivity | intros _; apply Hyes].
  + split; [now split | reflexivity].
  + discriminate.
  + exists (map EvInTx (trace (snd saved)) ++ [EvCommit]).
    now rewrite <- app_assoc.
  + reflexivity.
Qed.

End Mutators.

(* ================================================================== *)
(** ** Further properties: the order of the result columns *)
(* ================================================================== *)

Section ColumnOrder.

Variable convertAssign : value -> value -> error + value.

Lemma FieldByIndex_SetField_other (v : record) (i j : nat) (x : value) :
  i <> j -> FieldByIndex (SetField v i x) j = FieldByIndex v j.
Proof.
  unfold FieldByIndex. revert i j.
  induction v as [|y v IH]; intros [|i] [|j] H; simpl; try reflexivity.
  - contradiction.
  - apply IH. congruence.
Qed.

Lemma SetField_comm (v : record) (i j : nat) (a b : value) :
  i <> j -> SetField (SetField v i a) j b = SetField (SetField v j b) i a.
Proof.
  revert i j.
  induction v as [|y v IH]; intros [|i] [|j] H; simpl; try reflexivity.
  - contradiction.
  - f_equal. apply IH. congruence.
Qed.

Lemma rowsScan_permuted (cols cols' : list (option nat * value)) :
  Permutation cols cols' ->
  NoDup (bound cols) ->
  forall v r,
    rowsScan convertAssign (scanArgs (bound cols) None) (carried cols) v = inr r ->
    rowsScan convertAssign (scanArgs (bound cols') None) (carried cols') v = inr r.
Proof.
  unfold bound, carried.
  induction 1 as [|[i x] l l' HP IH|[i x] [j y] l|l l' l'' HP IH HP' IH']; intros Hnd v r H.
  - exact H.
  - inversion Hnd as [|? ? _ Hnd']; subst. simpl in *.
    destruct i as [i|]; [|discriminate].
    destruct (convertAssign (FieldByIndex v i) x) as [e|a]; [discriminate|].
    now apply IH.
  - inversion Hnd as [|? ? Hnot _]; subst. simpl in Hnot.
    assert (Hij : j <> i) by (intros ->; apply Hnot; now left).
    simpl in *.
    destruct j as [j|]; [|discriminate].
    destruct (convertAssign (FieldByIndex v j) y) as [e|b] eqn:Ej; [discriminate|].
    destruct i as [i|]; [|discriminate].
    assert (Hne : i <> j) by congruence.
    rewrite FieldByIndex_SetField_other in H by congruence.
    destruct (convertAssign (FieldByIndex v i) x) as [e|a] eqn:Ei; [discriminate|].
    rewrite FieldByIndex_SetField_other by exact Hne.
    rewrite Ej. now rewrite SetField_comm by exact Hne.
  - apply IH'; [|now apply IH].
    apply (Permutation_NoDup (Permutation_map fst HP)). exact Hnd.
Qed.

(** X19.  For a type without custom scanners, the record decoded from a row
    does not depend on the order in which the query returns the
    columns, as long as no two columns are bound to the same field: the
    same columns in another order decode to the same record, and fail
    to decode exactly when the first order does. *)
Theorem scanRow_column_order (vtyp : StructType) (vdesc : StructDescription)
    (goNames goNames' : list string) (cols cols' : list (option nat * value)) :
  OverrideScan vtyp = None ->
  Permutation cols cols' ->
  NoDup (bound cols) ->
  forall r,
    scanRow convertAssign vtyp vdesc goNames (bound cols) (carried cols) = inr r <->
    scanRow convertAssign vtyp vdesc goNames' (bound cols') (carried cols') = inr r.
Proof.
  intros Hno HP Hnd r. unfold scanRow. rewrite Hno. cbv zeta.
  assert (Hnd' : NoDup (bound cols'))
    by (apply (Permutation_NoDup (Permutation_map fst HP)); exact Hnd).
  split; intro H.
  - destruct (rowsScan convertAssign (scanArgs (bound cols) None) (carried cols)
                (zeroRecord vdesc)) as [e|r0] eqn:E; [discriminate|].
    rewrite (rowsScan_permuted cols cols' HP Hnd _ _ E). exact H.
  - destruct (rowsScan convertAssign (scanArgs (bound cols') None) (carried cols')
                (zeroRecord vdesc)) as [e|r0] eqn:E; [discriminate|].
    rewrite (rowsScan_permuted cols' cols (Permutation_sym HP) Hnd' _ _ E). exact H.
Qed.

End ColumnOrder.

(* ================================================================== *)
(** ** Further properties: the query logger *)
(* ================================================================== *)

Lemma unlogged_app (tr tr' : list event) :
  unlogged (tr ++ tr') = unlogged tr ++ unlogged tr'.
Proof. apply filter_app. Qed.

Lemma sameButLog_ret {A : Type} (a : A) : sameButLog (ret a) (ret a).
Proof. intros w w' Hs Ht. now repeat split. Qed.

Lemma sameButLog_throw {A : Type} (e : error) : sameButLog (@throw A e) (throw e).
Proof. intros w w' Hs Ht. now repeat split. Qed.

Lemma sameButLog_liftE {A : Type} (r : error + A) : sameButLog (liftE r) (liftE r).
Proof. intros w w' Hs Ht. now repeat split. Qed.

Lemma sameButLog_getSelf : sameButLog getSelf getSelf.
Proof. intros w w' Hs Ht. unfold getSelf; simpl. now rewrite Hs. Qed.

Lemma sameButLog_setSelf (x : iface) : sameButLog (setSelf x) (setSelf x).
Proof. intros w w' Hs Ht. now repeat split. Qed.

Lemma sameButLog_emit (e : event) : sameButLog (emit e) (emit e).
Proof.
  intros w w' Hs Ht. unfold emit; simpl. rewrite !unlogged_app, Ht. now repeat split.
Qed.

Lemma sameButLog_bind {A B : Type} (m m' : M A) (k k' : A -> M B) :
  sameButLog m m' -> (forall a, sameButLog (k a) (k' a)) ->
  sameButLog (bind m k) (bind m' k').
Proof.
  intros Hm Hk w w' Hs Ht. destruct (Hm w w' Hs Ht) as (Hr & Hs1 & Ht1).
  unfold bind.
  destruct (m w) as [[e|a] w1], (m' w') as [[e'|a'] w1']; simpl in *;
    try discriminate.
  - injection Hr as <-. split; [reflexivity | split; assumption].
  - injection Hr as <-. now apply Hk.
Qed.

Lemma sameButLog_withObject {A : Type} (o : iface) (m m' : M A) :
  sameButLog m m' -> sameButLog (withObject o m) (withObject o m').
Proof.
  intros Hm w w' Hs Ht.
  destruct (Hm (mkWorld (trace w) o) (mkWorld (trace w') o) eq_refl Ht) as (Hr & Hs1 & Ht1).
  unfold withObject.
  destruct (m (mkWorld (trace w) o)) as [r w1],
           (m' (mkWorld (trace w') o)) as [r' w1']; simpl in *.
  now rewrite Hr, Hs1.
Qed.

Lemma sameButLog_attempt {A : Type} (m m' : M A) :
  sameButLog m m' -> sameButLog (attempt m) (attempt m').
Proof.
  intros Hm w w' Hs Ht. destruct (Hm w w' Hs Ht) as (Hr & Hs1 & Ht1).
  unfold attempt. destruct (m w) as [r w1], (m' w') as [r' w1']; simpl in *.
  now rewrite Hr.
Qed.

Create HintDb sameButLog.
#[local] Hint Resolve sameButLog_ret sameButLog_throw sameButLog_liftE sameButLog_getSelf
  sameButLog_setSelf sameButLog_emit sameButLog_withObject sameButLog_attempt : sameButLog.

Ltac sameButLog_step :=
  match goal with
  | |- sameButLog (bind _ _) (bind _ _) => apply sameButLog_bind; [|intros]
  | |- sameButLog (match ?x with _ => _ end) (match ?x with _ => _ end) => destruct x
  | |- sameButLog (if ?b then _ else _) (if ?b then _ else _) => destruct b
  | |- sameButLog _ _ => solve [auto with sameButLog]
  end.

Section Logger.

Variable CamelToSnake : string -> string.
Variable convertAssign : value -> value -> error + value.
Variable parameterPrefix : string.
Variables queryLogger queryLogger' : option bool.

Lemma sameButLog_LogQuery (q : string) (a : list value) :
  sameButLog (LogQuery queryLogger q a) (LogQuery queryLogger' q a).
Proof.
  intros w w' Hs Ht. unfold LogQuery, emit, ret.
  destruct queryLogger, queryLogger'; simpl; rewrite ?unlogged_app; simpl;
    rewrite ?app_nil_r; now repeat split.
Qed.

Lemma sameButLog_LogQueryAfter (q : string) (a : list value) (e : option error) :
  sameButLog (LogQueryAfter queryLogger q a e) (LogQueryAfter queryLogger' q a e).
Proof.
  intros w w' Hs Ht. unfold LogQueryAfter, emit, ret.
  destruct queryLogger as [[|]|], queryLogger' as [[|]|]; simpl;
    rewrite ?unlogged_app; simpl; rewrite ?app_nil_r; now repeat split.
Qed.

Lemma sameButLog_execLogged (op : string) (tx : Querier) (q : string) (a : list value) :
  sameButLog (execLogged queryLogger op tx q a) (execLogged queryLogger' op tx q a).
Proof.
  pose proof sameButLog_LogQuery. pose proof sameButLog_LogQueryAfter.
  unfold execLogged. repeat sameButLog_step.
Qed.

Lemma sameButLog_runHook (op name : string) (h : option Hook) :
  sameButLog (runHook op name h) (runHook op name h).
Proof.
  unfold runHook. destruct h as [hook|]; [|auto with sameButLog].
  apply sameButLog_bind; [auto with sameButLog|intro input].
  apply sameButLog_bind; [auto with sameButLog|intros _].
  destruct (hook input) as [input' [e|]]; repeat sameButLog_step.
Qed.

Lemma sameButLog_checkInput (op : string) :
  sameButLog (checkInput op) (checkInput op).
Proof.
  intros w w' Hs Ht. rewrite (checkInput_pure op w), (checkInput_pure op w'); simpl.
  now rewrite Hs.
Qed.

Lemma sameButLog_ScanRows (rows : Rows) :
  sameButLog (ScanRows CamelToSnake convertAssign rows)
             (ScanRows CamelToSnake convertAssign rows).
Proof.
  intros [tr o] [tr' o'] Hs Ht. simpl in Hs, Ht. subst o'.
  rewrite (ScanRows_trace_frame CamelToSnake convertAssign rows tr o),
          (ScanRows_trace_frame CamelToSnake convertAssign rows tr' o).
  now repeat split.
Qed.

Lemma sameButLog_FindWhere (db : Querier) (where_ : string) (args : list value) :
  sameButLog (FindWhere CamelToSnake convertAssign queryLogger db where_ args)
             (FindWhere CamelToSnake convertAssign queryLogger' db where_ args).
Proof.
  pose proof sameButLog_LogQuery. pose proof sameButLog_LogQueryAfter.
  pose proof sameButLog_ScanRows.
  unfold FindWhere. repeat sameButLog_step.
Qed.

Lemma sameButLog_FindFirstWhere (db : Querier) (where_ : string) (args : list value) :
  sameButLog (FindFirstWhere CamelToSnake convertAssign queryLogger db where_ args)
             (FindFirstWhere CamelToSnake convertAssign queryLogger' db where_ args).
Proof.
  pose proof sameButLog_FindWhere.
  unfold FindFirstWhere. repeat sameButLog_step.
Qed.

Lemma sameButLog_CountWhere (db : Querier) (where_ : string) (args : list value) :
  sameButLog (CountWhere CamelToSnake convertAssign queryLogger db where_ args)
             (CountWhere CamelToSnake convertAssign queryLogger' db where_ args).
Proof.
  pose proof sameButLog_LogQuery. pose proof sameButLog_LogQueryAfter.
  unfold CountWhere. repeat sameButLog_step.
Qed.

Lemma sameButLog_perform (op : operation) (m : Methods) (tx : Querier) :
  sameButLog (perform CamelToSnake convertAssign parameterPrefix queryLogger op m tx)
             (perform CamelToSnake convertAssign parameterPrefix queryLogger' op m tx).
Proof.
  pose proof sameButLog_LogQuery. pose proof sameButLog_LogQueryAfter.
  pose proof sameButLog_execLogged. pose proof sameButLog_runHook.
  pose proof sameButLog_checkInput. pose proof sameButLog_FindFirstWhere.
  destruct op; unfold perform, CreateRecord, SaveRecord, ReplaceRecord, DeleteRecord.
  - repeat sameButLog_step.
  - repeat sameButLog_step.
  - repeat sameButLog_step.
  - repeat sameButLog_step.
Qed.

(** X20.  The query logger only observes.  Whether a logger is installed,
    and whether it also takes the calls made after a statement, changes
    nothing but the calls made to the logger: started on the same
    argument, each mutating operation and each select helper returns
    the same result, leaves the same argument, and makes the same calls
    to the database and to the hooks in the same order. *)
Theorem query_logger_only_observes (op : operation) (m : Methods) (tx : Querier)
    (where_ : string) (args : list value) (w : World) :
  agreeButLog (perform CamelToSnake convertAssign parameterPrefix queryLogger op m tx w)
              (perform CamelToSnake convertAssign parameterPrefix queryLogger' op m tx w)
  /\
  agreeButLog (FindWhere CamelToSnake convertAssign queryLogger tx where_ args w)
              (FindWhere CamelToSnake convertAssign queryLogger' tx where_ args w)
  /\
  agreeButLog (FindFirstWhere CamelToSnake convertAssign queryLogger tx where_ args w)
              (FindFirstWhere CamelToSnake convertAssign queryLogger' tx where_ args w)
  /\
  agreeButLog (CountWhere CamelToSnake convertAssign queryLogger tx where_ args w)
              (CountWhere CamelToSnake convertAssign queryLogger' tx where_ args w).
Proof.
  unfold agreeButLog. split; [|split; [|split]].
  - exact (sameButLog_perform op m tx w w eq_refl eq_refl).
  - exact (sameButLog_FindWhere tx where_ args w w eq_refl eq_refl).
  - exact (sameButLog_FindFirstWhere tx where_ args w w eq_refl eq_refl).
  - exact (sameButLog_CountWhere tx where_ args w w eq_refl eq_refl).
Qed.

End Logger.

(* ================================================================== *)
(** ** The further properties on the types of the tests *)
(* ================================================================== *)

(** [FindWhere] with a fragment, on the database of the tests. *)
Lemma FindWhere_sends_one_query_witness :
  statements (trace (final
    (FindWhere Tests.CamelToSnake Tests.convertAssign None Tests.simpleDB "where name = $1"
       [VString "test1"]
       (mkWorld [] (Ptr (PSlice Tests.SimpleObject Tests.oldItems)))))) =
  [EvQuery "select * from simple_objects where name = $1" [VString "test1"]].
Proof.
  exact (FindWhere_sends_one_query Tests.CamelToSnake Tests.convertAssign None
           Tests.simpleDB "where name = $1" [VString "test1"] [] Tests.SimpleObject
           Tests.oldItems (Tests.descriptionOf Tests.SimpleObject) eq_refl).
Defined.

(** [FindWhere] handed a pointer to a single struct. *)
Lemma FindWhere_bad_output_sends_nothing_witness :
  exists e,
    FindWhere Tests.CamelToSnake Tests.convertAssign None Tests.simpleDB "" []
      (mkWorld [] (Ptr (PStruct Tests.SimpleObject [VInt 1; VString "test1"]))) =
    (inl e, mkWorld [] (Ptr (PStruct Tests.SimpleObject [VInt 1; VString "test1"]))).
Proof.
  apply (FindWhere_bad_output_sends_nothing Tests.CamelToSnake Tests.convertAssign None
           Tests.simpleDB "" []
           (mkWorld [] (Ptr (PStruct Tests.SimpleObject [VInt 1; VString "test1"])))).
  intros t items H. discriminate H.
Defined.

(** [FindWhere] on a cursor that fails to close: the error is returned
    and the decoded row is in the caller's slice all the same. *)
Lemma FindWhere_output_on_error_witness :
  returned (FindWhere Tests.CamelToSnake Tests.convertAssign None
              (Tests.answering Tests.failingClose (VInt64 1)) "" []
              (mkWorld [] (Ptr (PSlice Tests.SimpleObject Tests.oldItems)))) =
    Some (Wrap "FindWhere" (External "close failed"))
  /\
  self (final (FindWhere Tests.CamelToSnake Tests.convertAssign None
                 (Tests.answering Tests.failingClose (VInt64 1)) "" []
                 (mkWorld [] (Ptr (PSlice Tests.SimpleObject Tests.oldItems))))) =
    Ptr (PSlice Tests.SimpleObject [[VInt 1; VString "test1"]]).
Proof.
  exact (proj2 (proj2 (FindWhere_output_on_error Tests.CamelToSnake Tests.convertAssign None
                         (Tests.answering Tests.failingClose (VInt64 1)) "" [] []
                         Tests.SimpleObject Tests.oldItems
                         (Tests.descriptionOf Tests.SimpleObject) eq_refl))
               Tests.failingClose [[VInt 1; VString "test1"]] (External "close failed")
               eq_refl eq_refl eq_refl).
Defined.

(** [FindFirstWhere] on a database that holds the row, and on one that
    does not. *)
Lemma FindFirstWhere_first_row_or_ErrNoRows_witness :
  FindFirstWhere Tests.CamelToSnake Tests.convertAssign None Tests.simpleDB "where id = $1"
    [VInt 1] (mkWorld [] (Ptr (PStruct Tests.SimpleObject [VInt 0; VString ""]))) =
    (inr tt,
     mkWorld [EvQuery "select * from simple_objects where id = $1 limit 1" [VInt 1]]
             (Ptr (PStruct Tests.SimpleObject [VInt 1; VString "test1"])))
  /\
  FindFirstWhere Tests.CamelToSnake Tests.convertAssign None Tests.emptyDB "where id = $1"
    [VInt 1] (mkWorld [] (Ptr (PStruct Tests.SimpleObject [VInt 0; VString ""]))) =
    (inl ErrNoRows,
     mkWorld [EvQuery "select * from simple_objects where id = $1 limit 1" [VInt 1]]
             (Ptr (PStruct Tests.SimpleObject [VInt 0; VString ""]))).
Proof.
  split.
  - exact (FindFirstWhere_first_row_or_ErrNoRows Tests.CamelToSnake Tests.convertAssign
             None Tests.simpleDB "where id = $1" [VInt 1] [] Tests.SimpleObject
             [VInt 0; VString ""] (Tests.descriptionOf Tests.SimpleObject)
             Tests.storedSimple [[VInt 1; VString "test1"]]
             eq_refl eq_refl eq_refl eq_refl).
  - exact (FindFirstWhere_first_row_or_ErrNoRows Tests.CamelToSnake Tests.convertAssign
             None Tests.emptyDB "where id = $1" [VInt 1] [] Tests.SimpleObject
             [VInt 0; VString ""] (Tests.descriptionOf Tests.SimpleObject)
             Tests.noRows [] eq_refl eq_refl eq_refl eq_refl).
Defined.

(** [FindFirstWhere] finds no row: the record keeps what it held. *)
Lemma FindFirstWhere_error_keeps_record_witness :
  self (snd (FindFirstWhere Tests.CamelToSnake Tests.convertAssign None Tests.emptyDB
               "where id = $1" [VInt 7]
               (mkWorld [] (Ptr (PStruct Tests.SimpleObject [VInt 7; VString "kept"]))))) =
  Ptr (PStruct Tests.SimpleObject [VInt 7; VString "kept"]).
Proof.
  exact (FindFirstWhere_error_keeps_record Tests.CamelToSnake Tests.convertAssign None
           Tests.emptyDB "where id = $1" [VInt 7]
           (mkWorld [] (Ptr (PStruct Tests.SimpleObject [VInt 7; VString "kept"])))
           ErrNoRows eq_refl).
Defined.

(** [FindFirstWhere] with a fragment, whether or not a row is found. *)
Lemma FindFirstWhere_sends_one_limited_query_witness :
  statements (trace (final
    (FindFirstWhere Tests.CamelToSnake Tests.convertAssign None Tests.emptyDB "where id = $1"
       [VInt 7]
       (mkWorld [] (Ptr (PStruct Tests.SimpleObject [VInt 7; VString "kept"])))))) =
  [EvQuery "select * from simple_objects where id = $1 limit 1" [VInt 7]].
Proof.
  exact (FindFirstWhere_sends_one_limited_query Tests.CamelToSnake Tests.convertAssign
           None Tests.emptyDB "where id = $1" [VInt 7] [] Tests.SimpleObject
           [VInt 7; VString "kept"] (Tests.descriptionOf Tests.SimpleObject) eq_refl).
Defined.

(** [FindAll], [FindFirst] and [CountAll] on [SimpleObject]. *)
Lemma helpers_without_where_witness :
  statements (trace (final
    (FindAll Tests.CamelToSnake Tests.convertAssign None Tests.simpleDB
       (mkWorld [] (Ptr (PSlice Tests.SimpleObject [])))))) =
    [EvQuery "select * from simple_objects" []]
  /\
  statements (trace (final
    (FindFirst Tests.CamelToSnake Tests.convertAssign None Tests.simpleDB
       (mkWorld [] (Ptr (PStruct Tests.SimpleObject [VInt 0; VString ""])))))) =
    [EvQuery "select * from simple_objects limit 1" []]
  /\
  statements (trace (final
    (CountAll Tests.CamelToSnake Tests.convertAssign None Tests.simpleDB
       (mkWorld [] (Ptr (PStruct Tests.SimpleObject [VInt 0; VString ""])))))) =
    [EvQueryRow "select count(*) from simple_objects" []].
Proof.
  exact (helpers_without_where Tests.CamelToSnake Tests.convertAssign None Tests.simpleDB
           [] Tests.SimpleObject [] [VInt 0; VString ""]
           (Tests.descriptionOf Tests.SimpleObject) eq_refl).
Defined.

(** [CountWhere] on a database that answers the count 1. *)
Lemma CountWhere_one_query_witness :
  self (final (CountWhere Tests.CamelToSnake Tests.convertAssign None Tests.simpleDB
                 "where name = $1" [VString "test1"]
                 (mkWorld [] (Ptr (PStruct Tests.SimpleObject [VInt 0; VString ""]))))) =
    Ptr (PStruct Tests.SimpleObject [VInt 0; VString ""])
  /\
  statements (trace (final
    (CountWhere Tests.CamelToSnake Tests.convertAssign None Tests.simpleDB
       "where name = $1" [VString "test1"]
       (mkWorld [] (Ptr (PStruct Tests.SimpleObject [VInt 0; VString ""])))))) =
    [EvQueryRow "select count(*) from simple_objects where name = $1" [VString "test1"]]
  /\
  fst (CountWhere Tests.CamelToSnake Tests.convertAssign None Tests.simpleDB
         "where name = $1" [VString "test1"]
         (mkWorld [] (Ptr (PStruct Tests.SimpleObject [VInt 0; VString ""])))) =
    inr 1%Z.
Proof.
  exact (CountWhere_one_query Tests.CamelToSnake Tests.convertAssign None Tests.simpleDB
           "where name = $1" [VString "test1"] [] Tests.SimpleObject [VInt 0; VString ""]
           (Tests.descriptionOf Tests.SimpleObject) eq_refl).
Defined.

(** [ReplaceRecord] on a [SimpleObject], as in [TestReplaceRecord]. *)
Lemma single_statement_operation_witness :
  perform Tests.CamelToSnake Tests.convertAssign "" None Replace noMethods Tests.simpleDB
    (mkWorld [] (Ptr (PStruct Tests.SimpleObject [VInt 1; VString "test1"]))) =
    (inr tt,
     mkWorld [EvExec "insert or replace into simple_objects (id, name) values ($1, $2)"
                     [VInt 1; VString "test1"]]
             (Ptr (PStruct Tests.SimpleObject [VInt 1; VString "test1"]))).
Proof.
  apply (single_statement_operation Tests.CamelToSnake Tests.convertAssign "" None
           Replace noMethods Tests.simpleDB
           (mkWorld [] (Ptr (PStruct Tests.SimpleObject [VInt 1; VString "test1"])))
           Tests.SimpleObject (Tests.descriptionOf Tests.SimpleObject)
           [VInt 1; VString "test1"]
           "insert or replace into simple_objects (id, name) values ($1, $2)"
           [VInt 1; VString "test1"]);
    try reflexivity.
  discriminate.
Defined.

(** [CreateRecord] on a database that refuses the [insert]. *)
Lemma CreateRecord_insert_failure_witness :
  CreateRecord Tests.CamelToSnake Tests.convertAssign "" None noMethods
    (Tests.refusing (External "disk full"))
    (mkWorld [] (Ptr (PStruct Tests.SimpleObject [VInt 0; VString "test1"]))) =
    (inl (Wrap "CreateRecord" (External "disk full")),
     mkWorld [EvExec "insert into simple_objects (name) values ($1)" [VString "test1"]]
             (Ptr (PStruct Tests.SimpleObject [VInt 0; VString "test1"]))).
Proof.
  apply (CreateRecord_insert_failure Tests.CamelToSnake Tests.convertAssign "" None
           noMethods (Tests.refusing (External "disk full"))
           (mkWorld [] (Ptr (PStruct Tests.SimpleObject [VInt 0; VString "test1"])))
           Tests.SimpleObject (Tests.descriptionOf Tests.SimpleObject)
           [VInt 0; VString "test1"] (External "disk full"));
    try reflexivity.
  discriminate.
Defined.

(** [SaveRecord] on a [CompositeIDObject] whose name changed, as in
    [TestSaveRecordCompositeID]. *)
Lemma SaveRecord_update_statement_witness :
  SaveRecord Tests.CamelToSnake Tests.convertAssign "" None noMethods Tests.compositeDB
    (mkWorld [] (Ptr (PStruct Tests.CompositeIDObject
                        [VInt 101; VInt 201; VString "test1_modified"]))) =
    (inr tt,
     mkWorld [EvQuery "select * from composite_id_objects where id_1 = $1 and id_2 = $2 limit 1"
                      [VInt 101; VInt 201];
              EvExec "update composite_id_objects set name = $3 where id_1 = $1 and id_2 = $2"
                     [VInt 101; VInt 201; VString "test1_modified"]]
             (Ptr (PStruct Tests.CompositeIDObject
                     [VInt 101; VInt 201; VString "test1_modified"]))).
Proof.
  apply (SaveRecord_update_statement Tests.CamelToSnake Tests.convertAssign "" None
           noMethods Tests.compositeDB
           (mkWorld [] (Ptr (PStruct Tests.CompositeIDObject
                               [VInt 101; VInt 201; VString "test1_modified"])))
           Tests.CompositeIDObject (Tests.descriptionOf Tests.CompositeIDObject)
           [VInt 101; VInt 201; VString "test1_modified"]
           [VInt 101; VInt 201; VString "test1"]
           [EvQuery "select * from composite_id_objects where id_1 = $1 and id_2 = $2 limit 1"
                    [VInt 101; VInt 201]]);
    try reflexivity.
  - discriminate.
  - discriminate.
Defined.

(** [SaveRecord] of a record the database does not hold. *)
Lemma SaveRecord_fetch_failure_witness :
  SaveRecord Tests.CamelToSnake Tests.convertAssign "" None noMethods Tests.emptyDB
    (mkWorld [] (Ptr (PStruct Tests.SimpleObject [VInt 1; VString "test1"]))) =
    (inl (Wrap "SaveRecord: couldn't find record" ErrNoRows),
     mkWorld (trace (mkWorld
                [EvQuery "select * from simple_objects where id = $1 limit 1" [VInt 1]]
                (Ptr (PStruct Tests.SimpleObject [VInt 0; VString ""]))))
             (Ptr (PStruct Tests.SimpleObject [VInt 1; VString "test1"])))
  /\
  executed (trace (mkWorld
              [EvQuery "select * from simple_objects where id = $1 limit 1" [VInt 1]]
              (Ptr (PStruct Tests.SimpleObject [VInt 0; VString ""])))) =
  executed (trace (mkWorld [] (Ptr (PStruct Tests.SimpleObject [VInt 1; VString "test1"])))).
Proof.
  apply (SaveRecord_fetch_failure Tests.CamelToSnake Tests.convertAssign "" None
           noMethods Tests.emptyDB
           (mkWorld [] (Ptr (PStruct Tests.SimpleObject [VInt 1; VString "test1"])))
           Tests.SimpleObject (Tests.descriptionOf Tests.SimpleObject)
           [VInt 1; VString "test1"] ErrNoRows
           (mkWorld [EvQuery "select * from simple_objects where id = $1 limit 1" [VInt 1]]
                    (Ptr (PStruct Tests.SimpleObject [VInt 0; VString ""]))));
    try reflexivity.
  discriminate.
Defined.

(** [DeleteRecord] on a type without identity. *)
Lemma operation_without_identity_witness :
  perform Tests.CamelToSnake Tests.convertAssign "" None Delete noMethods Tests.simpleDB
    (mkWorld [] (Ptr (PStruct Tests.Note [VString "remember"]))) =
    (inl (NoIDFields "DeleteRecord"),
     mkWorld [] (Ptr (PStruct Tests.Note [VString "remember"]))).
Proof.
  apply (operation_without_identity Tests.CamelToSnake Tests.convertAssign "" None
           Delete noMethods Tests.simpleDB
           (mkWorld [] (Ptr (PStruct Tests.Note [VString "remember"])))
           Tests.Note (Tests.descriptionOf Tests.Note) [VString "remember"]);
    try reflexivity.
  intros f H. discriminate H.
Defined.

(** The row of [storedSimple] with its two columns in either order. *)
Lemma scanRow_column_order_witness :
  scanRow Tests.convertAssign Tests.SimpleObject (Tests.descriptionOf Tests.SimpleObject)
    ["ID"; "Name"] [Some 0; Some 1] [VInt64 1; VString "test1"] =
    inr [VInt 1; VString "test1"]
  <->
  scanRow Tests.convertAssign Tests.SimpleObject (Tests.descriptionOf Tests.SimpleObject)
    ["Name"; "ID"] [Some 1; Some 0] [VString "test1"; VInt64 1] =
    inr [VInt 1; VString "test1"].
Proof.
  apply (scanRow_column_order Tests.convertAssign Tests.SimpleObject
           (Tests.descriptionOf Tests.SimpleObject) ["ID"; "Name"] ["Name"; "ID"]
           [(Some 0, VInt64 1); (Some 1, VString "test1")]
           [(Some 1, VString "test1"); (Some 0, VInt64 1)]).
  - reflexivity.
  - apply perm_swap.
  - repeat constructor; simpl; intuition discriminate.
Defined.
